(** * FinGestão backend (backend/server.py): reports and authentication

    A shallow embedding of the parts of [server.py] that derive report
    figures from the transaction ledger (monthly report, dashboard) and of
    the authentication lifecycle (login rate limiting, refresh-token
    rotation, category deletion with reassignment).

    Conventions of the embedding:
    - a Python [float] is a binary64 primitive float; [sum(...)] is the
      left fold of [+] starting from [0]; [round(x, 2)] is [round2];
    - a stored ISO-8601 date is a [string], compared the way Python and
      MongoDB compare strings (lexicographically by code point);
    - a MongoDB collection is the [list] of its documents in natural order;
    - a handler that raises [HTTPException(status_code=n)] returns [Err n];
    - the process-wide dict [login_attempts] is a [gmap string (Z * Z)]
      threaded through the calls that read or update it. *)

From Stdlib Require Import ZArith Floats Uint63 String Ascii List Bool Lia Sorted.
From stdpp Require Import base option list gmap strings.

Set Warnings "-inexact-float,-abstract-large-number".
#[local] Open Scope Z_scope.

(* ================================================================== *)
(** * Python numerics *)
(* ================================================================== *)

Module Py.

(** [sum(xs)]: [0 + x1 + x2 + ...], accumulated left to right. *)
Definition sum (xs : list float) : float :=
  fold_left PrimFloat.add xs 0%float.

(** Round-half-even of the rational [num / 2^sh] to an integer. *)
Definition rhe_shift (num : Z) (sh : Z) : Z :=
  let den := Z.shiftl 1 sh in
  let q := num / den in
  let r := num mod den in
  match Z.compare (2 * r) den with
  | Lt => q
  | Gt => q + 1
  | Eq => if Z.even q then q else q + 1
  end.

(** The integer nearest to [m * 2^e * 100] (ties to even): the digits that
    CPython's [double_round] obtains from [_Py_dg_dtoa(x, 3, 2, ...)]. *)
Definition cents (m : positive) (e : Z) : Z :=
  if 0 <=? e then Z.pos m * Z.shiftl 1 e * 100
  else rhe_shift (Z.pos m * 100) (- e).

(** [round(x, 2)] on a float: the exact binary value is rounded half-even
    to two decimals and the decimal is converted back to the nearest
    double ([_Py_dg_strtod]); zeros, infinities and NaN are returned as
    they are. *)
Definition round2 (x : float) : float :=
  match Prim2SF x with
  | S754_finite s m e =>
      match cents m e with
      | Z.pos n =>
          SF2Prim (SFdiv prec emax (S754_finite s n 0) (S754_finite false 100 0))
      | _ => if s then PrimFloat.neg_zero else PrimFloat.zero
      end
  | _ => x
  end.

End Py.

(* ================================================================== *)
(** * Python strings and datetimes *)
(* ================================================================== *)

Module Str.

(** [a <= b] on [str]: lexicographic order on code points. *)
Definition le (a b : string) : bool := String.leb a b.

(** [s[:n]]. *)
Definition prefix (n : nat) (s : string) : string := String.substring 0 n s.

(** [s.replace('Z', '+00:00')]: every occurrence is replaced. *)
Fixpoint replace_Z (s : string) : string :=
  match s with
  | EmptyString => EmptyString
  | String c r =>
      if Ascii.eqb c "Z" then ("+00:00" ++ replace_Z r)%string
      else String c (replace_Z r)
  end.

Definition digit (n : Z) : ascii := ascii_of_N (Z.to_N (48 + n mod 10)).

(** ["%02d" % n], ["%04d" % n] and ["%06d" % n] for a field in range. *)
Definition pad2 (n : Z) : string :=
  String (digit (n / 10)) (String (digit n) EmptyString).
Definition pad4 (n : Z) : string := (pad2 (n / 100) ++ pad2 (n mod 100))%string.
Definition pad6 (n : Z) : string := (pad2 (n / 10000) ++ pad4 (n mod 10000))%string.

Definition digit_val (c : ascii) : option Z :=
  let n := Z.of_N (N_of_ascii c) in
  if (48 <=? n) && (n <=? 57) then Some (n - 48) else None.

Fixpoint digits_val (s : string) (acc : Z) : option Z :=
  match s with
  | EmptyString => Some acc
  | String c r =>
      match digit_val c with
      | Some d => digits_val r (acc * 10 + d)
      | None => None
      end
  end.

(** The decimal number written in [s[pos : pos + len]], if that slice is
    [len] digits. *)
Definition num (s : string) (pos len : nat) : option Z :=
  let sub := String.substring pos len s in
  if Nat.eqb (String.length sub) len then digits_val sub 0 else None.

End Str.

Module DT.

(** A [timedelta] is its total number of microseconds. *)
Definition timedelta := Z.
Definition US_PER_SECOND : Z := 1000000.
Definition US_PER_DAY : Z := 86400 * US_PER_SECOND.
Definition seconds (n : Z) : timedelta := n * US_PER_SECOND.
Definition minutes (n : Z) : timedelta := n * 60 * US_PER_SECOND.
Definition days (n : Z) : timedelta := n * US_PER_DAY.

(** [td.days]: timedeltas are normalised with [0 <= seconds < 86400], so
    the day count is the floor. *)
Definition td_days (td : timedelta) : Z := td / US_PER_DAY.

(** A [datetime]: the wall-clock reading, in microseconds counted from
    the start of proleptic-Gregorian ordinal day 0, and the UTC offset in
    minutes of an aware value ([None] for a naive one). *)
Record datetime := mk_datetime { wall : Z; utcoff : option Z }.

Definition is_leap (y : Z) : bool :=
  (y mod 4 =? 0) && (negb (y mod 100 =? 0) || (y mod 400 =? 0)).

Definition days_in_month (y m : Z) : Z :=
  if m =? 2 then (if is_leap y then 29 else 28)
  else if (m =? 4) || (m =? 6) || (m =? 9) || (m =? 11) then 30 else 31.

(** [_DAYS_BEFORE_MONTH[m]] for a common year. *)
Definition days_before_month_common (m : Z) : Z :=
  nth (Z.to_nat m) [0; 0; 31; 59; 90; 120; 151; 181; 212; 243; 273; 304; 334] 0.

Definition days_before_month (y m : Z) : Z :=
  days_before_month_common m + (if (2 <? m) && is_leap y then 1 else 0).

Definition days_before_year (y : Z) : Z :=
  let p := y - 1 in p * 365 + p / 4 - p / 100 + p / 400.

(** [_ymd2ord]: 0001-01-01 is day 1. *)
Definition ymd2ord (y m d : Z) : Z :=
  days_before_year y + days_before_month y m + d.

(** [_ord2ymd], the inverse of [ymd2ord]. *)
Definition ord2ymd (ord : Z) : Z * Z * Z :=
  let n := ord - 1 in
  let n400 := n / 146097 in
  let n := n mod 146097 in
  let n100 := n / 36524 in
  let n := n mod 36524 in
  let n4 := n / 1461 in
  let n := n mod 1461 in
  let n1 := n / 365 in
  let n := n mod 365 in
  let year := n400 * 400 + 1 + n100 * 100 + n4 * 4 + n1 in
  if (n1 =? 4) || (n100 =? 4) then (year - 1, 12, 31)
  else
    let leapyear := (n1 =? 3) && (negb (n4 =? 24) || (n100 =? 3)) in
    let month := Z.shiftr (n + 50) 5 in
    let preceding :=
      days_before_month_common month
      + (if (2 <? month) && leapyear then 1 else 0) in
    if n <? preceding then
      let month' := month - 1 in
      let dim :=
        (if month' =? 2 then (if leapyear then 29 else 28)
         else days_in_month 1 month') in
      (year, month', n - (preceding - dim) + 1)
    else (year, month, n - preceding + 1).

(** [datetime(y, m, d, hh, mm, ss, tzinfo=...)]. *)
Definition at_ (y m d hh mm ss : Z) (off : option Z) : datetime :=
  mk_datetime (ymd2ord y m d * US_PER_DAY
               + seconds (hh * 3600 + mm * 60 + ss)) off.

(** [dt - td]: wall-clock arithmetic, the tzinfo is kept. *)
Definition minus (dt : datetime) (td : timedelta) : datetime :=
  mk_datetime (wall dt - td) (utcoff dt).

(** [a - b] on datetimes: the naive difference of two naive values, the
    elapsed time between two aware ones, [TypeError] ([None]) when one is
    naive and the other aware. *)
Definition diff (a b : datetime) : option timedelta :=
  match utcoff a, utcoff b with
  | None, None => Some (wall a - wall b)
  | Some oa, Some ob => Some ((wall a - minutes oa) - (wall b - minutes ob))
  | _, _ => None
  end.

(** [dt.isoformat()]: [YYYY-MM-DDTHH:MM:SS[.ffffff][+HH:MM]]. *)
Definition isoformat (dt : datetime) : string :=
  let '(y, m, d) := ord2ymd (wall dt / US_PER_DAY) in
  let tod := wall dt mod US_PER_DAY in
  let s := tod / US_PER_SECOND in
  let us := tod mod US_PER_SECOND in
  (Str.pad4 y ++ "-" ++ Str.pad2 m ++ "-" ++ Str.pad2 d ++ "T"
   ++ Str.pad2 (s / 3600) ++ ":" ++ Str.pad2 (s / 60 mod 60) ++ ":"
   ++ Str.pad2 (s mod 60)
   ++ (if (us =? 0)%Z then "" else "." ++ Str.pad6 us)
   ++ match utcoff dt with
      | None => ""
      | Some o =>
          (if (o <? 0)%Z then "-" else "+")
          ++ Str.pad2 (Z.abs o / 60) ++ ":" ++ Str.pad2 (Z.abs o mod 60)
      end)%string.

(** A parser for the spellings that [isoformat] writes and for a bare
    [YYYY-MM-DD]. It instantiates the [fromisoformat] parameter of the
    report handlers on concrete requests. *)
Definition parse_offset (s : string) : option (option Z) :=
  match s with
  | EmptyString => Some None
  | String sg r =>
      if Nat.eqb (String.length r) 5 && Ascii.eqb (nth 2 (list_ascii_of_string r) "0"%char) ":" then
        match Str.num r 0 2, Str.num r 3 2 with
        | Some h, Some m =>
            if Ascii.eqb sg "+" then Some (Some (h * 60 + m))
            else if Ascii.eqb sg "-" then Some (Some (- (h * 60 + m)))
            else None
        | _, _ => None
        end
      else None
  end.

Definition parse_fraction (s : string) : option (Z * string) :=
  match s with
  | String "." r =>
      match Str.num r 0 6 with
      | Some us => Some (us, String.substring 6 (String.length r - 6) r)
      | None => None
      end
  | _ => Some (0, s)
  end.

Definition fromisoformat_basic (s : string) : option datetime :=
  match Str.num s 0 4, Str.num s 5 2, Str.num s 8 2 with
  | Some y, Some m, Some d =>
      if (1 <=? y) && (1 <=? m) && (m <=? 12) && (1 <=? d)
         && (d <=? days_in_month y m)
         && (String.substring 4 1 s =? "-")%string
         && (String.substring 7 1 s =? "-")%string
      then
        if Nat.eqb (String.length s) 10 then Some (at_ y m d 0 0 0 None)
        else
          match Str.num s 11 2, Str.num s 14 2, Str.num s 17 2 with
          | Some hh, Some mm, Some ss =>
              if (hh <? 24) && (mm <? 60) && (ss <? 60)
                 && (String.substring 13 1 s =? ":")%string
                 && (String.substring 16 1 s =? ":")%string
              then
                match parse_fraction (String.substring 19 (String.length s - 19) s) with
                | Some (us, rest) =>
                    match parse_offset rest with
                    | Some off =>
                        Some (mk_datetime (wall (at_ y m d hh mm ss None) + us) off)
                    | None => None
                    end
                | None => None
                end
              else None
          | _, _, _ => None
          end
      else None
  | _, _, _ => None
  end.

End DT.

(* ================================================================== *)
(** * Data model *)
(* ================================================================== *)

(** The outcome of a request handler: the response, or the status code of
    the [HTTPException] (500 for an uncaught Python exception). *)
Inductive result (A : Type) : Type :=
| Ok (a : A)
| Err (status : Z).
Arguments Ok {A} a.
Arguments Err {A} status.

Inductive TxType := INCOME | EXPENSE.

Definition TxType_eqb (a b : TxType) : bool :=
  match a, b with
  | INCOME, INCOME | EXPENSE, EXPENSE => true
  | _, _ => false
  end.

(** A document of [db.transactions]. *)
Record Transaction := mk_tx {
  tx_id : string;
  tx_user_id : string;
  tx_type : TxType;
  tx_description : string;
  tx_amount : float;
  tx_date : string;
  tx_category_id : string;
  tx_payment_method : option string;
  tx_notes : option string;
  tx_created_at : string;
  tx_updated_at : string;
  tx_deleted_at : option string
}.

(** A document of [db.categories]. *)
Record Category := mk_cat {
  cat_id : string;
  cat_user_id : string;
  cat_name : string;
  cat_type : string;
  cat_color : string;
  cat_icon : option string;
  cat_created_at : string
}.

(** A document of [db.users]. *)
Record User := mk_user {
  u_id : string;
  u_email : string;
  u_name : string;
  u_password : string;
  u_theme : string;
  u_created_at : string
}.

(** A document of [db.refresh_tokens]. *)
Record RefreshToken := mk_rt {
  rt_id : string;
  rt_user_id : string;
  rt_token : string;
  rt_created_at : Z;
  rt_expires_at : Z
}.

Record DB := mk_db {
  users : list User;
  categories : list Category;
  transactions : list Transaction;
  refresh_tokens : list RefreshToken
}.

(* ================================================================== *)
(** * Aggregation helpers shared by the two report handlers *)
(* ================================================================== *)

Definition is_None {A} (o : option A) : bool :=
  match o with None => true | Some _ => false end.

(** The filter [{"user_id": uid, "deleted_at": None}]. *)
Definition live (uid : string) (t : Transaction) : bool :=
  (tx_user_id t =? uid)%string && is_None (tx_deleted_at t).

(** [db.transactions.find({"user_id": uid, "deleted_at": None,
    "date": {"$gte": lo, "$lte": hi}}).to_list(limit)]. *)
Definition find_in_range (txs : list Transaction) (uid lo hi : string)
    (limit : nat) : list Transaction :=
  firstn limit
    (List.filter (fun t => live uid t && Str.le lo (tx_date t)
                           && Str.le (tx_date t) hi) txs).

(** [sum(t["amount"] for t in txs if t["type"] == ty)]. *)
Definition sum_of_type (ty : TxType) (txs : list Transaction) : float :=
  Py.sum (map tx_amount (List.filter (fun t => TxType_eqb (tx_type t) ty) txs)).

(** [income - expense] of a fetched list, the way both handlers form a
    balance from its two sums. *)
Definition balance (txs : list Transaction) : float :=
  (sum_of_type INCOME txs - sum_of_type EXPENSE txs)%float.

(** [d[k] = d.get(k, 0) + v] on an insertion-ordered dict. *)
Fixpoint dict_add (k : string) (v : float) (d : list (string * float))
    : list (string * float) :=
  match d with
  | [] => [(k, (0 + v)%float)]
  | (k', v') :: r =>
      if (k' =? k)%string then (k', (v' + v)%float) :: r
      else (k', v') :: dict_add k v r
  end.

(** The loop that fills [expense_by_category]. *)
Definition expense_by_category (txs : list Transaction) : list (string * float) :=
  fold_left
    (fun d t =>
       match tx_type t with
       | EXPENSE => dict_add (tx_category_id t) (tx_amount t) d
       | INCOME => d
       end)
    txs [].

(** [db.categories.find({"id": {"$in": cat_ids}}).to_list(len(cat_ids))],
    skipped when [cat_ids] is empty. *)
Definition fetch_categories (cats : list Category) (cat_ids : list string)
    : list Category :=
  firstn (length cat_ids)
    (List.filter (fun c => existsb (String.eqb (cat_id c)) cat_ids) cats).

(** [{c["id"]: c for c in cats}.get(k)]: the last document wins. *)
Definition categories_get (cats : list Category) (k : string) : option Category :=
  List.find (fun c => (cat_id c =? k)%string) (rev cats).

Record CategoryAmount := mk_ca {
  ca_category_id : string;
  ca_name : string;
  ca_color : string;
  ca_amount : float
}.

(** The list comprehension over [expense_by_category.items()];
    [fallback] is the placeholder name of a category that is gone. *)
Definition category_rows (fallback : string) (cats : list Category)
    (by_cat : list (string * float)) : list CategoryAmount :=
  let categories := fetch_categories cats (map fst by_cat) in
  map (fun kv =>
         let c := categories_get categories (fst kv) in
         mk_ca (fst kv)
               (from_option cat_name fallback c)
               (from_option cat_color "#71717a"%string c)
               (snd kv))
      by_cat.

(** [sorted(rows, key=lambda x: x["amount"], reverse=True)]: descending,
    rows of equal amount keep their order (amounts are sums of positive
    stored amounts, hence ordered). *)
Fixpoint insert_desc (x : CategoryAmount) (l : list CategoryAmount)
    : list CategoryAmount :=
  match l with
  | [] => [x]
  | y :: r =>
      if (ca_amount x <? ca_amount y)%float then y :: insert_desc x r
      else x :: y :: r
  end.

Definition sorted_by_amount_desc (l : list CategoryAmount) : list CategoryAmount :=
  fold_right insert_desc [] l.

(** One day of [daily_data]: [{"income": ..., "expense": ...}]. *)
Definition day_add (ty : TxType) (v : float) (ie : float * float) : float * float :=
  match ty with
  | INCOME => ((fst ie + v)%float, snd ie)
  | EXPENSE => (fst ie, (snd ie + v)%float)
  end.

Fixpoint daily_add (k : string) (ty : TxType) (v : float)
    (d : list (string * (float * float))) : list (string * (float * float)) :=
  match d with
  | [] => [(k, day_add ty v (0%float, 0%float))]
  | (k', ie) :: r =>
      if (k' =? k)%string then (k', day_add ty v ie) :: r
      else (k', ie) :: daily_add k ty v r
  end.

(** The loop that fills [daily_data], keyed by [t["date"][:10]]. *)
Definition daily_data (txs : list Transaction) : list (string * (float * float)) :=
  fold_left
    (fun d t => daily_add (Str.prefix 10 (tx_date t)) (tx_type t) (tx_amount t) d)
    txs [].

(** [sorted(daily_data.items())]: ascending by the (unique) date key. *)
Fixpoint insert_day (x : string * (float * float))
    (l : list (string * (float * float))) : list (string * (float * float)) :=
  match l with
  | [] => [x]
  | y :: r =>
      if String.ltb (fst y) (fst x) then y :: insert_day x r
      else x :: y :: r
  end.

Definition sorted_days (d : list (string * (float * float)))
    : list (string * (float * float)) :=
  fold_right insert_day [] d.

(* ================================================================== *)
(** * Report handlers *)
(* ================================================================== *)

Record DailyBalance := mk_daily_balance {
  dbal_date : string;
  dbal_income : float;
  dbal_expense : float;
  dbal_balance : float
}.

Record MonthlyReportResponse := mk_monthly {
  mr_month : Z;
  mr_year : Z;
  mr_total_income : float;
  mr_total_expense : float;
  mr_balance : float;
  mr_income_change : option float;
  mr_expense_change : option float;
  mr_top_expense_categories : list CategoryAmount;
  mr_daily_balance : list DailyBalance
}.

Record DailyIncomeExpense := mk_daily_ie {
  die_date : string;
  die_income : float;
  die_expense : float
}.

Record MonthComparison := mk_month_cmp {
  mc_month : string;
  mc_year : Z;
  mc_income : float;
  mc_expense : float
}.

(** [DashboardResponse], without [recent_transactions] (a sorted, limited
    query that this development does not cover). *)
Record DashboardResponse := mk_dashboard {
  dr_current_balance : float;
  dr_total_income : float;
  dr_total_expense : float;
  dr_income_vs_expense_change : float;
  dr_expenses_by_category : list CategoryAmount;
  dr_income_vs_expense_daily : list DailyIncomeExpense;
  dr_monthly_comparison : list MonthComparison
}.

Definition month_names : list string :=
  ["Jan"; "Fev"; "Mar"; "Abr"; "Mai"; "Jun";
   "Jul"; "Ago"; "Set"; "Out"; "Nov"; "Dez"]%string.

(** [not s] on an optional query string: [None] and [""] are falsy. *)
Definition falsy (s : option string) : bool :=
  match s with
  | None => true
  | Some v => (v =? "")%string
  end.

Section Reports.

(** [BRAZIL_TZ = ZoneInfo("America/Bahia")]: the zone's UTC offset, in
    minutes, at a wall-clock reading (the tz database's table). *)
Variable bahia_utcoffset : Z -> Z.

(** [datetime.fromisoformat]; [None] stands for [ValueError]. *)
Variable fromisoformat : string -> option DT.datetime.

Definition in_brazil (w : Z) : DT.datetime :=
  DT.mk_datetime w (Some (bahia_utcoffset w)).

(** [datetime(y, m, 1, tzinfo=BRAZIL_TZ)]. *)
Definition month_first (y m : Z) : DT.datetime :=
  in_brazil (DT.wall (DT.at_ y m 1 0 0 0 None)).

(** The last second of month [m]: the first instant of the next month
    [- timedelta(seconds=1)], with the year wrapping after December. *)
Definition month_last (y m : Z) : DT.datetime :=
  let next := if m =? 12 then month_first (y + 1) 1 else month_first y (m + 1) in
  in_brazil (DT.wall next - DT.seconds 1).

(** ** [get_monthly_report] *)

Definition prev_month_of (month year : Z) : Z * Z :=
  if month =? 1 then (12, year - 1) else (month - 1, year).

Definition month_transactions (db : DB) (uid : string) (month year : Z)
    : list Transaction :=
  find_in_range (transactions db) uid
    (DT.isoformat (month_first year month))
    (DT.isoformat (month_last year month)) 10000.

(** [((cur - prev) / prev * 100) if prev > 0 else None], the expression
    of [income_change] and of [expense_change]. *)
Definition change_vs_previous (cur prev : float) : option float :=
  if (0 <? prev)%float then Some ((cur - prev) / prev * 100)%float else None.

Definition top_categories (db : DB) (txs : list Transaction) : list CategoryAmount :=
  firstn 5
    (sorted_by_amount_desc
       (category_rows "Desconhecida" (categories db) (expense_by_category txs))).

Definition daily_balance (txs : list Transaction) : list DailyBalance :=
  map (fun kv =>
         let '(k, (inc, exp)) := kv in
         mk_daily_balance k inc exp (inc - exp)%float)
      (sorted_days (daily_data txs)).

Definition get_monthly_report (db : DB) (uid : string) (month year : Z)
    : result MonthlyReportResponse :=
  if negb ((1 <=? month) && (month <=? 12) && (2000 <=? year) && (year <=? 2100))
  then Err 422
  else
    let txs := month_transactions db uid month year in
    let total_income := sum_of_type INCOME txs in
    let total_expense := sum_of_type EXPENSE txs in
    let '(prev_month, prev_year) := prev_month_of month year in
    let prev_transactions := month_transactions db uid prev_month prev_year in
    let prev_income := sum_of_type INCOME prev_transactions in
    let prev_expense := sum_of_type EXPENSE prev_transactions in
    let income_change := change_vs_previous total_income prev_income in
    let expense_change := change_vs_previous total_expense prev_expense in
    Ok (mk_monthly month year
          (Py.round2 total_income)
          (Py.round2 total_expense)
          (Py.round2 (balance txs))
          (option_map Py.round2 income_change)
          (option_map Py.round2 expense_change)
          (top_categories db txs)
          (daily_balance txs)).

(** ** [get_dashboard]

    [now_year] and [now_month] are [now.year] and [now.month] of
    [now = datetime.now(BRAZIL_TZ)]. *)

Definition default_start (now_year now_month : Z) (start_date : option string) : string :=
  if falsy start_date then DT.isoformat (month_first now_year now_month)
  else default "" start_date.

Definition default_end (now_year now_month : Z) (end_date : option string) : string :=
  if falsy end_date then DT.isoformat (month_last now_year now_month)
  else default "" end_date.

(** [all_transactions], fetched for the total balance. *)
Definition all_transactions (db : DB) (uid : string) : list Transaction :=
  firstn 100000 (List.filter (live uid) (transactions db)).

(** [period_days = (end_dt - start_dt).days + 1]. *)
Definition period_days (start_dt end_dt : DT.datetime) : option Z :=
  match DT.diff end_dt start_dt with
  | Some d => Some (DT.td_days d + 1)
  | None => None
  end.

(** [(prev_start, prev_end)], under the comment "Previous period
    comparison (same duration before start_date)"; [None] stands for the
    [TypeError] of subtracting a naive from an aware datetime. *)
Definition previous_period (start_dt end_dt : DT.datetime)
    : option (DT.datetime * DT.datetime) :=
  match period_days start_dt end_dt with
  | Some period_days =>
      let prev_end := DT.minus start_dt (DT.seconds 1) in
      let prev_start := DT.minus prev_end (DT.days period_days) in
      Some (prev_start, prev_end)
  | None => None
  end.

(** The balance of the transactions a period query returns. *)
Definition balance_between (db : DB) (uid lo hi : string) : float :=
  balance (find_in_range (transactions db) uid lo hi 10000).

(** The [if prev_balance != 0: ... else: ...] that sets
    [income_vs_expense_change]. *)
Definition income_vs_expense_change (current_period_balance prev_balance : float)
    : float :=
  if negb (prev_balance =? 0)%float then
    ((current_period_balance - prev_balance) / abs prev_balance * 100)%float
  else if (0 <? current_period_balance)%float then 100%float else 0%float.

Definition income_vs_expense_daily (txs : list Transaction)
    : list DailyIncomeExpense :=
  map (fun kv =>
         let '(k, (inc, exp)) := kv in
         mk_daily_ie k (Py.round2 inc) (Py.round2 exp))
      (sorted_days (daily_data txs)).

(** The [while m <= 0: m += 12; y -= 1] of the comparison loop, at most
    [fuel] turns of it. *)
Fixpoint wrap_month (fuel : nat) (m y : Z) : Z * Z :=
  match fuel with
  | O => (m, y)
  | S fuel' => if m <=? 0 then wrap_month fuel' (m + 12) (y - 1) else (m, y)
  end.

(** [(m, y)] of turn [i] of [for i in range(5, -1, -1)]; each turn of
    the loop adds 12 to [m], so [1 - m] turns are enough for it to stop
    on its own test. *)
Definition comparison_month (now_year now_month i : Z) : Z * Z :=
  wrap_month (Z.to_nat (1 - (now_month - i))) (now_month - i) now_year.

(** [m_start.isoformat() <= t["date"] <= m_end.isoformat()]. *)
Definition in_month (y m : Z) (t : Transaction) : bool :=
  Str.le (DT.isoformat (month_first y m)) (tx_date t)
  && Str.le (tx_date t) (DT.isoformat (month_last y m)).

(** One turn of the loop; [None] stands for the [IndexError] of
    [month_names[m - 1]] ([m - 1] is not negative after the loop). *)
Definition month_comparison_entry (all : list Transaction)
    (now_year now_month i : Z) : option MonthComparison :=
  let '(m, y) := comparison_month now_year now_month i in
  let m_income := sum_of_type INCOME (List.filter (in_month y m) all) in
  let m_expense := sum_of_type EXPENSE (List.filter (in_month y m) all) in
  if (m - 1 <? 0) || (12 <=? m - 1) then None
  else
    Some (mk_month_cmp (nth (Z.to_nat (m - 1)) month_names ""%string) y
            (Py.round2 m_income) (Py.round2 m_expense)).

(** [e] is the entry of calendar month [m] of year [y] over [all]. *)
Definition entry_of_month (all : list Transaction) (e : MonthComparison) (y m : Z)
    : Prop :=
  mc_month e = nth (Z.to_nat (m - 1)) month_names ""%string
  /\ mc_year e = y
  /\ mc_income e = Py.round2 (sum_of_type INCOME (List.filter (in_month y m) all))
  /\ mc_expense e = Py.round2 (sum_of_type EXPENSE (List.filter (in_month y m) all)).

Definition monthly_comparison (all : list Transaction) (now_year now_month : Z)
    : option (list MonthComparison) :=
  mapM (month_comparison_entry all now_year now_month) [5; 4; 3; 2; 1; 0].

Definition get_dashboard (db : DB) (uid : string) (now_year now_month : Z)
    (start_date end_date : option string) : result DashboardResponse :=
  let start_date := default_start now_year now_month start_date in
  let end_date := default_end now_year now_month end_date in
  let all := all_transactions db uid in
  let current_balance := balance all in
  let period_transactions :=
    find_in_range (transactions db) uid start_date end_date 10000 in
  let total_income := sum_of_type INCOME period_transactions in
  let total_expense := sum_of_type EXPENSE period_transactions in
  match fromisoformat (Str.replace_Z start_date),
        fromisoformat (Str.replace_Z end_date) with
  | Some start_dt, Some end_dt =>
      match previous_period start_dt end_dt with
      | Some (prev_start, prev_end) =>
          let prev_balance :=
            balance_between db uid
              (DT.isoformat prev_start) (DT.isoformat prev_end) in
          let current_period_balance := balance period_transactions in
          match monthly_comparison all now_year now_month with
          | Some cmp =>
              Ok (mk_dashboard
                    (Py.round2 current_balance)
                    (Py.round2 total_income)
                    (Py.round2 total_expense)
                    (Py.round2 (income_vs_expense_change
                                  current_period_balance prev_balance))
                    (category_rows "Outros" (categories db)
                       (expense_by_category period_transactions))
                    (income_vs_expense_daily period_transactions)
                    cmp)
          | None => Err 500
          end
      | None => Err 500
      end
  | _, _ => Err 500
  end.

End Reports.

(* ================================================================== *)
(** * Collections *)
(* ================================================================== *)

(** [collection.delete_one(filter)]: the first matching document goes. *)
Fixpoint delete_one {A} (p : A -> bool) (l : list A) : list A :=
  match l with
  | [] => []
  | x :: r => if p x then r else x :: delete_one p r
  end.

(** [collection.insert_one(doc)]. *)
Definition insert_one {A} (x : A) (l : list A) : list A := l ++ [x].

(** [db.refresh_tokens] after [delete_one({"token": tok})]. *)
Definition old_token_deleted (tok : string) (db : DB) : list RefreshToken :=
  delete_one (fun rt => (rt_token rt =? tok)%string) (refresh_tokens db).

Definition set_refresh_tokens (db : DB) (rts : list RefreshToken) : DB :=
  mk_db (users db) (categories db) (transactions db) rts.

Definition set_transactions (db : DB) (txs : list Transaction) : DB :=
  mk_db (users db) (categories db) txs (refresh_tokens db).

Definition set_categories (db : DB) (cats : list Category) : DB :=
  mk_db (users db) cats (transactions db) (refresh_tokens db).

(* ================================================================== *)
(** * Login rate limiting *)
(* ================================================================== *)

(** [login_attempts]: email -> (attempts, last_attempt), the time in
    microseconds of the UTC clock. *)
Abbreviation attempts_map := (gmap string (Z * Z)).

Definition check_rate_limit (login_attempts : attempts_map) (email : string)
    (now : Z) : bool :=
  match login_attempts !! email with
  | Some (attempts, last_attempt) =>
      if now - last_attempt <? DT.minutes 15 then
        if 5 <=? attempts then false else true
      else true
  | None => true
  end.

Definition record_login_attempt (login_attempts : attempts_map) (email : string)
    (success : bool) (now : Z) : attempts_map :=
  if success then delete email login_attempts
  else
    match login_attempts !! email with
    | Some (attempts, _) => <[email := (attempts + 1, now)]> login_attempts
    | None => <[email := (1, now)]> login_attempts
    end.

(** The stored failure count of a key, [0] when it has no entry. *)
Definition count_of (login_attempts : attempts_map) (email : string) : Z :=
  match login_attempts !! email with
  | Some (attempts, _) => attempts
  | None => 0
  end.

(* ================================================================== *)
(** * Tokens and the auth handlers *)
(* ================================================================== *)

(** The claims of a token payload; [payload.get(k)] is [None] when the
    claim is absent. *)
Record Payload := mk_payload {
  p_sub : option string;
  p_exp : Z;
  p_type : option string;
  p_jti : option string
}.

(** The outcome of [jwt.decode]. *)
Inductive Decoded :=
| Claims (p : Payload)
| ExpiredSignatureError
| InvalidTokenError.

Record UserResponse := mk_user_response {
  ur_id : string;
  ur_email : string;
  ur_name : string;
  ur_theme : string;
  ur_created_at : DT.datetime
}.

Record TokenResponse := mk_token_response {
  access_token : string;
  refresh_token_of : string;
  token_type : string;
  user_of : UserResponse
}.

Definition ACCESS_TOKEN_EXPIRE_MINUTES : Z := 15.
Definition REFRESH_TOKEN_EXPIRE_DAYS : Z := 7.

(** One call of [login]: the database it runs against, the clock
    readings and uuids it draws, and the submitted credentials. *)
Record LoginCall := mk_call {
  lc_db : DB;
  lc_now : Z;
  lc_later : Z;
  lc_jti : string;
  lc_id : string;
  lc_email : string;
  lc_password : string
}.

Section Auth.

(** [jwt.encode(payload, JWT_SECRET, algorithm=JWT_ALGORITHM)]. *)
Variable jwt_encode : Payload -> string.

(** [jwt.decode(token, JWT_SECRET, algorithms=[JWT_ALGORITHM])] when the
    clock reads [now]. *)
Variable jwt_decode : string -> Z -> Decoded.

(** [pwd_context.verify(password, hash)]. *)
Variable verify : string -> string -> bool.

(** [str.lower]. *)
Variable lower : string -> string.

Variable fromisoformat : string -> option DT.datetime.

Definition create_access_token (user_id : string) (now : Z) : string :=
  jwt_encode (mk_payload (Some user_id)
                (now + DT.minutes ACCESS_TOKEN_EXPIRE_MINUTES)
                (Some "access"%string) None).

(** [jti] is the [uuid.uuid4()] drawn by the call. *)
Definition create_refresh_token (user_id : string) (now : Z) (jti : string)
    : string :=
  jwt_encode (mk_payload (Some user_id)
                (now + DT.days REFRESH_TOKEN_EXPIRE_DAYS)
                (Some "refresh"%string) (Some jti)).

(** The filter [{"token": token, "user_id": user_id}]; a missing [sub]
    claim matches no stored document. *)
Definition token_of_user (token : string) (user_id : option string)
    (rt : RefreshToken) : bool :=
  (rt_token rt =? token)%string
  && match user_id with
     | Some uid => (rt_user_id rt =? uid)%string
     | None => false
     end.

Definition user_has_id (user_id : option string) (u : User) : bool :=
  match user_id with
  | Some uid => (u_id u =? uid)%string
  | None => false
  end.

Definition new_refresh_record (id user_id token : string) (now : Z) : RefreshToken :=
  mk_rt id user_id token now (now + DT.days REFRESH_TOKEN_EXPIRE_DAYS).

Definition token_response (user : User) (access refresh : string)
    : option TokenResponse :=
  match fromisoformat (Str.replace_Z (u_created_at user)) with
  | Some created_at =>
      Some (mk_token_response access refresh "bearer"
              (mk_user_response (u_id user) (u_email user)
                 (u_name user) (u_theme user) created_at))
  | None => None
  end.

(** [POST /auth/refresh]. [now] is the clock of the call, [jti] and [id]
    are the two [uuid4] values it draws; the handler returns its response
    and the database it leaves behind. *)
Definition refresh_token (db : DB) (now : Z) (jti id : string)
    (data_refresh_token : string) : result TokenResponse * DB :=
  match jwt_decode data_refresh_token now with
  | ExpiredSignatureError => (Err 401, db)
  | InvalidTokenError => (Err 401, db)
  | Claims payload =>
      if negb (bool_decide (p_type payload = Some "refresh"%string))
      then (Err 401, db)
      else
        let user_id := p_sub payload in
        match List.find (token_of_user data_refresh_token user_id)
                (refresh_tokens db) with
        | None => (Err 401, db)
        | Some stored_token =>
            let db1 :=
              set_refresh_tokens db
                (delete_one (fun rt => (rt_token rt =? data_refresh_token)%string)
                   (refresh_tokens db)) in
            match List.find (user_has_id user_id) (users db1) with
            | None => (Err 401, db1)
            | Some user =>
                let uid := u_id user in
                let access := create_access_token uid now in
                let new_refresh_token := create_refresh_token uid now jti in
                let db2 :=
                  set_refresh_tokens db1
                    (insert_one (new_refresh_record id uid new_refresh_token now)
                       (refresh_tokens db1)) in
                match token_response user access new_refresh_token with
                | Some resp => (Ok resp, db2)
                | None => (Err 500, db2)
                end
            end
        end
  end.

(** [POST /auth/login]. [now] is the clock reading of
    [check_rate_limit], [later] the reading(s) taken after the password
    check; the handler returns its response, the [login_attempts] dict
    and the database it leaves behind. *)
Definition login (login_attempts : attempts_map) (db : DB) (now later : Z)
    (jti id : string) (credentials_email credentials_password : string)
    : result TokenResponse * attempts_map * DB :=
  let email := lower credentials_email in
  if negb (check_rate_limit login_attempts email now)
  then (Err 429, login_attempts, db)
  else
    let user := List.find (fun u => (u_email u =? email)%string) (users db) in
    match user with
    | Some user =>
        if verify credentials_password (u_password user) then
          let attempts' := record_login_attempt login_attempts email true later in
          let access := create_access_token (u_id user) later in
          let refresh := create_refresh_token (u_id user) later jti in
          let db' :=
            set_refresh_tokens db
              (insert_one (new_refresh_record id (u_id user) refresh later)
                 (refresh_tokens db)) in
          match token_response user access refresh with
          | Some resp => (Ok resp, attempts', db')
          | None => (Err 500, attempts', db')
          end
        else
          (Err 401, record_login_attempt login_attempts email false later, db)
    | None =>
        (Err 401, record_login_attempt login_attempts email false later, db)
    end.

Definition login_call (la : attempts_map) (c : LoginCall)
    : result TokenResponse * attempts_map * DB :=
  login la (lc_db c) (lc_now c) (lc_later c) (lc_jti c) (lc_id c)
    (lc_email c) (lc_password c).

Definition call_result (la : attempts_map) (c : LoginCall) : result TokenResponse :=
  fst (fst (login_call la c)).

Definition call_attempts (la : attempts_map) (c : LoginCall) : attempts_map :=
  snd (fst (login_call la c)).

(** A run of consecutive failed logins: every call is answered 401, and
    the dict is threaded from one call to the next. *)
Fixpoint all_fail (la : attempts_map) (cs : list LoginCall) : Prop :=
  match cs with
  | [] => True
  | c :: r => call_result la c = Err 401 /\ all_fail (call_attempts la c) r
  end.

Fixpoint attempts_after (la : attempts_map) (cs : list LoginCall) : attempts_map :=
  match cs with
  | [] => la
  | c :: r => attempts_after (call_attempts la c) r
  end.

End Auth.

(* ================================================================== *)
(** * Category deletion *)
(* ================================================================== *)

(** [{"$set": {"category_id": reassign_to}}] on one document. *)
Definition set_category_id (reassign_to : string) (t : Transaction) : Transaction :=
  mk_tx (tx_id t) (tx_user_id t) (tx_type t) (tx_description t) (tx_amount t)
        (tx_date t) reassign_to (tx_payment_method t) (tx_notes t)
        (tx_created_at t) (tx_updated_at t) (tx_deleted_at t).

(** Two documents that differ at most in [category_id]. *)
Definition same_but_category (t t' : Transaction) : Prop :=
  tx_id t' = tx_id t /\ tx_user_id t' = tx_user_id t
  /\ tx_type t' = tx_type t /\ tx_description t' = tx_description t
  /\ tx_amount t' = tx_amount t /\ tx_date t' = tx_date t
  /\ tx_payment_method t' = tx_payment_method t /\ tx_notes t' = tx_notes t
  /\ tx_created_at t' = tx_created_at t /\ tx_updated_at t' = tx_updated_at t
  /\ tx_deleted_at t' = tx_deleted_at t.

(** The filter [{"category_id": category_id, "user_id": uid}] of the
    reassignment. *)
Definition references (category_id uid : string) (t : Transaction) : bool :=
  (tx_category_id t =? category_id)%string && (tx_user_id t =? uid)%string.

(** The filter of [tx_count]: the same with ["deleted_at": None]. *)
Definition references_live (category_id uid : string) (t : Transaction) : bool :=
  references category_id uid t && is_None (tx_deleted_at t).

(** [collection.update_many(filter, update)]. *)
Definition update_many {A} (p : A -> bool) (f : A -> A) (l : list A) : list A :=
  map (fun x => if p x then f x else x) l.

Definition owned_category (id uid : string) (c : Category) : bool :=
  (cat_id c =? id)%string && (cat_user_id c =? uid)%string.

(** [DELETE /categories/{category_id}] for the authenticated user [uid]. *)
Definition delete_category (db : DB) (uid category_id : string)
    (reassign_to : option string) : result unit * DB :=
  match List.find (owned_category category_id uid) (categories db) with
  | None => (Err 404, db)
  | Some category =>
      let tx_count :=
        length (List.filter (references_live category_id uid) (transactions db)) in
      let drop (d : DB) :=
        set_categories d
          (delete_one (fun c => (cat_id c =? category_id)%string) (categories d)) in
      if (0 <? tx_count)%nat then
        if falsy reassign_to then (Err 400, db)
        else
          let target := default ""%string reassign_to in
          match List.find (owned_category target uid) (categories db) with
          | None => (Err 400, db)
          | Some reassign_cat =>
              let db1 :=
                set_transactions db
                  (update_many (references category_id uid)
                     (set_category_id target) (transactions db)) in
              (Ok tt, drop db1)
          end
      else (Ok tt, drop db)
  end.

(* ================================================================== *)
(** * Concrete ledgers, stores and calls used in the checks below *)
(* ================================================================== *)

(** A concrete run: nobody is registered, [lower] is the identity on the
    (already lower-case) address used. *)
Definition demo_call (now : Z) : LoginCall :=
  mk_call (mk_db [] [] [] []) now (now + 1) "jti" "id" "ana@example.com" "Wrong-pass1".

Definition demo_encode (p : Payload) : string := default ""%string (p_sub p).
Definition demo_verify (password hash : string) : bool := (password =? hash)%string.
Definition demo_lower (s : string) : string := s.

(** A concrete codec for the runs below: two refresh tokens are known to
    [demo_decode], one of user [u1] and one whose subject has no user. *)
Definition demo_decode (tok : string) (now : Z) : Decoded :=
  if (tok =? "u1.j1")%string then
    Claims (mk_payload (Some "u1") (DT.days 7) (Some "refresh") (Some "j1"))%string
  else if (tok =? "ghost.j9")%string then
    Claims (mk_payload (Some "ghost") (DT.days 7) (Some "refresh") (Some "j9"))%string
  else InvalidTokenError.

Definition demo_encode_jti (p : Payload) : string :=
  (default "" (p_sub p) ++ "." ++ default "access" (p_jti p))%string.

Definition demo_auth_db : DB :=
  mk_db [mk_user "u1" "ana@example.com" "Ana" "hash" "dark" "2024-01-01T00:00:00+00:00"]
        [] []
        [mk_rt "r1" "u1" "u1.j1" 0 (DT.days 7);
         mk_rt "r9" "ghost" "ghost.j9" 0 (DT.days 7)]%string.

Definition demo_refreshed : result TokenResponse * DB :=
  refresh_token demo_encode_jti demo_decode DT.fromisoformat_basic
    demo_auth_db (DT.minutes 1) "j2" "r2" "u1.j1".

Definition demo_response : TokenResponse :=
  mk_token_response "u1.access" "u1.j2" "bearer"
    (mk_user_response "u1" "ana@example.com" "Ana" "dark"
       (DT.mk_datetime (DT.wall (DT.at_ 2024 1 1 0 0 0 None)) (Some 0))).

Definition demo_tx (id : string) (category_id : string) (deleted_at : option string)
    : Transaction :=
  mk_tx id "u1" EXPENSE "mercado" 10 "2024-01-10T12:00:00-03:00" category_id
        None None "2024-01-10T15:00:00+00:00" "2024-01-10T15:00:00+00:00" deleted_at.

Definition demo_cat_db : DB :=
  mk_db []
    [mk_cat "c1" "u1" "Lazer" "EXPENSE" "#14b8a6" None "2024-01-01T00:00:00+00:00";
     mk_cat "c2" "u1" "Outros" "BOTH" "#71717a" None "2024-01-01T00:00:00+00:00"]
    [demo_tx "t1" "c1" None;
     demo_tx "t2" "c1" (Some "2024-01-11T09:00:00+00:00");
     demo_tx "t3" "c2" None]
    []%string.

Definition demo_bahia (wall : Z) : Z := -180.

Definition demo_entry (id : string) (ty : TxType) (amount : float) (date category_id : string)
    : Transaction :=
  mk_tx id "u1" ty "lancamento" amount date category_id None None
        "2024-01-01T00:00:00+00:00" "2024-01-01T00:00:00+00:00" None.

Definition demo_ledger : DB :=
  mk_db []
    [mk_cat "c1" "u1" "Mercado" "EXPENSE" "#ef4444" None "2024-01-01T00:00:00+00:00";
     mk_cat "c2" "u1" "Salario" "INCOME" "#22c55e" None "2024-01-01T00:00:00+00:00"]
    [demo_entry "t1" INCOME 100 "2023-12-05T09:00:00-03:00" "c2";
     demo_entry "t2" INCOME 150 "2024-01-05T09:00:00-03:00" "c2";
     demo_entry "t3" EXPENSE 0.1 "2024-01-10T12:00:00-03:00" "c1";
     demo_entry "t4" EXPENSE 0.2 "2024-01-10T18:30:00-03:00" "c1"]
    []%string.

Definition demo_report : MonthlyReportResponse :=
  match get_monthly_report demo_bahia demo_ledger "u1" 1 2024 with
  | Ok r => r
  | Err _ => mk_monthly 0 0 0 0 0 None None [] []
  end.

(** A ledger with a negative balance in both periods: an expense of 100
    in December 2023 and one of 50 in January 2024. *)
Definition demo_deficit : DB :=
  mk_db []
    [mk_cat "c1" "u1" "Mercado" "EXPENSE" "#ef4444" None "2024-01-01T00:00:00+00:00"]
    [demo_entry "t1" EXPENSE 100 "2023-12-10T12:00:00-03:00" "c1";
     demo_entry "t2" EXPENSE 50 "2024-01-10T12:00:00-03:00" "c1"]
    []%string.

Definition demo_dashboard : DashboardResponse :=
  match get_dashboard demo_bahia DT.fromisoformat_basic demo_deficit "u1" 2024 1 None None with
  | Ok r => r
  | Err _ => mk_dashboard 0 0 0 0 [] [] []
  end.

Definition january_2024 : string * string :=
  ("2024-01-01T00:00:00-03:00", "2024-01-31T23:59:59-03:00")%string.

Definition previous_of_january_2024 : string * string :=
  ("2023-11-30T23:59:59-03:00", "2023-12-31T23:59:59-03:00")%string.

Definition demo_start : DT.datetime := DT.at_ 2024 1 1 0 0 0 (Some (-180)).
Definition demo_end : DT.datetime := DT.at_ 2024 1 31 23 59 59 (Some (-180)).

(** The same January 2024 dashboard over [demo_deficit], with and without
    an income of 7 booked at 23:59:59 on 30 November 2023: the income
    enters the "previous period" of January and moves the change figure
    from 50 to 46.24. *)
Definition demo_deficit_november : DB :=
  set_transactions demo_deficit
    (demo_entry "t0" INCOME 7 "2023-11-30T23:59:59-03:00" "c1"
     :: transactions demo_deficit).

(** [demo_cat_db] without its live transaction of category [c1]: the only
    reference to [c1] left is the soft-deleted [t2]. *)
Definition demo_cat_db_dead : DB :=
  set_transactions demo_cat_db
    [demo_tx "t2" "c1" (Some "2024-01-11T09:00:00+00:00"); demo_tx "t3" "c2" None]%string.

(** A ledger for the monthly comparison of January 2024: user [u1] has an
    income in July 2023, an expense in December, an income in the first
    second of January and an expense in its last second; there is also a
    soft-deleted expense of [u1] and an income of another user, both in
    January. *)
Definition demo_comparison_ledger : DB :=
  mk_db []
    [mk_cat "c1" "u1" "Geral" "BOTH" "#ef4444" None "2024-01-01T00:00:00+00:00"]
    [demo_entry "t1" INCOME 5 "2023-07-31T23:59:59-03:00" "c1";
     demo_entry "t2" EXPENSE 100 "2023-12-10T12:00:00-03:00" "c1";
     demo_entry "t3" INCOME 20 "2024-01-01T00:00:00-03:00" "c1";
     demo_entry "t4" EXPENSE 50 "2024-01-31T23:59:59-03:00" "c1";
     mk_tx "t5" "u1" EXPENSE "apagado" 77 "2024-01-08T09:00:00-03:00" "c1"
       None None "2024-01-01T00:00:00+00:00" "2024-01-01T00:00:00+00:00"
       (Some "2024-01-09T00:00:00+00:00");
     mk_tx "t6" "u7" INCOME "outro" 999 "2024-01-07T09:00:00-03:00" "c1"
       None None "2024-01-01T00:00:00+00:00" "2024-01-01T00:00:00+00:00" None]
    []%string.

(** The dashboard of [u1] asked in January 2024 for the period of
    December 2023. *)
Definition demo_comparison_dashboard : DashboardResponse :=
  match get_dashboard demo_bahia DT.fromisoformat_basic demo_comparison_ledger "u1"
          2024 1 (Some "2023-12-01T00:00:00-03:00"%string)
          (Some "2023-12-31T23:59:59-03:00"%string) with
  | Ok r => r
  | Err _ => mk_dashboard 0 0 0 0 [] [] []
  end.

(* ================================================================== *)
(** * Further auth handlers *)
(* ================================================================== *)

Definition set_users (db : DB) (us : list User) : DB :=
  mk_db us (categories db) (transactions db) (refresh_tokens db).

(** [now.isoformat()] of [now = datetime.now(timezone.utc)]. *)
Definition utc (now : Z) : DT.datetime := DT.mk_datetime now (Some 0).
Definition utc_isoformat (now : Z) : string := DT.isoformat (utc now).

(** [s.split(" ")]. *)
Fixpoint split_space (s : string) : list string :=
  match s with
  | EmptyString => [EmptyString]
  | String c r =>
      if Ascii.eqb c " " then EmptyString :: split_space r
      else
        match split_space r with
        | h :: t => String c h :: t
        | [] => [String c EmptyString]
        end
  end.

(** [DEFAULT_CATEGORIES]: name, type, color, icon. *)
Definition DEFAULT_CATEGORIES : list (string * string * string * string) :=
  [("Alimentação", "EXPENSE", "#ef4444", "utensils");
   ("Transporte", "EXPENSE", "#f59e0b", "car");
   ("Moradia", "EXPENSE", "#8b5cf6", "home");
   ("Saúde", "EXPENSE", "#ec4899", "heart-pulse");
   ("Educação", "EXPENSE", "#3b82f6", "graduation-cap");
   ("Lazer", "EXPENSE", "#14b8a6", "gamepad-2");
   ("Assinaturas", "EXPENSE", "#6366f1", "tv");
   ("Investimentos", "BOTH", "#10b981", "trending-up");
   ("Salário", "INCOME", "#22c55e", "wallet");
   ("Freelance", "INCOME", "#06b6d4", "laptop");
   ("Outros", "BOTH", "#71717a", "more-horizontal")]%string.

(** The documents [create_default_categories] builds; [uuid k] is the
    [uuid4] drawn for the [k]-th category. *)
Fixpoint default_category_docs (user_id : string) (now : string)
    (uuid : nat -> string) (k : nat)
    (cats : list (string * string * string * string)) : list Category :=
  match cats with
  | [] => []
  | (name, type, color, icon) :: r =>
      mk_cat (uuid k) user_id name type color (Some icon) now
      :: default_category_docs user_id now uuid (S k) r
  end.

(** [create_default_categories]: one [insert_many]. *)
Definition create_default_categories (db : DB) (user_id : string) (now : Z)
    (uuid : nat -> string) : DB :=
  set_categories db
    (categories db
     ++ default_category_docs user_id (utc_isoformat now) uuid 0 DEFAULT_CATEGORIES).

(** The user document without its password, as
    [find_one(..., {"_id": 0, "password": 0})] returns it. *)
Record CurrentUser := mk_current_user {
  cu_id : string;
  cu_email : string;
  cu_name : string;
  cu_theme : string;
  cu_created_at : string
}.

Definition without_password (u : User) : CurrentUser :=
  mk_current_user (u_id u) (u_email u) (u_name u) (u_theme u) (u_created_at u).

Section AuthMore.

Variable jwt_encode : Payload -> string.
Variable jwt_decode : string -> Z -> Decoded.
Variable verify : string -> string -> bool.
Variable lower : string -> string.
Variable fromisoformat : string -> option DT.datetime.

(** [pwd_context.hash(password)] with the salt it draws. *)
Variable hash : string -> string -> string.

(** [get_current_user]: [authorization] is the request's
    [Authorization] header, if any. *)
Definition get_current_user (db : DB) (now : Z) (authorization : option string)
    : result CurrentUser :=
  match authorization with
  | None => Err 401
  | Some auth_header =>
      if (auth_header =? "")%string || negb (String.prefix "Bearer " auth_header)
      then Err 401
      else
        match nth_error (split_space auth_header) 1 with
        | None => Err 500
        | Some token =>
            match jwt_decode token now with
            | ExpiredSignatureError => Err 401
            | InvalidTokenError => Err 401
            | Claims payload =>
                if negb (bool_decide (p_type payload = Some "access"%string))
                then Err 401
                else
                  match List.find (user_has_id (p_sub payload)) (users db) with
                  | None => Err 401
                  | Some user => Ok (without_password user)
                  end
            end
        end
  end.

(** [POST /auth/register], on a body that passed validation. [user_id],
    [rt_id], [jti] and [uuid k] are the [uuid4] values the call draws,
    [salt] the salt of the password hash, [now] the clock reading of the
    handler and [later] the reading(s) taken by the helpers it calls.
    The [updated_at] of the user document, written with the value of
    [created_at], is not part of [User]. *)
Definition register (db : DB) (now later : Z) (user_id rt_id jti salt : string)
    (uuid : nat -> string) (email name password : string)
    : result TokenResponse * DB :=
  match List.find (fun u => (u_email u =? lower email)%string) (users db) with
  | Some existing => (Err 400, db)
  | None =>
      let user_doc :=
        mk_user user_id (lower email) name (hash salt password) "dark"
          (utc_isoformat now) in
      let db1 := set_users db (insert_one user_doc (users db)) in
      let db2 := create_default_categories db1 user_id later uuid in
      let access_token := create_access_token jwt_encode user_id later in
      let refresh_token := create_refresh_token jwt_encode user_id later jti in
      let db3 :=
        set_refresh_tokens db2
          (insert_one (new_refresh_record rt_id user_id refresh_token now)
             (refresh_tokens db2)) in
      (Ok (mk_token_response access_token refresh_token "bearer"
             (mk_user_response user_id (lower email) name "dark" (utc now))),
       db3)
  end.

(** [POST /auth/logout]. *)
Definition logout (db : DB) (data_refresh_token : string) : result unit * DB :=
  (Ok tt, set_refresh_tokens db (old_token_deleted data_refresh_token db)).

End AuthMore.

(* ================================================================== *)
(** * Transaction handlers *)
(* ================================================================== *)

Definition type_name (ty : TxType) : string :=
  match ty with INCOME => "INCOME" | EXPENSE => "EXPENSE" end.

(** A validated [TransactionCreate] body. *)
Record TransactionCreate := mk_tx_create {
  tc_type : TxType;
  tc_description : string;
  tc_amount : float;
  tc_date : DT.datetime;
  tc_category_id : string;
  tc_payment_method : option string;
  tc_notes : option string
}.

Record TransactionResponse := mk_tx_response {
  tr_id : string;
  tr_user_id : string;
  tr_type : TxType;
  tr_description : string;
  tr_amount : float;
  tr_date : DT.datetime;
  tr_category_id : string;
  tr_category_name : option string;
  tr_category_color : option string;
  tr_payment_method : option string;
  tr_notes : option string;
  tr_created_at : DT.datetime;
  tr_updated_at : DT.datetime
}.

(** [collection.update_one(filter, update)]: the first match is updated. *)
Fixpoint update_one {A} (p : A -> bool) (f : A -> A) (l : list A) : list A :=
  match l with
  | [] => []
  | x :: r => if p x then f x :: r else x :: update_one p f r
  end.

(** [{"$set": {"deleted_at": now}}] on one document. *)
Definition set_deleted_at (now : string) (t : Transaction) : Transaction :=
  mk_tx (tx_id t) (tx_user_id t) (tx_type t) (tx_description t) (tx_amount t)
        (tx_date t) (tx_category_id t) (tx_payment_method t) (tx_notes t)
        (tx_created_at t) (tx_updated_at t) (Some now).

(** The filter [{"id": id, "user_id": uid, "deleted_at": None}]. *)
Definition live_with_id (id uid : string) (t : Transaction) : bool :=
  (tx_id t =? id)%string && live uid t.

Section TransactionHandlers.

Variable fromisoformat : string -> option DT.datetime.

(** [POST /transactions] for the authenticated user [uid]; [id] is the
    [uuid4] drawn, [now] the clock. *)
Definition create_transaction (db : DB) (uid : string) (now : Z) (id : string)
    (transaction : TransactionCreate) : result TransactionResponse * DB :=
  match List.find (owned_category (tc_category_id transaction) uid)
          (categories db) with
  | None => (Err 400, db)
  | Some category =>
      if negb (cat_type category =? "BOTH")%string
         && negb (cat_type category =? type_name (tc_type transaction))%string
      then (Err 400, db)
      else
        let tx_doc :=
          mk_tx id uid (tc_type transaction) (tc_description transaction)
            (Py.round2 (tc_amount transaction))
            (DT.isoformat (tc_date transaction))
            (tc_category_id transaction)
            (tc_payment_method transaction) (tc_notes transaction)
            (utc_isoformat now) (utc_isoformat now) None in
        (Ok (mk_tx_response (tx_id tx_doc) (tx_user_id tx_doc) (tx_type tx_doc)
               (tx_description tx_doc) (tx_amount tx_doc) (tc_date transaction)
               (tx_category_id tx_doc)
               (Some (cat_name category)) (Some (cat_color category))
               (tx_payment_method tx_doc) (tx_notes tx_doc)
               (utc now) (utc now)),
         set_transactions db (insert_one tx_doc (transactions db)))
  end.

(** The response built from a stored document; [None] stands for the
    [ValueError] of a date that does not parse. *)
Definition transaction_response (db : DB) (t : Transaction)
    : option TransactionResponse :=
  let category :=
    List.find (fun c => (cat_id c =? tx_category_id t)%string) (categories db) in
  match fromisoformat (Str.replace_Z (tx_date t)),
        fromisoformat (Str.replace_Z (tx_created_at t)),
        fromisoformat (Str.replace_Z (tx_updated_at t)) with
  | Some date_val, Some created_at, Some updated_at =>
      Some (mk_tx_response (tx_id t) (tx_user_id t) (tx_type t)
              (tx_description t) (tx_amount t) date_val (tx_category_id t)
              (option_map cat_name category) (option_map cat_color category)
              (tx_payment_method t) (tx_notes t) created_at updated_at)
  | _, _, _ => None
  end.

(** [GET /transactions/{transaction_id}]. *)
Definition get_transaction (db : DB) (uid transaction_id : string)
    : result TransactionResponse :=
  match List.find (live_with_id transaction_id uid) (transactions db) with
  | None => Err 404
  | Some transaction =>
      match transaction_response db transaction with
      | Some resp => Ok resp
      | None => Err 500
      end
  end.

(** [DELETE /transactions/{transaction_id}]: a soft delete. *)
Definition delete_transaction (db : DB) (uid transaction_id : string) (now : Z)
    : result unit * DB :=
  match List.find (live_with_id transaction_id uid) (transactions db) with
  | None => (Err 404, db)
  | Some transaction =>
      (Ok tt,
       set_transactions db
         (update_one (fun t => (tx_id t =? transaction_id)%string)
            (set_deleted_at (utc_isoformat now)) (transactions db)))
  end.

End TransactionHandlers.

(** The paging of [list_transactions]: [total_pages], and the documents
    that [.skip((page - 1) * page_size).limit(page_size)] keeps of the
    sorted matches. *)
Definition total_pages (total page_size : Z) : Z :=
  (total + page_size - 1) / page_size.

Definition page_items {A} (sorted : list A) (page page_size : Z) : list A :=
  firstn (Z.to_nat page_size)
    (skipn (Z.to_nat ((page - 1) * page_size)) sorted).

(* ================================================================== *)
(** * Goal handlers *)
(* ================================================================== *)

(** A document of [db.goals]. *)
Record Goal := mk_goal {
  g_id : string;
  g_user_id : string;
  g_name : string;
  g_target_amount : float;
  g_current_amount : float;
  g_deadline : option string;
  g_icon : option string;
  g_color : string;
  g_created_at : string
}.

(** A validated [GoalCreate] body. *)
Record GoalCreate := mk_goal_create {
  gc_name : string;
  gc_target_amount : float;
  gc_current_amount : float;
  gc_deadline : option DT.datetime;
  gc_icon : option string;
  gc_color : string
}.

Record GoalResponse := mk_goal_response {
  gr_id : string;
  gr_user_id : string;
  gr_name : string;
  gr_target_amount : float;
  gr_current_amount : float;
  gr_progress : float;
  gr_deadline : option DT.datetime;
  gr_icon : option string;
  gr_color : string;
  gr_created_at : DT.datetime
}.

(** [min(a, b)]: [b] when [b < a], else [a]. *)
Definition py_min (a b : float) : float := if (b <? a)%float then b else a.

(** [(current / target * 100) if target > 0 else 0]. *)
Definition progress_of (current target : float) : float :=
  if (0 <? target)%float then (current / target * 100)%float else 0%float.

(** [round(min(progress, 100), 2)], the [progress] of every goal response. *)
Definition response_progress (current target : float) : float :=
  Py.round2 (py_min (progress_of current target) 100).

Definition owned_goal (id uid : string) (g : Goal) : bool :=
  (g_id g =? id)%string && (g_user_id g =? uid)%string.

Section GoalHandlers.

Variable fromisoformat : string -> option DT.datetime.

(** [POST /goals]; the handler returns its response and the collection
    [db.goals] it leaves behind. *)
Definition create_goal (goals : list Goal) (uid : string) (now : Z) (id : string)
    (goal : GoalCreate) : result GoalResponse * list Goal :=
  let goal_doc :=
    mk_goal id uid (gc_name goal)
      (Py.round2 (gc_target_amount goal)) (Py.round2 (gc_current_amount goal))
      (option_map DT.isoformat (gc_deadline goal))
      (gc_icon goal) (gc_color goal) (utc_isoformat now) in
  (Ok (mk_goal_response (g_id goal_doc) (g_user_id goal_doc) (g_name goal_doc)
         (g_target_amount goal_doc) (g_current_amount goal_doc)
         (response_progress (g_current_amount goal_doc) (g_target_amount goal_doc))
         (gc_deadline goal) (g_icon goal_doc) (g_color goal_doc) (utc now)),
   insert_one goal_doc goals).

(** [GET /goals/{goal_id}]. *)
Definition get_goal (goals : list Goal) (uid goal_id : string)
    : result GoalResponse :=
  match List.find (owned_goal goal_id uid) goals with
  | None => Err 404
  | Some goal =>
      match fromisoformat (Str.replace_Z (g_created_at goal)) with
      | None => Err 500
      | Some created_at =>
          let respond deadline :=
            Ok (mk_goal_response (g_id goal) (g_user_id goal) (g_name goal)
                  (g_target_amount goal) (g_current_amount goal)
                  (response_progress (g_current_amount goal) (g_target_amount goal))
                  deadline (g_icon goal) (g_color goal) created_at) in
          match g_deadline goal with
          | None => respond None
          | Some d =>
              match fromisoformat (Str.replace_Z d) with
              | Some deadline => respond (Some deadline)
              | None => Err 500
              end
          end
      end
  end.

(** [DELETE /goals/{goal_id}]. *)
Definition delete_goal (goals : list Goal) (uid goal_id : string)
    : result unit * list Goal :=
  match List.find (owned_goal goal_id uid) goals with
  | None => (Err 404, goals)
  | Some goal => (Ok tt, delete_one (fun g => (g_id g =? goal_id)%string) goals)
  end.

End GoalHandlers.

(** The category of [t] is stored, belongs to [t]'s user and admits
    [t]'s type. *)
Definition compatible (cats : list Category) (t : Transaction) : Prop :=
  exists c,
    In c cats /\ cat_id c = tx_category_id t /\ cat_user_id c = tx_user_id t
    /\ (cat_type c = "BOTH"%string \/ cat_type c = type_name (tx_type t)).

(** Each string is strictly below the next one, in the order of
    [Str.le]. *)
Fixpoint ascending (l : list string) : Prop :=
  match l with
  | a :: (b :: _) as r => String.ltb a b = true /\ ascending r
  | _ => True
  end.

(** No string is above the next one. *)
Fixpoint weakly_ascending (l : list string) : Prop :=
  match l with
  | a :: (b :: _) as r => String.ltb b a = false /\ weakly_ascending r
  | _ => True
  end.

(** A [TransactionUpdate] body as [model_dump(exclude_unset=True)] sees
    it: [None] is a key that was not sent; for the keys that may carry
    [null] the inner [None] is that [null]. Bodies with a [null] type,
    description or date are not covered. *)
Record TransactionUpdate := mk_tx_update {
  tu_type : option TxType;
  tu_description : option string;
  tu_amount : option (option float);
  tu_date : option DT.datetime;
  tu_category_id : option (option string);
  tu_payment_method : option (option string);
  tu_notes : option (option string)
}.

(** [bool(update_data)] before [updated_at] is added. *)
Definition update_is_empty (u : TransactionUpdate) : bool :=
  is_None (tu_type u) && is_None (tu_description u) && is_None (tu_amount u)
  && is_None (tu_date u) && is_None (tu_category_id u)
  && is_None (tu_payment_method u) && is_None (tu_notes u).

(** [{"$set": update_data}] on one document, [amount] being the rounded
    amount when one was sent. *)
Definition apply_update (u : TransactionUpdate) (amount : option float)
    (category_id : option string) (now : string) (t : Transaction) : Transaction :=
  mk_tx (tx_id t) (tx_user_id t)
        (default (tx_type t) (tu_type u))
        (default (tx_description t) (tu_description u))
        (default (tx_amount t) amount)
        (default (tx_date t) (option_map DT.isoformat (tu_date u)))
        (default (tx_category_id t) category_id)
        (default (tx_payment_method t) (tu_payment_method u))
        (default (tx_notes t) (tu_notes u))
        (tx_created_at t) now (tx_deleted_at t).

Section TransactionUpdateHandler.

Variable fromisoformat : string -> option DT.datetime.

(** [PATCH /transactions/{transaction_id}]. *)
Definition update_transaction (db : DB) (uid transaction_id : string) (now : Z)
    (update : TransactionUpdate) : result TransactionResponse * DB :=
  match List.find (live_with_id transaction_id uid) (transactions db) with
  | None => (Err 404, db)
  | Some transaction =>
      let category_ok :=
        match tu_category_id update with
        | None => true
        | Some None => false
        | Some (Some cid) =>
            negb (is_None (List.find (owned_category cid uid) (categories db)))
        end in
      if negb category_ok then (Err 400, db)
      else
        match tu_amount update with
        | Some None => (Err 500, db)
        | amount =>
            let rounded := option_map Py.round2 (mjoin amount) in
            let db' :=
              if update_is_empty update then db
              else
                set_transactions db
                  (update_one (fun t => (tx_id t =? transaction_id)%string)
                     (apply_update update rounded (mjoin (tu_category_id update))
                        (utc_isoformat now))
                     (transactions db)) in
            match List.find (fun t => (tx_id t =? transaction_id)%string)
                    (transactions db') with
            | None => (Err 500, db')
            | Some updated =>
                match transaction_response fromisoformat db' updated with
                | Some resp => (Ok resp, db')
                | None => (Err 500, db')
                end
            end
        end
  end.

End TransactionUpdateHandler.

(* ================================================================== *)
(** * Further concrete stores and calls *)
(* ================================================================== *)

(** Noon of 1 March 2024 on the UTC clock. *)
Definition demo_now : Z := DT.wall (DT.at_ 2024 3 1 12 0 0 None).

(** [demo_decode] extended with an access token of user [u1] and the
    refresh token of the user registered below. *)
Definition demo_decode_more (tok : string) (now : Z) : Decoded :=
  if (tok =? "u1.access")%string then
    Claims (mk_payload (Some "u1") (DT.minutes 15) (Some "access") None)%string
  else if (tok =? "u2.j5")%string then
    Claims (mk_payload (Some "u2") (DT.days 7) (Some "refresh") (Some "j5"))%string
  else demo_decode tok now.

Definition demo_hash (salt password : string) : string :=
  (salt ++ "$" ++ password)%string.

Definition demo_check (password hash : string) : bool :=
  (hash =? "salt$" ++ password)%string.

Definition demo_uuid (k : nat) : string :=
  String (ascii_of_nat (97 + k)) "-cat".

Definition demo_registered : result TokenResponse * DB :=
  register demo_encode_jti demo_lower demo_hash demo_auth_db demo_now demo_now
    "u2" "r5" "j5" "salt" demo_uuid "bia@example.com" "Bia" "Senha123".

Definition demo_registered_response : TokenResponse :=
  mk_token_response "u2.access" "u2.j5" "bearer"
    (mk_user_response "u2" "bia@example.com" "Bia" "dark" (utc demo_now)).

Definition demo_new_transaction : TransactionCreate :=
  mk_tx_create EXPENSE "cinema" 42.5 (DT.at_ 2024 3 1 10 0 0 (Some (-180)))
    "c1" (Some "PIX"%string) None.

Definition demo_created : result TransactionResponse * DB :=
  create_transaction demo_cat_db "u1" demo_now "t9" demo_new_transaction.

Definition demo_created_response : TransactionResponse :=
  mk_tx_response "t9" "u1" EXPENSE "cinema" 42.5
    (DT.at_ 2024 3 1 10 0 0 (Some (-180))) "c1"
    (Some "Lazer"%string) (Some "#14b8a6"%string) (Some "PIX"%string) None
    (utc demo_now) (utc demo_now).

(** [demo_cat_db] with an income-only category besides. *)
Definition demo_cat_db_income : DB :=
  set_categories demo_cat_db
    (categories demo_cat_db
     ++ [mk_cat "c3" "u1" "Freelance" "INCOME" "#06b6d4" None
           "2024-01-01T00:00:00+00:00"]).

Definition demo_move_to_income : TransactionUpdate :=
  mk_tx_update None None None None (Some (Some "c3"%string)) None None.

Definition demo_goals : list Goal :=
  [mk_goal "g1" "u1" "Viagem" 100 150 None None "#6366f1"
     "2024-01-01T00:00:00+00:00"].

Definition demo_new_goal : GoalCreate :=
  mk_goal_create "Reserva" 1000 250 (Some (DT.at_ 2024 12 31 0 0 0 (Some 0)))
    None "#6366f1".

(** [demo_ledger] with a transaction of another user and a soft-deleted
    one of user [u1] in front. *)
Definition demo_ledger_shared : DB :=
  set_transactions demo_ledger
    (mk_tx "x1" "u7" INCOME "outro" 999 "2024-01-07T09:00:00-03:00" "c2"
       None None "2024-01-01T00:00:00+00:00" "2024-01-01T00:00:00+00:00" None
     :: mk_tx "x2" "u1" EXPENSE "apagado" 77 "2024-01-08T09:00:00-03:00" "c1"
          None None "2024-01-01T00:00:00+00:00" "2024-01-01T00:00:00+00:00"
          (Some "2024-01-09T00:00:00+00:00")
     :: transactions demo_ledger).

(** A January 2024 ledger with expenses under six categories, one of them
    ([c5]) not stored, and two expenses under [c1]. *)
Definition demo_top_ledger : DB :=
  mk_db []
    [mk_cat "c1" "u1" "Mercado" "EXPENSE" "#ef4444" None "2024-01-01T00:00:00+00:00";
     mk_cat "c2" "u1" "Transporte" "EXPENSE" "#f59e0b" None "2024-01-01T00:00:00+00:00";
     mk_cat "c3" "u1" "Moradia" "EXPENSE" "#8b5cf6" None "2024-01-01T00:00:00+00:00";
     mk_cat "c4" "u1" "Lazer" "EXPENSE" "#14b8a6" None "2024-01-01T00:00:00+00:00";
     mk_cat "c6" "u1" "Outros" "BOTH" "#71717a" None "2024-01-01T00:00:00+00:00"]
    [demo_entry "t1" EXPENSE 10 "2024-01-03T09:00:00-03:00" "c1";
     demo_entry "t2" EXPENSE 1 "2024-01-04T09:00:00-03:00" "c6";
     demo_entry "t3" EXPENSE 40 "2024-01-05T09:00:00-03:00" "c2";
     demo_entry "t4" INCOME 500 "2024-01-05T10:00:00-03:00" "c6";
     demo_entry "t5" EXPENSE 30 "2024-01-08T09:00:00-03:00" "c3";
     demo_entry "t6" EXPENSE 20 "2024-01-09T09:00:00-03:00" "c4";
     demo_entry "t7" EXPENSE 50 "2024-01-10T09:00:00-03:00" "c5";
     demo_entry "t8" EXPENSE 5 "2024-01-20T09:00:00-03:00" "c1"]
    []%string.

Definition demo_top_report : MonthlyReportResponse :=
  match get_monthly_report demo_bahia demo_top_ledger "u1" 1 2024 with
  | Ok r => r
  | Err _ => mk_monthly 0 0 0 0 0 None None [] []
  end.

(* ================================================================== *)
(** * Checks of the Python primitives *)
(* ================================================================== *)

Example round2_half_even : Py.round2 0.125 = 0.12%float.
Proof. vm_compute. reflexivity. Qed.

Example round2_binary_below_half : Py.round2 2.675 = 2.67%float.
Proof. vm_compute. reflexivity. Qed.

Example round2_float_noise :
  (0.1 + 0.2 = 0.30000000000000004)%float
  /\ Py.round2 (0.1 + 0.2) = 0.3%float.
Proof. split; vm_compute; reflexivity. Qed.

Example round2_more_values :
  Py.round2 1234567890123.455 = 1234567890123.46%float
  /\ Py.round2 70368744177664.13 = 70368744177664.12%float
  /\ Py.round2 (1e15 + 0.3) = 1000000000000000.2%float
  /\ Py.round2 (-0.001) = (-0)%float
  /\ Py.round2 1.005 = 1%float
  /\ Py.round2 33.333333333333336 = 33.33%float.
Proof. repeat split; vm_compute; reflexivity. Qed.

Example ordinals_round_trip :
  DT.ymd2ord 2024 1 1 = 738886
  /\ DT.ord2ymd 738886 = (2024, 1, 1)
  /\ DT.ord2ymd (DT.ymd2ord 2000 2 29) = (2000, 2, 29)
  /\ DT.ord2ymd (DT.ymd2ord 2023 12 31) = (2023, 12, 31)
  /\ DT.ord2ymd 146097 = (400, 12, 31).
Proof. repeat split; vm_compute; reflexivity. Qed.

(** Every day of 2023 and of the leap year 2024. *)
Example ordinals_round_trip_2023_2024 :
  forallb
    (fun k =>
       let n := DT.ymd2ord 2023 1 1 + Z.of_nat k in
       let '(y, m, d) := DT.ord2ymd n in
       (DT.ymd2ord y m d =? n) && (1 <=? m) && (m <=? 12)
       && (1 <=? d) && (d <=? DT.days_in_month y m))
    (seq 0 731)
  = true
  /\ DT.ymd2ord 2024 12 31 - DT.ymd2ord 2023 1 1 = 730.
Proof. split; vm_compute; reflexivity. Qed.

Example month_boundaries_of_february_2024 :
  DT.isoformat (month_first demo_bahia 2024 2) = "2024-02-01T00:00:00-03:00"%string
  /\ DT.isoformat (month_last demo_bahia 2024 2) = "2024-02-29T23:59:59-03:00"%string
  /\ DT.isoformat (month_last demo_bahia 2023 12) = "2023-12-31T23:59:59-03:00"%string.
Proof. repeat split; vm_compute; reflexivity. Qed.

Example isoformat_after_parsing :
  option_map DT.isoformat
    (DT.fromisoformat_basic (Str.replace_Z "2023-12-31T23:59:59.000123Z"))
  = Some "2023-12-31T23:59:59.000123+00:00"%string
  /\ option_map DT.isoformat (DT.fromisoformat_basic "2024-01-31")
     = Some "2024-01-31T00:00:00"%string
  /\ DT.fromisoformat_basic "2024-02-30" = None.
Proof. repeat split; vm_compute; reflexivity. Qed.

(* ================================================================== *)
(** * Facts: the login rate limiter *)
(* ================================================================== *)

Lemma check_rate_limit_false (la : attempts_map) (email : string) (now : Z) :
  check_rate_limit la email now = false <->
  exists attempts last_attempt,
    la !! email = Some (attempts, last_attempt)
    /\ 5 <= attempts /\ now - last_attempt < DT.minutes 15.
Proof.
  unfold check_rate_limit. split.
  - destruct (la !! email) as [[n t]|] eqn:E; [|discriminate].
    destruct (Z.ltb_spec (now - t) (DT.minutes 15)); [|discriminate].
    destruct (Z.leb_spec 5 n); [|discriminate].
    intros _. exists n, t. auto.
  - intros (n & t & -> & Hn & Ht).
    destruct (Z.ltb_spec (now - t) (DT.minutes 15)); [|lia].
    destruct (Z.leb_spec 5 n); [reflexivity|lia].
Qed.

Lemma record_failure_lookup (la : attempts_map) (email : string) (now : Z) :
  record_login_attempt la email false now !! email
  = Some (count_of la email + 1, now).
Proof.
  unfold record_login_attempt, count_of.
  destruct (la !! email) as [[n t]|]; simpl; by rewrite lookup_insert_eq.
Qed.

Lemma record_failure_count (la : attempts_map) (email k : string) (now : Z) :
  count_of la k <= count_of (record_login_attempt la email false now) k.
Proof.
  destruct (decide (k = email)) as [->|Hne].
  - unfold count_of at 2. rewrite record_failure_lookup. lia.
  - unfold count_of, record_login_attempt.
    destruct (la !! email) as [[n t]|]; simpl; rewrite lookup_insert_ne by done; lia.
Qed.

Lemma record_success_lookup (la : attempts_map) (email : string) (now : Z) :
  record_login_attempt la email true now !! email = None.
Proof. unfold record_login_attempt. simpl. by rewrite lookup_delete_eq. Qed.

Section LoginFacts.

Variable jwt_encode : Payload -> string.
Variable verify : string -> string -> bool.
Variable lower : string -> string.
Variable fromisoformat : string -> option DT.datetime.

Local Abbreviation result_of := (call_result jwt_encode verify lower fromisoformat).
Local Abbreviation attempts_of := (call_attempts jwt_encode verify lower fromisoformat).
Local Abbreviation failing := (all_fail jwt_encode verify lower fromisoformat).
Local Abbreviation after := (attempts_after jwt_encode verify lower fromisoformat).

(** The three ways a call of [login] can go, with what each does to
    the dict. *)
Lemma login_cases (la : attempts_map) (c : LoginCall) :
  let key := lower (lc_email c) in
  (result_of la c = Err 429
   /\ check_rate_limit la key (lc_now c) = false
   /\ attempts_of la c = la)
  \/ (result_of la c = Err 401
      /\ check_rate_limit la key (lc_now c) = true
      /\ attempts_of la c = record_login_attempt la key false (lc_later c))
  \/ (((exists resp, result_of la c = Ok resp) \/ result_of la c = Err 500)
      /\ check_rate_limit la key (lc_now c) = true
      /\ attempts_of la c = record_login_attempt la key true (lc_later c)).
Proof.
  unfold call_result, call_attempts, login_call, login. simpl.
  destruct (check_rate_limit la (lower (lc_email c)) (lc_now c)); simpl.
  2: { left. auto. }
  right.
  destruct (List.find _ (users (lc_db c))) as [u|]; [|left; auto].
  destruct (verify (lc_password c) (u_password u)); [|left; auto].
  right. destruct (token_response _ _ _ _) as [resp|]; simpl; eauto 6.
Qed.

Lemma login_401_attempts (la : attempts_map) (c : LoginCall) :
  result_of la c = Err 401 ->
  attempts_of la c = record_login_attempt la (lower (lc_email c)) false (lc_later c).
Proof.
  intros H. destruct (login_cases la c) as [(R & _)|[(_ & _ & E)|([(r & R)|R] & _)]];
    congruence.
Qed.

Lemma login_429_iff (la : attempts_map) (c : LoginCall) :
  result_of la c = Err 429 <->
  check_rate_limit la (lower (lc_email c)) (lc_now c) = false.
Proof.
  destruct (login_cases la c) as [(R & C & _)|[(R & C & _)|([(r & R)|R] & C & _)]];
    simpl in *; rewrite R, C; split; congruence.
Qed.

(** After a run of failed logins for one key, the count has grown by
    the length of the run and the timestamp is that of the last call. *)
Lemma failed_run_count (key : string) (cs : list LoginCall) :
  forall (la : attempts_map),
    Forall (fun c => lower (lc_email c) = key) cs ->
    failing la cs ->
    count_of (after la cs) key = count_of la key + Z.of_nat (length cs)
    /\ (forall c, last cs = Some c ->
          after la cs !! key = Some (count_of la key + Z.of_nat (length cs), lc_later c)).
Proof.
  induction cs as [|c r IH]; intros la Hkey Hfail.
  - simpl. split; [lia | discriminate].
  - inversion Hkey as [|? ? Hc Hr]; subst.
    destruct Hfail as [H401 Hrest]. simpl.
    pose proof (login_401_attempts la c H401) as Hla.
    pose proof (record_failure_lookup la (lower (lc_email c)) (lc_later c)) as Hlk.
    rewrite <- Hla in Hlk.
    assert (Hcount : count_of (attempts_of la c) (lower (lc_email c))
                     = count_of la (lower (lc_email c)) + 1).
    { unfold count_of at 1. by rewrite Hlk. }
    destruct (IH (attempts_of la c) Hr Hrest) as [IH1 IH2].
    rewrite Hcount in IH1, IH2. split; [lia|].
    intros c' Hlast. destruct r as [|c2 r'].
    + simpl in Hlast. injection Hlast as <-. simpl. rewrite Hlk. reflexivity.
    + rewrite (IH2 c' Hlast). simpl length. f_equal. f_equal. lia.
Qed.

(** C3: a login is answered 429 exactly when the stored failure count of
    its (case-folded) email is at least 5 and the last recorded failure
    is less than 15 minutes old. In particular, after five failed
    logins for a key that had no entry, a sixth attempt made less than
    15 minutes after the fifth failure is answered 429; and a login that
    succeeds leaves no entry for the key, so its count is back to 0. *)
Theorem login_rate_limited (la : attempts_map) (c : LoginCall) :
  let key := lower (lc_email c) in
  (result_of la c = Err 429 <->
     exists attempts last_attempt,
       la !! key = Some (attempts, last_attempt)
       /\ 5 <= attempts /\ lc_now c - last_attempt < DT.minutes 15)
  /\ (forall (cs : list LoginCall) (c5 : LoginCall) (la0 : attempts_map),
        la0 !! key = None ->
        length (cs ++ [c5]) = 5%nat ->
        Forall (fun c' => lower (lc_email c') = key) (cs ++ [c5]) ->
        failing la0 (cs ++ [c5]) ->
        la = after la0 (cs ++ [c5]) ->
        lc_now c - lc_later c5 < DT.minutes 15 ->
        result_of la c = Err 429)
  /\ (forall resp, result_of la c = Ok resp ->
        attempts_of la c !! key = None /\ count_of (attempts_of la c) key = 0).
Proof.
  intros key. split; [|split].
  - rewrite login_429_iff. apply check_rate_limit_false.
  - intros cs c5 la0 Hnone Hlen Hkey Hfail -> Hsoon.
    destruct (failed_run_count key (cs ++ [c5]) la0 Hkey Hfail) as [_ Hlast].
    specialize (Hlast c5 (last_snoc c5 cs)).
    rewrite Hlen in Hlast. unfold count_of in Hlast. rewrite Hnone in Hlast.
    apply login_429_iff, check_rate_limit_false.
    exists 5, (lc_later c5). fold key. rewrite Hlast. split; [reflexivity|lia].
  - intros resp Hok.
    destruct (login_cases la c) as [(R & _)|[(R & _)|(_ & _ & E)]];
      try congruence.
    fold key in E. rewrite E. unfold count_of.
    rewrite record_success_lookup. auto.
Qed.

(** C4: the stored count of a key only goes down through an accepted
    login. A login answered 401 stores the previous count plus one with
    the time of the failure, however old the previous failure is; one
    answered 429 leaves the dict as it is; in both cases no key's count
    decreases. So after four failures for a key that had no entry and,
    more than 15 minutes later, a fifth one, the key stands at count 5
    with a fresh timestamp and the next attempt within 15 minutes is
    answered 429. *)
Theorem failure_count_keeps_growing (la : attempts_map) (c : LoginCall) :
  let key := lower (lc_email c) in
  (result_of la c = Err 401 ->
     attempts_of la c !! key = Some (count_of la key + 1, lc_later c))
  /\ (result_of la c = Err 429 -> attempts_of la c = la)
  /\ (result_of la c = Err 401 \/ result_of la c = Err 429 ->
        forall k, count_of la k <= count_of (attempts_of la c) k)
  /\ (forall (cs : list LoginCall) (c4 c5 : LoginCall) (la0 : attempts_map),
        la0 !! key = None ->
        length (cs ++ [c4]) = 4%nat ->
        Forall (fun c' => lower (lc_email c') = key) (cs ++ [c4]) ->
        lower (lc_email c5) = key ->
        failing la0 (cs ++ [c4]) ->
        DT.minutes 15 < lc_now c5 - lc_later c4 ->
        result_of (after la0 (cs ++ [c4])) c5 = Err 401 ->
        la = attempts_of (after la0 (cs ++ [c4])) c5 ->
        lc_now c - lc_later c5 < DT.minutes 15 ->
        la !! key = Some (5, lc_later c5) /\ result_of la c = Err 429).
Proof.
  intros key. split; [|split; [|split]].
  - intros H. rewrite (login_401_attempts la c H). apply record_failure_lookup.
  - intros H.
    destruct (login_cases la c) as [(_ & _ & E)|[(R & _)|([(r & R)|R] & _)]];
      congruence.
  - intros [H|H] k.
    + rewrite (login_401_attempts la c H). apply record_failure_count.
    + destruct (login_cases la c) as [(_ & _ & E)|[(R & _)|([(r & R)|R] & _)]];
        try congruence. rewrite E. lia.
  - intros cs c4 c5 la0 Hnone Hlen Hkey Hkey5 Hfail Hlate H5 -> Hsoon.
    destruct (failed_run_count key (cs ++ [c4]) la0 Hkey Hfail) as [Hcount _].
    rewrite Hlen in Hcount. unfold count_of at 2 in Hcount.
    rewrite Hnone in Hcount.
    pose proof (login_401_attempts _ c5 H5) as E5.
    pose proof (record_failure_lookup (after la0 (cs ++ [c4])) key (lc_later c5)) as Hlk.
    rewrite Hcount in Hlk. rewrite Hkey5 in E5. rewrite <- E5 in Hlk.
    split; [exact Hlk|].
    apply login_429_iff, check_rate_limit_false.
    exists 5, (lc_later c5). fold key. rewrite Hlk. split; [reflexivity|lia].
Qed.

End LoginFacts.

Lemma login_rate_limited_witness :
  call_result demo_encode demo_verify demo_lower DT.fromisoformat_basic
    (attempts_after demo_encode demo_verify demo_lower DT.fromisoformat_basic ∅
       (map demo_call [DT.minutes 0; DT.minutes 1; DT.minutes 2; DT.minutes 3; DT.minutes 4]))
    (demo_call (DT.minutes 18))
  = Err 429.
Proof.
  pose (cs := map demo_call [DT.minutes 0; DT.minutes 1; DT.minutes 2; DT.minutes 3]).
  refine (proj1 (proj2 (login_rate_limited demo_encode demo_verify demo_lower
            DT.fromisoformat_basic _ (demo_call (DT.minutes 18))))
            cs (demo_call (DT.minutes 4)) ∅ _ _ _ _ _ _).
  - reflexivity.
  - reflexivity.
  - repeat constructor.
  - vm_compute. repeat split.
  - reflexivity.
  - vm_compute. reflexivity.
Defined.

Lemma failure_count_keeps_growing_witness :
  let la :=
    call_attempts demo_encode demo_verify demo_lower DT.fromisoformat_basic
      (attempts_after demo_encode demo_verify demo_lower DT.fromisoformat_basic ∅
         (map demo_call [DT.minutes 0; DT.minutes 1; DT.minutes 2; DT.minutes 3]))
      (demo_call (DT.minutes 23)) in
  la !! "ana@example.com"%string = Some (5, DT.minutes 23 + 1)
  /\ call_result demo_encode demo_verify demo_lower DT.fromisoformat_basic la
       (demo_call (DT.minutes 30)) = Err 429.
Proof.
  pose (cs := map demo_call [DT.minutes 0; DT.minutes 1; DT.minutes 2]).
  refine (proj2 (proj2 (proj2 (failure_count_keeps_growing demo_encode demo_verify
            demo_lower DT.fromisoformat_basic _ (demo_call (DT.minutes 30)))))
            cs (demo_call (DT.minutes 3)) (demo_call (DT.minutes 23)) ∅
            _ _ _ _ _ _ _ _ _).
  - reflexivity.
  - reflexivity.
  - repeat constructor.
  - reflexivity.
  - vm_compute. repeat split.
  - vm_compute. reflexivity.
  - vm_compute. reflexivity.
  - reflexivity.
  - vm_compute. reflexivity.
Defined.

(* ================================================================== *)
(** * Facts: refresh-token rotation *)
(* ================================================================== *)

Lemma delete_one_length {A} (p : A -> bool) (l : list A) (x : A) :
  In x l -> p x = true -> S (length (delete_one p l)) = length l.
Proof.
  induction l as [|y r IH]; simpl; [tauto|].
  intros Hin Hp. destruct (p y) eqn:Hy; [reflexivity|].
  simpl. f_equal. destruct Hin as [->|Hin]; [congruence | auto].
Qed.

Lemma delete_one_incl {A} (p : A -> bool) (l : list A) :
  forall x, In x (delete_one p l) -> In x l.
Proof.
  induction l as [|y r IH]; simpl; [tauto|].
  destruct (p y); simpl; intuition.
Qed.

(** Where tokens are stored at most once, deleting the first document
    with a token leaves none with it. *)
Lemma delete_one_token_gone (tok : string) (rts : list RefreshToken) :
  List.NoDup (map rt_token rts) ->
  Forall (fun rt => rt_token rt <> tok)
    (delete_one (fun rt => (rt_token rt =? tok)%string) rts).
Proof.
  induction rts as [|rt r IH]; simpl; intros Hnd; [constructor|].
  inversion Hnd as [|? ? Hnotin Hr]; subst.
  destruct (String.eqb_spec (rt_token rt) tok) as [E|NE].
  - subst tok. apply Forall_forall. intros x Hx Heq.
    apply Hnotin. rewrite <- Heq. apply in_map. by apply list_elem_of_In.
  - constructor; auto.
Qed.

Lemma delete_one_tokens_nodup (tok : string) (rts : list RefreshToken) :
  List.NoDup (map rt_token rts) ->
  List.NoDup (map rt_token (delete_one (fun rt => (rt_token rt =? tok)%string) rts)).
Proof.
  induction rts as [|rt r IH]; simpl; intros Hnd; [constructor|].
  inversion Hnd as [|? ? Hnotin Hr]; subst.
  destruct (rt_token rt =? tok)%string; [assumption|].
  simpl. constructor; auto.
  intros Hin. apply Hnotin. apply in_map_iff in Hin as (x & <- & Hx).
  apply in_map. eapply delete_one_incl, Hx.
Qed.

Lemma snoc_nodup {A} (l : list A) (x : A) :
  List.NoDup l -> ~ In x l -> List.NoDup (l ++ [x]).
Proof.
  induction 1 as [|y r Hy Hr IH]; simpl; intros Hx.
  - constructor; [tauto | constructor].
  - constructor; [|apply IH; tauto].
    rewrite in_app_iff. simpl. intros [H|[H|[]]]; [tauto|]. apply Hx. by left.
Qed.

Lemma find_none_of_forall (tok : string) (uid : option string)
    (rts : list RefreshToken) :
  Forall (fun rt => rt_token rt <> tok) rts ->
  List.find (token_of_user tok uid) rts = None.
Proof.
  induction 1 as [|rt r Hne _ IH]; simpl; [reflexivity|].
  unfold token_of_user at 1.
  destruct (String.eqb_spec (rt_token rt) tok); [contradiction|]. exact IH.
Qed.

Section RefreshFacts.

Variable jwt_encode : Payload -> string.
Variable jwt_decode : string -> Z -> Decoded.
Variable fromisoformat : string -> option DT.datetime.

Local Abbreviation refresh := (refresh_token jwt_encode jwt_decode fromisoformat).

(** What a refresh that answers 200 has done. *)
Lemma refresh_ok_inv (db db' : DB) (now : Z) (jti id tok : string)
    (resp : TokenResponse) :
  refresh db now jti id tok = (Ok resp, db') ->
  exists payload uid stored,
    jwt_decode tok now = Claims payload
    /\ p_type payload = Some "refresh"%string
    /\ List.find (token_of_user tok (p_sub payload)) (refresh_tokens db) = Some stored
    /\ refresh_token_of resp = create_refresh_token jwt_encode uid now jti
    /\ db' = set_refresh_tokens db
               (insert_one (new_refresh_record id uid (refresh_token_of resp) now)
                  (old_token_deleted tok db)).
Proof.
  unfold refresh_token.
  destruct (jwt_decode tok now) as [payload| |]; try discriminate.
  destruct (bool_decide_reflect (p_type payload = Some "refresh"%string)) as [Ht|];
    simpl; [|discriminate].
  destruct (List.find (token_of_user _ _) _) as [stored|] eqn:Hfind; [|discriminate].
  simpl. destruct (List.find (user_has_id _) _) as [user|]; [|discriminate].
  unfold token_response.
  destruct (fromisoformat _) as [created|]; [|discriminate].
  intros [= <- <-]. exists payload, (u_id user), stored. simpl. auto.
Qed.

(** C2: a refresh token works once. A successful refresh deletes the
    stored record of the presented token and inserts the record of the
    token it returns; with tokens stored at most once and the new token
    different from the old one (each carries its own uuid4 [jti]), no
    record of the old token is left, and presenting it again is answered
    401 whatever the time, leaving the database as it is. *)
Theorem refresh_token_single_use (db db' : DB) (now : Z) (jti id tok : string)
    (resp : TokenResponse) :
  List.NoDup (map rt_token (refresh_tokens db)) ->
  refresh db now jti id tok = (Ok resp, db') ->
  refresh_token_of resp <> tok ->
  (exists new_record,
      refresh_tokens db' = old_token_deleted tok db ++ [new_record]
      /\ rt_token new_record = refresh_token_of resp
      /\ S (length (old_token_deleted tok db)) = length (refresh_tokens db))
  /\ Forall (fun rt => rt_token rt <> tok) (refresh_tokens db')
  /\ List.NoDup (map rt_token (old_token_deleted tok db))
  /\ forall now2 jti2 id2, refresh db' now2 jti2 id2 tok = (Err 401, db').
Proof.
  intros Hnd Hok Hfresh.
  destruct (refresh_ok_inv _ _ _ _ _ _ _ Hok)
    as (payload & uid & stored & Hdec & Hty & Hfind & Hnew & ->).
  assert (Hgone : Forall (fun rt => rt_token rt <> tok)
                    (refresh_tokens
                       (set_refresh_tokens db
                          (insert_one (new_refresh_record id uid (refresh_token_of resp) now)
                             (old_token_deleted tok db))))).
  { simpl. unfold insert_one. apply Forall_app. split.
    - by apply delete_one_token_gone.
    - constructor; [exact Hfresh | constructor]. }
  split; [|split; [|split]].
  - eexists. simpl. split; [reflexivity|]. split; [reflexivity|].
    apply find_some in Hfind as [Hin Hp].
    apply (delete_one_length _ _ stored Hin).
    unfold token_of_user in Hp. by apply andb_prop in Hp as [-> _].
  - exact Hgone.
  - by apply delete_one_tokens_nodup.
  - intros now2 jti2 id2. unfold refresh_token.
    destruct (jwt_decode tok now2) as [p2| |]; try reflexivity.
    destruct (negb _); [reflexivity|].
    by rewrite (find_none_of_forall _ _ _ Hgone).
Qed.

(** Rotation keeps the stored tokens distinct, as long as the token it
    issues is not already in the store. *)
Lemma refresh_keeps_tokens_distinct (db db' : DB) (now : Z) (jti id tok : string)
    (resp : TokenResponse) :
  List.NoDup (map rt_token (refresh_tokens db)) ->
  refresh db now jti id tok = (Ok resp, db') ->
  ~ In (refresh_token_of resp) (map rt_token (refresh_tokens db)) ->
  List.NoDup (map rt_token (refresh_tokens db')).
Proof.
  intros Hnd Hok Hnew.
  destruct (refresh_ok_inv _ _ _ _ _ _ _ Hok)
    as (payload & uid & stored & _ & _ & _ & _ & ->).
  simpl. unfold insert_one. rewrite map_app. simpl.
  apply snoc_nodup.
  - by apply delete_one_tokens_nodup.
  - intros Hin. apply Hnew. apply in_map_iff in Hin as (rt & <- & Hrt).
    apply in_map. eapply delete_one_incl, Hrt.
Qed.

(** C9: when the presented token decodes to a refresh payload and has a
    stored record, but no user has the id of its subject, the call is
    answered 401 after the record has been deleted: the database left
    behind has one refresh-token record fewer, gains none, keeps its
    other collections, and (tokens being stored at most once) holds no
    record of the presented token any more. *)
Theorem refresh_consumes_token_without_user (db : DB) (now : Z)
    (jti id tok : string) (payload : Payload) (stored : RefreshToken) :
  jwt_decode tok now = Claims payload ->
  p_type payload = Some "refresh"%string ->
  List.find (token_of_user tok (p_sub payload)) (refresh_tokens db) = Some stored ->
  List.find (user_has_id (p_sub payload)) (users db) = None ->
  let db' := snd (refresh db now jti id tok) in
  refresh db now jti id tok = (Err 401, db')
  /\ refresh_tokens db' = old_token_deleted tok db
  /\ S (length (refresh_tokens db')) = length (refresh_tokens db)
  /\ (forall rt, In rt (refresh_tokens db') -> In rt (refresh_tokens db))
  /\ (users db', categories db', transactions db')
     = (users db, categories db, transactions db)
  /\ (List.NoDup (map rt_token (refresh_tokens db)) ->
      Forall (fun rt => rt_token rt <> tok) (refresh_tokens db')).
Proof.
  intros Hdec Hty Hfind Huser. unfold refresh_token.
  rewrite Hdec. rewrite bool_decide_true by exact Hty. simpl.
  rewrite Hfind. simpl. rewrite Huser. simpl.
  split; [reflexivity|]. split; [reflexivity|]. split.
  { apply find_some in Hfind as [Hin Hp].
    apply (delete_one_length _ _ stored Hin).
    unfold token_of_user in Hp. by apply andb_prop in Hp as [-> _]. }
  split; [apply delete_one_incl|]. split; [reflexivity|].
  apply delete_one_token_gone.
Qed.

End RefreshFacts.

Lemma demo_tokens_nodup : List.NoDup (map rt_token (refresh_tokens demo_auth_db)).
Proof.
  simpl. repeat constructor; simpl; intuition discriminate.
Qed.

Lemma refresh_token_single_use_witness :
  fst demo_refreshed = Ok demo_response
  /\ refresh_token demo_encode_jti demo_decode DT.fromisoformat_basic
       (snd demo_refreshed) (DT.minutes 2) "j3" "r3" "u1.j1"
     = (Err 401, snd demo_refreshed).
Proof.
  split; [vm_compute; reflexivity|].
  refine (proj2 (proj2 (proj2
            (refresh_token_single_use demo_encode_jti demo_decode
               DT.fromisoformat_basic demo_auth_db (snd demo_refreshed)
               (DT.minutes 1) "j2" "r2" "u1.j1" demo_response _ _ _)))
            (DT.minutes 2) "j3"%string "r3"%string).
  - exact demo_tokens_nodup.
  - vm_compute. reflexivity.
  - vm_compute. discriminate.
Defined.

Lemma refresh_consumes_token_without_user_witness :
  refresh_token demo_encode_jti demo_decode DT.fromisoformat_basic
    demo_auth_db (DT.minutes 1) "j2" "r2" "ghost.j9"
  = (Err 401,
     set_refresh_tokens demo_auth_db [mk_rt "r1" "u1" "u1.j1" 0 (DT.days 7)]).
Proof.
  refine (proj1 (refresh_consumes_token_without_user demo_encode_jti demo_decode
            DT.fromisoformat_basic demo_auth_db (DT.minutes 1) "j2" "r2" "ghost.j9"
            (mk_payload (Some "ghost") (DT.days 7) (Some "refresh") (Some "j9"))%string
            (mk_rt "r9" "ghost" "ghost.j9" 0 (DT.days 7)) _ _ _ _)).
  - reflexivity.
  - reflexivity.
  - reflexivity.
  - reflexivity.
Defined.

(* ================================================================== *)
(** * Facts: category deletion *)
(* ================================================================== *)

Lemma filter_nonempty_iff {A} (p : A -> bool) (l : list A) :
  (0 < length (List.filter p l))%nat <-> exists x, In x l /\ p x = true.
Proof.
  split.
  - destruct (List.filter p l) as [|x r] eqn:E; simpl; [lia|].
    intros _. exists x. apply filter_In. rewrite E. by left.
  - intros (x & Hx). apply filter_In in Hx.
    destruct (List.filter p l); simpl in *; [tauto | lia].
Qed.

Lemma set_category_id_frame (target : string) (t : Transaction) :
  same_but_category t (set_category_id target t)
  /\ tx_category_id (set_category_id target t) = target.
Proof. unfold same_but_category. simpl. repeat split. Qed.

(** C10: deleting a category. The count that asks for a reassignment
    target looks at the user's non-deleted transactions that reference
    the category, and at nothing else: a call without a target is
    answered 400 exactly when there is such a transaction, and when there
    is none the category is deleted at once, whatever target is given,
    and no transaction is touched, soft-deleted references included.
    When the count is positive and a target of the user is given, the
    update rewrites every transaction of the user that references the
    category, soft-deleted or not, and nothing but its [category_id];
    all other transactions, the users and the refresh tokens are left as
    they are. *)
Theorem delete_category_reassigns_all (db : DB) (uid category_id : string)
    (category : Category) :
  List.find (owned_category category_id uid) (categories db) = Some category ->
  let refers t :=
    ((tx_category_id t =? category_id) && (tx_user_id t =? uid))%string in
  let has_live :=
    exists t, In t (transactions db) /\ refers t = true /\ tx_deleted_at t = None in
  (fst (delete_category db uid category_id None) = Err 400 <-> has_live)
  /\ (~ has_live ->
      forall reassign_to,
        fst (delete_category db uid category_id reassign_to) = Ok tt
        /\ transactions (snd (delete_category db uid category_id reassign_to))
           = transactions db)
  /\ (has_live ->
      forall target reassign_cat,
        target <> ""%string ->
        List.find (owned_category target uid) (categories db) = Some reassign_cat ->
        let db' := snd (delete_category db uid category_id (Some target)) in
        fst (delete_category db uid category_id (Some target)) = Ok tt
        /\ transactions db'
           = map (fun t => if refers t then set_category_id target t else t)
               (transactions db)
        /\ Forall2 (fun t t' =>
                      same_but_category t t'
                      /\ tx_category_id t'
                         = if refers t then target else tx_category_id t)
             (transactions db) (transactions db')
        /\ (forall t deleted_at,
              In t (transactions db) ->
              refers t = true ->
              tx_deleted_at t = Some deleted_at ->
              exists t',
                In t' (transactions db')
                /\ same_but_category t t'
                /\ tx_category_id t' = target
                /\ tx_deleted_at t' = Some deleted_at)
        /\ (users db', refresh_tokens db') = (users db, refresh_tokens db)).
Proof.
  intros Hcat refers has_live. subst has_live refers. cbv beta.
  set (has_live := exists t, _).
  assert (Hcount : (0 <? length (List.filter (references_live category_id uid)
                                   (transactions db)))%nat = true <-> has_live).
  { rewrite Nat.ltb_lt, filter_nonempty_iff. unfold has_live, references_live, references.
    split; intros (t & Hin & H); exists t; (split; [exact Hin|]).
    - apply andb_prop in H as [Href Hnone]. split; [exact Href|].
      by destruct (tx_deleted_at t).
    - destruct H as [Href Hdel]. by rewrite Href, Hdel. }
  split; [|split].
  - unfold delete_category. rewrite Hcat. simpl falsy.
    destruct (0 <? _)%nat; simpl; split; try discriminate; try reflexivity.
    + intros _. by apply Hcount.
    + intros H. apply Hcount in H. discriminate.
  - intros Hno reassign_to. unfold delete_category. rewrite Hcat.
    destruct (0 <? _)%nat; [|split; reflexivity].
    exfalso. by apply Hno, Hcount.
  - intros Hlive target reassign_cat Hne Htarget db'. subst db'.
    unfold delete_category. rewrite Hcat.
    apply Hcount in Hlive. rewrite Hlive.
    assert (Hfalsy : falsy (Some target) = false).
    { simpl. by apply String.eqb_neq. }
    rewrite Hfalsy. simpl default. rewrite Htarget. simpl.
    split; [reflexivity|]. split; [reflexivity|].
    split; [|split; [|reflexivity]].
    + unfold update_many, references. clear.
      induction (transactions db) as [|t r IH]; simpl; constructor.
      * destruct ((tx_category_id t =? category_id)%string
                  && (tx_user_id t =? uid)%string).
        -- apply set_category_id_frame.
        -- unfold same_but_category. repeat split.
      * exact IH.
    + intros t deleted_at Hin Href Hdel. exists (set_category_id target t).
      split; [|split; [apply set_category_id_frame|split; [reflexivity | exact Hdel]]].
      unfold update_many, references. apply in_map_iff. exists t.
      split; [|exact Hin]. by rewrite Href.
Qed.

Lemma delete_category_reassigns_all_witness :
  transactions (snd (delete_category demo_cat_db "u1" "c1" (Some "c2"%string)))
  = [demo_tx "t1" "c2" None;
     demo_tx "t2" "c2" (Some "2024-01-11T09:00:00+00:00");
     demo_tx "t3" "c2" None]%string
  /\ fst (delete_category demo_cat_db "u1" "c1" None) = Err 400
  /\ fst (delete_category demo_cat_db_dead "u1" "c1" None) = Ok tt
  /\ transactions (snd (delete_category demo_cat_db_dead "u1" "c1" None))
     = [demo_tx "t2" "c1" (Some "2024-01-11T09:00:00+00:00");
        demo_tx "t3" "c2" None]%string.
Proof.
  assert (Hlive : exists t,
             In t (transactions demo_cat_db)
             /\ ((tx_category_id t =? "c1") && (tx_user_id t =? "u1"))%string = true
             /\ tx_deleted_at t = None).
  { exists (demo_tx "t1" "c1" None). simpl. auto. }
  assert (Hdead : ~ exists t,
             In t (transactions demo_cat_db_dead)
             /\ ((tx_category_id t =? "c1") && (tx_user_id t =? "u1"))%string = true
             /\ tx_deleted_at t = None).
  { intros (t & [<-|[<-|[]]] & Href & Hdel); discriminate. }
  destruct (delete_category_reassigns_all demo_cat_db "u1" "c1"
              (mk_cat "c1" "u1" "Lazer" "EXPENSE" "#14b8a6" None "2024-01-01T00:00:00+00:00")
              eq_refl) as (Hcount & _ & Hmove).
  destruct (delete_category_reassigns_all demo_cat_db_dead "u1" "c1"
              (mk_cat "c1" "u1" "Lazer" "EXPENSE" "#14b8a6" None "2024-01-01T00:00:00+00:00")
              eq_refl) as (_ & Hnone & _).
  destruct (Hmove Hlive "c2"%string
              (mk_cat "c2" "u1" "Outros" "BOTH" "#71717a" None "2024-01-01T00:00:00+00:00")
              ltac:(discriminate) eq_refl) as (_ & Hmoved & _).
  destruct (Hnone Hdead None) as [Hok Hsame].
  split; [exact Hmoved|]. split; [by apply Hcount|]. split; [exact Hok | exact Hsame].
Defined.

(* ================================================================== *)
(** * Facts: float comparisons *)
(* ================================================================== *)

(** A float that compares equal to zero is not greater than zero. *)
Lemma not_positive_of_zero (x : float) :
  (x =? 0)%float = true -> (0 <? x)%float = false.
Proof.
  intros H. rewrite FloatAxioms.eqb_spec in H. rewrite FloatAxioms.ltb_spec.
  replace (Prim2SF 0) with (S754_zero false) in * by reflexivity.
  destruct (Prim2SF x) as [[]|[]| |[] m e]; cbv in *; congruence.
Qed.

(** [Leibniz] inequality of floats from the comparison of their bits. *)
Lemma float_neq (x y : float) :
  SFeqb (Prim2SF x) (Prim2SF y) = false ->
  SFeqb (Prim2SF x) (Prim2SF x) = true ->
  x <> y.
Proof. intros Hxy Hxx ->. congruence. Qed.

(* ================================================================== *)
(** * Facts: the monthly report *)
(* ================================================================== *)

Section MonthlyFacts.

Variable bahia_utcoffset : Z -> Z.

Local Abbreviation report := (get_monthly_report bahia_utcoffset).
Local Abbreviation fetched := (month_transactions bahia_utcoffset).

Lemma change_vs_previous_zero (cur prev : float) :
  (prev =? 0)%float = true -> change_vs_previous cur prev = None.
Proof.
  intros H. unfold change_vs_previous. by rewrite (not_positive_of_zero _ H).
Qed.

(** C5: in the monthly report, [income_change] is
    [(current - previous) / previous * 100] when the previous month's
    income is strictly positive and absent when it is zero, whatever the
    current income; likewise [expense_change]. A figure exists only for
    a positive divisor, so no division by zero takes place. The response
    carries the figure rounded to 2 decimals. The expression gives 50
    for 150 against 100. *)
Theorem monthly_change_vs_previous (db : DB) (uid : string) (month year : Z)
    (r : MonthlyReportResponse) :
  report db uid month year = Ok r ->
  let cur := fetched db uid month year in
  let prev := fetched db uid (fst (prev_month_of month year))
                (snd (prev_month_of month year)) in
  let change ty := change_vs_previous (sum_of_type ty cur) (sum_of_type ty prev) in
  mr_income_change r = option_map Py.round2 (change INCOME)
  /\ mr_expense_change r = option_map Py.round2 (change EXPENSE)
  /\ (forall ty,
        ((0 <? sum_of_type ty prev)%float = true ->
           change ty
           = Some ((sum_of_type ty cur - sum_of_type ty prev)
                   / sum_of_type ty prev * 100)%float)
        /\ ((sum_of_type ty prev =? 0)%float = true -> change ty = None)
        /\ (forall v, change ty = Some v -> (0 <? sum_of_type ty prev)%float = true))
  /\ change_vs_previous 150 100 = Some 50%float.
Proof.
  intros Hr cur prev change. unfold get_monthly_report in Hr.
  destruct (negb _); [discriminate|].
  destruct (prev_month_of month year) as [pm py] eqn:Hp. simpl in prev.
  injection Hr as <-. simpl.
  split; [reflexivity|]. split; [reflexivity|]. split; [|reflexivity].
  intros ty. subst change. unfold change_vs_previous. repeat split.
  - by intros ->.
  - intros H. by rewrite (not_positive_of_zero _ H).
  - intros v. by destruct (0 <? sum_of_type ty prev)%float.
Qed.

End MonthlyFacts.

Lemma monthly_change_vs_previous_witness :
  mr_income_change demo_report = Some 50%float
  /\ mr_expense_change demo_report = None.
Proof.
  destruct (monthly_change_vs_previous demo_bahia demo_ledger "u1" 1 2024 demo_report)
    as (Hi & He & _).
  - vm_compute. reflexivity.
  - rewrite Hi, He. split; vm_compute; reflexivity.
Defined.

(** C6: the monthly report of a ledger with expenses of 0.1 and 0.2 in one
    category on one day. The scalar totals come out rounded (0.3), but the
    amount of the top expense category and the expense and balance of the
    daily entry are the raw float sums 0.30000000000000004, which
    [round(_, 2)] would have turned into 0.3. *)
Theorem monthly_report_nested_amounts_unrounded :
  get_monthly_report demo_bahia demo_ledger "u1" 1 2024 = Ok demo_report
  /\ mr_total_expense demo_report = 0.3%float
  /\ mr_balance demo_report = 149.7%float
  /\ map ca_amount (mr_top_expense_categories demo_report) = [0.30000000000000004%float]
  /\ map dbal_expense (mr_daily_balance demo_report)
     = [0%float; 0.30000000000000004%float]
  /\ map dbal_balance (mr_daily_balance demo_report)
     = [150%float; (-0.30000000000000004)%float]
  /\ Py.round2 0.30000000000000004 = 0.3%float
  /\ Py.round2 (-0.30000000000000004) = (-0.3)%float
  /\ Forall (fun a => Py.round2 a <> a)
       (map ca_amount (mr_top_expense_categories demo_report))
  /\ Exists (fun d => Py.round2 (dbal_expense d) <> dbal_expense d
                      /\ Py.round2 (dbal_balance d) <> dbal_balance d)
       (mr_daily_balance demo_report).
Proof.
  repeat split; try (vm_compute; reflexivity).
  - constructor; [|constructor].
    apply float_neq; vm_compute; reflexivity.
  - apply Exists_cons_tl, Exists_cons_hd.
    split; apply float_neq; vm_compute; reflexivity.
Qed.

(* ================================================================== *)
(** * Facts: the dashboard *)
(* ================================================================== *)

Section DashboardFacts.

Variable bahia_utcoffset : Z -> Z.
Variable fromisoformat : string -> option DT.datetime.

Local Abbreviation dashboard := (get_dashboard bahia_utcoffset fromisoformat).

(** What a dashboard call that answers 200 has computed on the way. *)
Lemma dashboard_ok_inv (db : DB) (uid : string) (now_year now_month : Z)
    (start_date end_date : option string) (resp : DashboardResponse) :
  dashboard db uid now_year now_month start_date end_date = Ok resp ->
  let lo := default_start bahia_utcoffset now_year now_month start_date in
  let hi := default_end bahia_utcoffset now_year now_month end_date in
  exists start_dt end_dt prev_start prev_end cmp,
    fromisoformat (Str.replace_Z lo) = Some start_dt
    /\ fromisoformat (Str.replace_Z hi) = Some end_dt
    /\ previous_period start_dt end_dt = Some (prev_start, prev_end)
    /\ monthly_comparison bahia_utcoffset (all_transactions db uid)
         now_year now_month = Some cmp
    /\ dr_monthly_comparison resp = cmp
    /\ dr_income_vs_expense_change resp
       = Py.round2
           (income_vs_expense_change
              (balance_between db uid lo hi)
              (balance_between db uid (DT.isoformat prev_start)
                 (DT.isoformat prev_end))).
Proof.
  intros H lo hi. unfold get_dashboard in H. fold lo hi in H.
  destruct (fromisoformat (Str.replace_Z lo)) as [start_dt|]; [|discriminate].
  destruct (fromisoformat (Str.replace_Z hi)) as [end_dt|]; [|discriminate].
  destruct (previous_period start_dt end_dt) as [[prev_start prev_end]|] eqn:Hp;
    [|discriminate].
  destruct (monthly_comparison _ _ _ _) as [cmp|] eqn:Hc; [|discriminate].
  injection H as <-. exists start_dt, end_dt, prev_start, prev_end, cmp.
  simpl. repeat split; auto.
Qed.

(** C1, as the handler computes it: the change is taken relative to the
    absolute value of the previous-period balance,
    [(current - previous) / |previous| * 100], whenever that balance is
    nonzero; when it is zero the change is 100 for a positive current
    balance and 0 otherwise. The response carries the figure rounded to
    2 decimals (100 and 0 are their own roundings). *)
Theorem dashboard_change_over_abs_previous (db : DB) (uid : string)
    (now_year now_month : Z) (start_date end_date : option string)
    (resp : DashboardResponse) :
  dashboard db uid now_year now_month start_date end_date = Ok resp ->
  exists start_dt end_dt prev_start prev_end,
    fromisoformat (Str.replace_Z (default_start bahia_utcoffset now_year now_month start_date))
      = Some start_dt
    /\ fromisoformat (Str.replace_Z (default_end bahia_utcoffset now_year now_month end_date))
         = Some end_dt
    /\ previous_period start_dt end_dt = Some (prev_start, prev_end)
    /\ let current :=
         balance_between db uid
           (default_start bahia_utcoffset now_year now_month start_date)
           (default_end bahia_utcoffset now_year now_month end_date) in
       let previous :=
         balance_between db uid (DT.isoformat prev_start) (DT.isoformat prev_end) in
       ((previous =? 0)%float = false ->
          dr_income_vs_expense_change resp
          = Py.round2 ((current - previous) / abs previous * 100)%float)
       /\ ((previous =? 0)%float = true -> (0 <? current)%float = true ->
             dr_income_vs_expense_change resp = 100%float)
       /\ ((previous =? 0)%float = true -> (0 <? current)%float = false ->
             dr_income_vs_expense_change resp = 0%float).
Proof.
  intros H.
  destruct (dashboard_ok_inv _ _ _ _ _ _ _ H)
    as (start_dt & end_dt & prev_start & prev_end & cmp
        & Hs & He & Hp & _ & _ & Hchange).
  exists start_dt, end_dt, prev_start, prev_end.
  split; [exact Hs|]. split; [exact He|]. split; [exact Hp|].
  intros current previous. rewrite Hchange. fold current previous.
  unfold income_vs_expense_change. repeat split.
  - by intros ->.
  - intros -> ->. reflexivity.
  - intros -> ->. reflexivity.
Qed.

End DashboardFacts.

(** C1, as stated, fails: in the dashboard of January 2024 over
    [demo_deficit] the balance went from -100 to -50 and the previous
    balance is nonzero; the response says +50, while the quotient by the
    signed previous balance, [(current - previous) / previous * 100], is
    -50. *)
Lemma dashboard_change_signed_previous_fails :
  get_dashboard demo_bahia DT.fromisoformat_basic demo_deficit "u1" 2024 1 None None
  = Ok demo_dashboard
  /\ (let current :=
        balance_between demo_deficit "u1" (fst january_2024) (snd january_2024) in
      let previous :=
        balance_between demo_deficit "u1"
          (fst previous_of_january_2024) (snd previous_of_january_2024) in
      current = (-50)%float
      /\ previous = (-100)%float
      /\ (previous =? 0)%float = false
      /\ ((current - previous) / previous * 100 = -50)%float
      /\ dr_income_vs_expense_change demo_dashboard = 50%float
      /\ dr_income_vs_expense_change demo_dashboard
         <> ((current - previous) / previous * 100)%float
      /\ dr_income_vs_expense_change demo_dashboard
         <> Py.round2 ((current - previous) / previous * 100)%float).
Proof.
  split; [vm_compute; reflexivity|].
  repeat split; try (vm_compute; reflexivity);
    apply float_neq; vm_compute; reflexivity.
Qed.

Lemma dashboard_change_over_abs_previous_witness :
  dr_income_vs_expense_change demo_dashboard
  = Py.round2 ((-50 - -100) / abs (-100) * 100)%float.
Proof.
  destruct (dashboard_change_over_abs_previous demo_bahia DT.fromisoformat_basic
              demo_deficit "u1" 2024 1 None None demo_dashboard)
    as (start_dt & end_dt & prev_start & prev_end & Hs & He & Hp & Hnz & _).
  - vm_compute. reflexivity.
  - vm_compute in Hs, He. injection Hs as <-. injection He as <-.
    vm_compute in Hp. injection Hp as <- <-.
    rewrite Hnz; vm_compute; reflexivity.
Defined.

(* ================================================================== *)
(** * Facts: the comparison periods of the dashboard *)
(* ================================================================== *)

Lemma td_days_of_days (n : Z) : DT.td_days (DT.days n) = n.
Proof. unfold DT.td_days, DT.days. apply Z.div_mul. discriminate. Qed.

Lemma below_next_day (d : Z) : d < DT.days (DT.td_days d + 1).
Proof.
  unfold DT.days, DT.td_days.
  assert (H : 0 < DT.US_PER_DAY) by reflexivity.
  pose proof (Z.mod_pos_bound d _ H). pose proof (Z.div_mod d DT.US_PER_DAY).
  lia.
Qed.

Lemma diff_minus (dt : DT.datetime) (td : DT.timedelta) :
  DT.diff dt (DT.minus dt td) = Some td.
Proof.
  unfold DT.diff, DT.minus. simpl.
  destruct (DT.utcoff dt); f_equal; lia.
Qed.

(** C7, as the handler computes it: the previous period ends one second
    before the selected one starts, so the two do not overlap; but from
    its first to its last instant it spans exactly [period_days] days,
    which is strictly more than the selected period spans, and counted
    the way the handler counts the selected period ([.days + 1]) it has
    one day more. *)
Theorem previous_period_longer_than_selected
    (start_dt end_dt prev_start prev_end : DT.datetime) :
  previous_period start_dt end_dt = Some (prev_start, prev_end) ->
  exists n d,
    period_days start_dt end_dt = Some n
    /\ DT.diff end_dt start_dt = Some d
    /\ DT.diff start_dt prev_end = Some (DT.seconds 1)
    /\ DT.diff prev_end prev_start = Some (DT.days n)
    /\ d < DT.days n
    /\ period_days prev_start prev_end = Some (n + 1).
Proof.
  unfold previous_period, period_days.
  destruct (DT.diff end_dt start_dt) as [d|]; [|discriminate].
  intros [= <- <-]. exists (DT.td_days d + 1), d.
  rewrite !diff_minus, td_days_of_days.
  repeat split. apply below_next_day.
Qed.

Lemma previous_period_longer_than_selected_witness :
  DT.fromisoformat_basic (fst january_2024) = Some demo_start
  /\ DT.fromisoformat_basic (snd january_2024) = Some demo_end
  /\ period_days demo_start demo_end = Some 31
  /\ exists prev_start prev_end,
       previous_period demo_start demo_end = Some (prev_start, prev_end)
       /\ (DT.isoformat prev_start, DT.isoformat prev_end) = previous_of_january_2024
       /\ period_days prev_start prev_end = Some 32.
Proof.
  split; [vm_compute; reflexivity|]. split; [vm_compute; reflexivity|].
  split; [vm_compute; reflexivity|].
  exists (DT.at_ 2023 11 30 23 59 59 (Some (-180))),
         (DT.at_ 2023 12 31 23 59 59 (Some (-180))).
  assert (Hp : previous_period demo_start demo_end
               = Some (DT.at_ 2023 11 30 23 59 59 (Some (-180)),
                       DT.at_ 2023 12 31 23 59 59 (Some (-180))))
    by (vm_compute; reflexivity).
  split; [exact Hp|]. split; [vm_compute; reflexivity|].
  destruct (previous_period_longer_than_selected _ _ _ _ Hp)
    as (n & d & Hn & _ & _ & _ & _ & Hprev).
  vm_compute in Hn. injection Hn as <-. exact Hprev.
Defined.

Lemma november_counts_in_previous_period_of_january :
  (exists r, get_dashboard demo_bahia DT.fromisoformat_basic demo_deficit "u1" 2024 1
               (Some (fst january_2024)) (Some (snd january_2024)) = Ok r
             /\ dr_income_vs_expense_change r = 50%float)
  /\ (exists r, get_dashboard demo_bahia DT.fromisoformat_basic demo_deficit_november
                  "u1" 2024 1 (Some (fst january_2024)) (Some (snd january_2024)) = Ok r
                /\ dr_income_vs_expense_change r = 46.24%float)
  /\ balance_between demo_deficit_november "u1"
       (fst previous_of_january_2024) (snd previous_of_january_2024) = (-93)%float.
Proof.
  split; [|split].
  - eexists. split; [vm_compute; reflexivity|]. vm_compute. reflexivity.
  - eexists. split; [vm_compute; reflexivity|]. vm_compute. reflexivity.
  - vm_compute. reflexivity.
Qed.

(* ================================================================== *)
(** * Facts: the six-month comparison *)
(* ================================================================== *)

(** The fuel handed to [wrap_month] is enough: the loop always stops on
    its own test, with a positive month. *)
Lemma wrap_month_positive (fuel : nat) :
  forall m y, 1 - m <= Z.of_nat fuel -> 0 < fst (wrap_month fuel m y).
Proof.
  induction fuel as [|fuel IH]; intros m y Hfuel; simpl.
  - lia.
  - destruct (Z.leb_spec m 0); simpl; [apply IH|]; lia.
Qed.

(** The loop keeps [12 * y + m]. *)
Lemma wrap_month_index (fuel : nat) :
  forall m y, 12 * snd (wrap_month fuel m y) + fst (wrap_month fuel m y) = 12 * y + m.
Proof.
  induction fuel as [|fuel IH]; intros m y; simpl; [reflexivity|].
  destruct (m <=? 0); simpl; [rewrite IH|]; lia.
Qed.

(** It never moves a month past 12. *)
Lemma wrap_month_at_most_12 (fuel : nat) :
  forall m y, m <= 12 -> fst (wrap_month fuel m y) <= 12.
Proof.
  induction fuel as [|fuel IH]; intros m y Hm; simpl; [exact Hm|].
  destruct (Z.leb_spec m 0); simpl; [apply IH|]; lia.
Qed.

Lemma filter_filter_and {A} (p q : A -> bool) (l : list A) :
  List.filter (fun x => p x && q x) l = List.filter q (List.filter p l).
Proof.
  induction l as [|x r IH]; simpl; [reflexivity|].
  destruct (p x); simpl; [|exact IH]. destruct (q x); by rewrite IH.
Qed.

Section ComparisonFacts.

Variable bahia_utcoffset : Z -> Z.
Variable fromisoformat : string -> option DT.datetime.

Local Abbreviation dashboard := (get_dashboard bahia_utcoffset fromisoformat).

Lemma month_comparison_entry_spec (all : list Transaction)
    (now_year now_month i : Z) :
  1 <= now_month <= 12 -> 0 <= i ->
  exists e y m,
    month_comparison_entry bahia_utcoffset all now_year now_month i = Some e
    /\ 1 <= m <= 12
    /\ 12 * y + m = 12 * now_year + now_month - i
    /\ entry_of_month bahia_utcoffset all e y m.
Proof.
  intros Hm Hi. unfold month_comparison_entry, comparison_month.
  pose proof (wrap_month_positive (Z.to_nat (1 - (now_month - i)))
                (now_month - i) now_year ltac:(lia)) as Hpos.
  pose proof (wrap_month_at_most_12 (Z.to_nat (1 - (now_month - i)))
                (now_month - i) now_year ltac:(lia)) as Hle.
  pose proof (wrap_month_index (Z.to_nat (1 - (now_month - i)))
                (now_month - i) now_year) as Hidx.
  destruct (wrap_month _ _ _) as [m y]. simpl in *.
  destruct (Z.ltb_spec (m - 1) 0); [lia|].
  destruct (Z.leb_spec 12 (m - 1)); [lia|]. simpl.
  eexists _, y, m. split; [reflexivity|].
  split; [lia|]. split; [lia|]. repeat split.
Qed.

(** C8: [monthly_comparison] has exactly six entries, one for each of
    the calendar months 5, 4, 3, 2, 1 and 0 months before the current
    one, in that order (oldest first). Each carries the abbreviation of
    its month, its year, and the income and expense totals, rounded to
    2 decimals, of the transactions that belong to the user, are not
    deleted and whose date string lies between the month's first
    instant and its last second, both included, in Brazil time. The
    transactions are those of all time, as far as the query's limit of
    100000 documents reaches; the selected period plays no part. *)
Theorem monthly_comparison_last_six_months (db : DB) (uid : string)
    (now_year now_month : Z) (start_date end_date : option string)
    (resp : DashboardResponse) :
  1 <= now_month <= 12 ->
  dashboard db uid now_year now_month start_date end_date = Ok resp ->
  let mine :=
    firstn 100000
      (List.filter
         (fun t => (tx_user_id t =? uid)%string
                   && match tx_deleted_at t with None => true | Some _ => false end)
         (transactions db)) in
  let first_of y m := DT.wall (DT.at_ y m 1 0 0 0 None) in
  let stamp w := DT.isoformat (DT.mk_datetime w (Some (bahia_utcoffset w))) in
  let m_start y m := stamp (first_of y m) in
  let m_end y m :=
    stamp ((if m =? 12 then first_of (y + 1) 1 else first_of y (m + 1))
           - DT.seconds 1) in
  let total ty y m :=
    Py.round2
      (Py.sum
         (map tx_amount
            (List.filter
               (fun t => TxType_eqb (tx_type t) ty
                         && String.leb (m_start y m) (tx_date t)
                         && String.leb (tx_date t) (m_end y m))
               mine))) in
  length (dr_monthly_comparison resp) = 6%nat
  /\ Forall2
       (fun i e =>
          exists y m,
            1 <= m <= 12
            /\ 12 * y + m = 12 * now_year + now_month - i
            /\ mc_month e
               = nth (Z.to_nat (m - 1))
                   ["Jan"; "Fev"; "Mar"; "Abr"; "Mai"; "Jun";
                    "Jul"; "Ago"; "Set"; "Out"; "Nov"; "Dez"]%string ""%string
            /\ mc_year e = y
            /\ mc_income e = total INCOME y m
            /\ mc_expense e = total EXPENSE y m)
       [5; 4; 3; 2; 1; 0] (dr_monthly_comparison resp)
  /\ (forall start_date' end_date' resp',
        dashboard db uid now_year now_month start_date' end_date' = Ok resp' ->
        dr_monthly_comparison resp' = dr_monthly_comparison resp).
Proof.
  intros Hm Hok mine first_of stamp m_start m_end total.
  destruct (dashboard_ok_inv _ _ _ _ _ _ _ _ _ Hok)
    as (_ & _ & _ & _ & cmp & _ & _ & _ & Hcmp & -> & _).
  assert (Htotal : forall ty y m,
             Py.round2 (sum_of_type ty
                          (List.filter (in_month bahia_utcoffset y m)
                             (all_transactions db uid)))
             = total ty y m).
  { intros ty y m. unfold total, sum_of_type. do 3 f_equal.
    rewrite <- filter_filter_and. apply filter_ext. intros t.
    unfold in_month, Str.le. rewrite andb_comm, andb_assoc.
    unfold m_start, m_end, stamp, first_of, month_first, month_last, in_brazil.
    by destruct (m =? 12). }
  assert (Hall : Forall2
            (fun i e =>
               exists y m,
                 1 <= m <= 12
                 /\ 12 * y + m = 12 * now_year + now_month - i
                 /\ mc_month e
                    = nth (Z.to_nat (m - 1))
                        ["Jan"; "Fev"; "Mar"; "Abr"; "Mai"; "Jun";
                         "Jul"; "Ago"; "Set"; "Out"; "Nov"; "Dez"]%string ""%string
                 /\ mc_year e = y
                 /\ mc_income e = total INCOME y m
                 /\ mc_expense e = total EXPENSE y m)
            [5; 4; 3; 2; 1; 0] cmp).
  { unfold monthly_comparison in Hcmp. apply mapM_Some_1 in Hcmp.
    repeat match goal with
           | H : Forall2 _ (_ :: _) _ |- _ => inversion H; subst; clear H
           | H : Forall2 _ [] _ |- _ => inversion H; subst; clear H
           end.
    do 6 (constructor;
          [ match goal with
            | H : month_comparison_entry _ _ _ _ ?i = Some ?e
              |- exists _ _, _ /\ _ = _ - ?i /\ _ =>
                destruct (month_comparison_entry_spec
                            (all_transactions db uid)
                            now_year now_month i Hm ltac:(lia))
                  as (e' & y' & m' & He' & Hr & Hi & Hmo & Hy & Hinc & Hexp);
                exists y', m'; rewrite H in He'; injection He' as <-;
                rewrite <- !Htotal; auto 10
            end | ]).
    constructor. }
  split; [|split].
  - apply Forall2_length in Hall. simpl in Hall. congruence.
  - exact Hall.
  - intros sd' ed' resp' Hok'.
    destruct (dashboard_ok_inv _ _ _ _ _ _ _ _ _ Hok')
      as (_ & _ & _ & _ & cmp' & _ & _ & _ & Hcmp' & -> & _).
    congruence.
Qed.

End ComparisonFacts.

Lemma monthly_comparison_last_six_months_witness :
  map (fun e => (mc_month e, mc_year e, mc_income e, mc_expense e))
    (dr_monthly_comparison demo_comparison_dashboard)
  = [("Ago", 2023, 0%float, 0%float); ("Set", 2023, 0%float, 0%float);
     ("Out", 2023, 0%float, 0%float); ("Nov", 2023, 0%float, 0%float);
     ("Dez", 2023, 0%float, 100%float); ("Jan", 2024, 20%float, 50%float)]%string.
Proof.
  destruct (monthly_comparison_last_six_months demo_bahia DT.fromisoformat_basic
              demo_comparison_ledger "u1" 2024 1
              (Some "2023-12-01T00:00:00-03:00"%string)
              (Some "2023-12-31T23:59:59-03:00"%string)
              demo_comparison_dashboard ltac:(lia) ltac:(vm_compute; reflexivity))
    as (Hlen & Hall & _).
  remember (dr_monthly_comparison demo_comparison_dashboard) as l eqn:El. clear El.
  destruct l as [|e1 [|e2 [|e3 [|e4 [|e5 [|e6 [|e7 r]]]]]]]; try discriminate Hlen.
  clear Hlen.
  repeat match goal with
         | H : Forall2 _ (_ :: _) _ |- _ => inversion H; subst; clear H
         end.
  cbn [map].
  repeat match goal with
         | H : ex _ |- _ =>
             destruct H as (y & m & Hr & Hi & Hmo & Hy & Hinc & Hexp);
             match type of Hi with
             | _ = _ - ?i =>
                 let yv := eval vm_compute in ((12 * 2024 + 1 - i - 1) / 12) in
                 let mv := eval vm_compute in ((12 * 2024 + 1 - i - 1) mod 12 + 1) in
                 assert (Ey : y = yv) by lia; assert (Em : m = mv) by lia
             end;
             rewrite Hmo, Hy, Hinc, Hexp; clear Hr Hi Hmo Hy Hinc Hexp;
             subst y m
         end.
  vm_compute. reflexivity.
Defined.

(* ================================================================== *)
(** * Facts: logout, the access dependency and registration *)
(* ================================================================== *)

Lemma delete_one_keeps_others {A} (p : A -> bool) (l : list A) (x : A) :
  p x = false -> (In x (delete_one p l) <-> In x l).
Proof.
  intros Hx. induction l as [|y r IH]; simpl; [tauto|].
  destruct (p y) eqn:Hy; simpl.
  - split; [tauto|]. intros [->|H]; [congruence | exact H].
  - rewrite IH. tauto.
Qed.

Lemma delete_one_absent {A} (p : A -> bool) (l : list A) :
  Forall (fun x => p x = false) l -> delete_one p l = l.
Proof.
  induction 1 as [|x r Hx _ IH]; simpl; [reflexivity|].
  rewrite Hx. by f_equal.
Qed.

Lemma find_app_none {A} (p : A -> bool) (l k : list A) :
  List.find p l = None -> List.find p (l ++ k) = List.find p k.
Proof.
  induction l as [|x r IH]; simpl; [reflexivity|].
  destruct (p x); [discriminate | exact IH].
Qed.

Lemma find_app_some {A} (p : A -> bool) (l k : list A) (x : A) :
  List.find p l = Some x -> List.find p (l ++ k) = Some x.
Proof.
  induction l as [|y r IH]; simpl; [discriminate|].
  destruct (p y); [auto | exact IH].
Qed.

Lemma split_space_no_space (s : string) :
  ~ In " "%char (list_ascii_of_string s) -> split_space s = [s].
Proof.
  induction s as [|c r IH]; simpl; intros Hno; [reflexivity|].
  destruct (Ascii.eqb_spec c " ") as [->|_]; [tauto|].
  rewrite IH by tauto. reflexivity.
Qed.

Lemma bearer_prefix (tok : string) :
  String.prefix "Bearer " ("Bearer " ++ tok) = true.
Proof. apply String.prefix_correct. simpl. destruct tok; reflexivity. Qed.

Lemma bearer_token (tok : string) :
  ~ In " "%char (list_ascii_of_string tok) ->
  nth_error (split_space ("Bearer " ++ tok)) 1 = Some tok.
Proof.
  intros Hno.
  change (nth_error
            (match split_space (String " " tok) with
             | h :: t => ("Bearer" ++ h)%string :: t
             | [] => ["Bearer"%string]
             end) 1 = Some tok).
  cbn [split_space Ascii.eqb Bool.eqb]. simpl.
  by rewrite (split_space_no_space tok Hno).
Qed.

Section AuthMoreFacts.

Variable jwt_encode : Payload -> string.
Variable jwt_decode : string -> Z -> Decoded.
Variable verify : string -> string -> bool.
Variable lower : string -> string.
Variable fromisoformat : string -> option DT.datetime.
Variable hash : string -> string -> string.

Local Abbreviation refresh := (refresh_token jwt_encode jwt_decode fromisoformat).
Local Abbreviation current_user := (get_current_user jwt_decode).
Local Abbreviation signup := (register jwt_encode lower hash).
Local Abbreviation signin := (login jwt_encode verify lower fromisoformat).

(** X1: logout revokes the token. With tokens stored at most once, a
    refresh that presents a token after its logout is answered 401 and
    changes nothing, whatever the time. *)
Theorem logout_then_refresh_fails (db : DB) (tok : string) (now : Z)
    (jti id : string) :
  List.NoDup (map rt_token (refresh_tokens db)) ->
  refresh (snd (logout db tok)) now jti id tok = (Err 401, snd (logout db tok)).
Proof.
  intros Hnd. unfold refresh_token, logout, old_token_deleted. simpl.
  destruct (jwt_decode tok now) as [p| |]; try reflexivity.
  destruct (negb _); [reflexivity|].
  rewrite (find_none_of_forall tok (p_sub p) _ (delete_one_token_gone tok _ Hnd)).
  reflexivity.
Qed.

(** X2: logout always answers 200 and touches the refresh-token
    collection only: it removes at most one record, never one of another
    token, and removes nothing when the token is not stored. *)
Theorem logout_removes_only_that_token (db : DB) (tok : string) :
  let db' := snd (logout db tok) in
  fst (logout db tok) = Ok tt
  /\ (users db', categories db', transactions db')
     = (users db, categories db, transactions db)
  /\ (forall rt, rt_token rt <> tok ->
        (In rt (refresh_tokens db') <-> In rt (refresh_tokens db)))
  /\ (length (refresh_tokens db) <= S (length (refresh_tokens db')))%nat
  /\ (Forall (fun rt => rt_token rt <> tok) (refresh_tokens db) -> db' = db)
  /\ (List.NoDup (map rt_token (refresh_tokens db)) ->
      snd (logout db' tok) = db').
Proof.
  unfold logout. simpl. split; [reflexivity|]. split; [reflexivity|].
  assert (Hsame : forall rts : list RefreshToken,
             Forall (fun rt => rt_token rt <> tok) rts ->
             delete_one (fun rt => (rt_token rt =? tok)%string) rts = rts).
  { intros rts H. apply delete_one_absent.
    eapply Forall_impl; [exact H|]. simpl. intros rt Hne.
    by apply String.eqb_neq. }
  split; [|split; [|split]].
  - intros rt Hne. apply delete_one_keeps_others. by apply String.eqb_neq.
  - unfold old_token_deleted. induction (refresh_tokens db) as [|rt r IH]; simpl; [lia|].
    destruct (rt_token rt =? tok)%string; simpl; lia.
  - intros H. unfold old_token_deleted. rewrite (Hsame _ H). by destruct db.
  - intros Hnd. unfold set_refresh_tokens, old_token_deleted. simpl. f_equal.
    apply Hsame. by apply delete_one_token_gone.
Qed.

(** X3: the two token types do not stand in for each other. A bearer
    token whose payload is not of type [access] (a refresh token, for
    one) is answered 401 by [get_current_user], and a token whose
    payload is not of type [refresh] (an access token) is answered 401
    by the refresh handler, which then leaves the database as it is. *)
Theorem token_types_are_separate (db : DB) (now : Z) (tok : string)
    (payload : Payload) :
  jwt_decode tok now = Claims payload ->
  ~ In " "%char (list_ascii_of_string tok) ->
  (p_type payload <> Some "access"%string ->
     current_user db now (Some ("Bearer " ++ tok)%string) = Err 401)
  /\ (p_type payload <> Some "refresh"%string ->
        forall jti id, refresh db now jti id tok = (Err 401, db)).
Proof.
  intros Hdec Hno. split.
  - intros Hty. unfold get_current_user.
    rewrite bearer_prefix, (bearer_token tok Hno). simpl.
    rewrite Hdec. rewrite bool_decide_false by exact Hty. reflexivity.
  - intros Hty jti id. unfold refresh_token. rewrite Hdec.
    rewrite bool_decide_false by exact Hty. reflexivity.
Qed.

(** X4: what a successful authentication means. [get_current_user]
    answers with a user only for a header [Bearer <token>] whose token
    decodes to an [access] payload, and the user is the first stored one
    whose id is the payload's subject; a request without a header, or
    with one that does not start with [Bearer ], is never answered with
    a user. *)
Theorem current_user_is_token_subject (db : DB) (now : Z)
    (authorization : option string) (cu : CurrentUser) :
  current_user db now authorization = Ok cu ->
  exists auth_header token payload user,
    authorization = Some auth_header
    /\ String.prefix "Bearer " auth_header = true
    /\ nth_error (split_space auth_header) 1 = Some token
    /\ jwt_decode token now = Claims payload
    /\ p_type payload = Some "access"%string
    /\ List.find (user_has_id (p_sub payload)) (users db) = Some user
    /\ p_sub payload = Some (u_id user)
    /\ cu = without_password user.
Proof.
  unfold get_current_user. intros H.
  destruct authorization as [h|]; [|discriminate].
  destruct (h =? "")%string; [discriminate|].
  destruct (String.prefix "Bearer " h) eqn:Hp; [|discriminate].
  cbn [orb negb] in H.
  destruct (nth_error (split_space h) 1) as [token|] eqn:Ht; [|discriminate].
  destruct (jwt_decode token now) as [p| |] eqn:Hd; try discriminate.
  destruct (bool_decide_reflect (p_type p = Some "access"%string)) as [Hty|];
    [|discriminate]. cbn [negb] in H.
  destruct (List.find _ (users db)) as [u|] eqn:Hu; [|discriminate].
  revert H.
  intros [= <-]. exists h, token, p, u. repeat split; auto.
  apply find_some in Hu as [_ Hid]. unfold user_has_id in Hid.
  destruct (p_sub p) as [uid|]; [|discriminate].
  apply String.eqb_eq in Hid. by rewrite Hid.
Qed.

End AuthMoreFacts.

Lemma default_category_docs_spec (user_id now : string) (uuid : nat -> string)
    (cats : list (string * string * string * string)) :
  forall k,
    let docs := default_category_docs user_id now uuid k cats in
    length docs = length cats
    /\ Forall (fun c => cat_user_id c = user_id /\ cat_created_at c = now) docs
    /\ map cat_id docs = map uuid (seq k (length cats))
    /\ map (fun c => (cat_name c, cat_type c, cat_color c, cat_icon c)) docs
       = map (fun d => let '(n, t, c, i) := d in (n, t, c, Some i)) cats.
Proof.
  induction cats as [|[[[n t] c] i] r IH]; intros k; simpl.
  - repeat split. constructor.
  - destruct (IH (S k)) as (Hl & Hf & Hi & Hn). simpl in *.
    repeat split; try (f_equal; assumption). constructor; auto.
Qed.

Section RegisterFacts.

Variable jwt_encode : Payload -> string.
Variable jwt_decode : string -> Z -> Decoded.
Variable verify : string -> string -> bool.
Variable lower : string -> string.
Variable fromisoformat : string -> option DT.datetime.
Variable hash : string -> string -> string.

Local Abbreviation refresh := (refresh_token jwt_encode jwt_decode fromisoformat).
Local Abbreviation signup := (register jwt_encode lower hash).
Local Abbreviation signin := (login jwt_encode verify lower fromisoformat).

Lemma register_ok_inv (db db' : DB) (now later : Z) (user_id rt_id jti salt : string)
    (uuid : nat -> string) (email name password : string) (resp : TokenResponse) :
  signup db now later user_id rt_id jti salt uuid email name password = (Ok resp, db') ->
  List.find (fun u => (u_email u =? lower email)%string) (users db) = None
  /\ resp = mk_token_response (create_access_token jwt_encode user_id later)
              (create_refresh_token jwt_encode user_id later jti) "bearer"
              (mk_user_response user_id (lower email) name "dark" (utc now))
  /\ db' = mk_db
             (users db ++ [mk_user user_id (lower email) name (hash salt password)
                             "dark" (utc_isoformat now)])
             (categories db
              ++ default_category_docs user_id (utc_isoformat later) uuid 0
                   DEFAULT_CATEGORIES)
             (transactions db)
             (refresh_tokens db
              ++ [new_refresh_record rt_id user_id
                    (create_refresh_token jwt_encode user_id later jti) now]).
Proof.
  unfold register. destruct (List.find _ (users db)); [discriminate|].
  intros [= <- <-]. repeat split.
Qed.

(** X5: what a successful registration leaves behind. One user document
    is appended, with the lower-cased email, the hash of the password
    and the theme [dark]; the eleven default categories are appended,
    all owned by the new user, with the names, types, colors and icons
    of [DEFAULT_CATEGORIES] in order and the ids drawn for them; one
    refresh-token record is appended, for the token the response
    carries; transactions are not touched. *)
Theorem register_creates_account (db db' : DB) (now later : Z)
    (user_id rt_id jti salt : string) (uuid : nat -> string)
    (email name password : string) (resp : TokenResponse) :
  signup db now later user_id rt_id jti salt uuid email name password = (Ok resp, db') ->
  users db' = users db ++ [mk_user user_id (lower email) name (hash salt password)
                             "dark" (utc_isoformat now)]
  /\ (exists docs,
        categories db' = categories db ++ docs
        /\ length docs = 11%nat
        /\ Forall (fun c => cat_user_id c = user_id) docs
        /\ map cat_id docs = map uuid (seq 0 11)
        /\ map (fun c => (cat_name c, cat_type c, cat_color c, cat_icon c)) docs
           = map (fun d => let '(n, t, c, i) := d in (n, t, c, Some i))
               DEFAULT_CATEGORIES)
  /\ transactions db' = transactions db
  /\ refresh_tokens db'
     = refresh_tokens db
       ++ [new_refresh_record rt_id user_id (refresh_token_of resp) now]
  /\ ur_id (user_of resp) = user_id
  /\ ur_email (user_of resp) = lower email.
Proof using jwt_encode lower hash.
  intros H. destruct (register_ok_inv _ _ _ _ _ _ _ _ _ _ _ _ _ H) as (_ & -> & ->).
  simpl. split; [reflexivity|]. split; [|repeat split].
  destruct (default_category_docs_spec user_id (utc_isoformat later) uuid
              DEFAULT_CATEGORIES 0) as (Hl & Hf & Hi & Hn).
  eexists. split; [reflexivity|]. split; [exact Hl|]. split; [|split].
  - eapply Forall_impl; [exact Hf|]. simpl. intros c [Hc _]. exact Hc.
  - exact Hi.
  - exact Hn.
Qed.

(** X6: an email registers once. After a successful registration, a
    registration with an email that lower-cases to the same address is
    answered 400 and changes nothing. *)
Theorem register_rejects_taken_email (db db' : DB) (now later : Z)
    (user_id rt_id jti salt : string) (uuid : nat -> string)
    (email name password : string) (resp : TokenResponse)
    (now2 later2 : Z) (user_id2 rt_id2 jti2 salt2 : string) (uuid2 : nat -> string)
    (email2 name2 password2 : string) :
  signup db now later user_id rt_id jti salt uuid email name password = (Ok resp, db') ->
  lower email2 = lower email ->
  signup db' now2 later2 user_id2 rt_id2 jti2 salt2 uuid2 email2 name2 password2
  = (Err 400, db').
Proof.
  intros H Hsame.
  destruct (register_ok_inv _ _ _ _ _ _ _ _ _ _ _ _ _ H) as (Hnone & _ & ->).
  unfold register. simpl users. rewrite Hsame.
  rewrite (find_app_none _ _ _ Hnone). simpl.
  by rewrite String.eqb_refl.
Qed.

(** X7: registration followed by login. With a password hash that
    verifies against its password, a stored creation time that parses,
    and no rate-limit block on the address, a login with the registered
    email (in any casing that lower-cases to it) and password succeeds
    for the registered user and leaves no failure entry for the
    address. *)
Theorem register_then_login (db db' : DB) (now later : Z)
    (user_id rt_id jti salt : string) (uuid : nat -> string)
    (email name password : string) (resp : TokenResponse)
    (la : attempts_map) (now2 later2 : Z) (jti2 id2 email2 : string)
    (created_at : DT.datetime) :
  signup db now later user_id rt_id jti salt uuid email name password = (Ok resp, db') ->
  verify password (hash salt password) = true ->
  fromisoformat (Str.replace_Z (utc_isoformat now)) = Some created_at ->
  lower email2 = lower email ->
  check_rate_limit la (lower email) now2 = true ->
  exists resp2 la2 db2,
    signin la db' now2 later2 jti2 id2 email2 password = (Ok resp2, la2, db2)
    /\ ur_id (user_of resp2) = user_id
    /\ ur_email (user_of resp2) = lower email
    /\ la2 !! lower email = None.
Proof.
  intros H Hver Hparse Hsame Hrate.
  destruct (register_ok_inv _ _ _ _ _ _ _ _ _ _ _ _ _ H) as (Hnone & _ & ->).
  unfold login. rewrite Hsame, Hrate. simpl.
  rewrite (find_app_none _ _ _ Hnone). simpl.
  rewrite String.eqb_refl. simpl. rewrite Hver.
  unfold token_response. simpl. rewrite Hparse. do 3 eexists. split; [reflexivity|]. simpl.
  split; [reflexivity|]. split; [reflexivity|].
  exact (record_success_lookup la (lower email) later2).
Qed.

(** X8: registration followed by refresh. If the id drawn for the user
    is not in use, the refresh token of the registration response
    decodes to a [refresh] payload for that user and the stored creation
    time parses, then presenting that token to the refresh handler
    succeeds for the registered user. *)
Theorem register_then_refresh (db db' : DB) (now later : Z)
    (user_id rt_id jti salt : string) (uuid : nat -> string)
    (email name password : string) (resp : TokenResponse)
    (now2 : Z) (jti2 id2 : string) (payload : Payload)
    (created_at : DT.datetime) :
  signup db now later user_id rt_id jti salt uuid email name password = (Ok resp, db') ->
  Forall (fun u => u_id u <> user_id) (users db) ->
  jwt_decode (refresh_token_of resp) now2 = Claims payload ->
  p_type payload = Some "refresh"%string ->
  p_sub payload = Some user_id ->
  fromisoformat (Str.replace_Z (utc_isoformat now)) = Some created_at ->
  exists resp2 db2,
    refresh db' now2 jti2 id2 (refresh_token_of resp) = (Ok resp2, db2)
    /\ ur_id (user_of resp2) = user_id
    /\ length (refresh_tokens db2) = length (refresh_tokens db').
Proof.
  intros H Hfresh Hdec Hty Hsub Hparse.
  destruct (register_ok_inv _ _ _ _ _ _ _ _ _ _ _ _ _ H) as (_ & -> & ->).
  simpl in Hdec. unfold refresh_token. simpl refresh_token_of.
  rewrite Hdec. rewrite bool_decide_true by exact Hty. cbn [negb].
  rewrite Hsub.
  set (tok := create_refresh_token jwt_encode user_id later jti).
  set (new := new_refresh_record rt_id user_id tok now).
  assert (Hmatch : token_of_user tok (Some user_id) new = true).
  { unfold token_of_user, new. simpl. by rewrite !String.eqb_refl. }
  assert (Hfind : exists stored,
             List.find (token_of_user tok (Some user_id)) (refresh_tokens db ++ [new])
             = Some stored).
  { destruct (List.find (token_of_user tok (Some user_id)) (refresh_tokens db))
      as [s|] eqn:E.
    - exists s. by apply find_app_some.
    - exists new. rewrite (find_app_none _ _ _ E). simpl. by rewrite Hmatch. }
  destruct Hfind as [stored Hfind]. simpl refresh_tokens. rewrite Hfind.
  simpl users.
  assert (Huser : List.find (user_has_id (Some user_id)) (users db) = None).
  { clear -Hfresh. induction Hfresh as [|u r Hu _ IH]; simpl; [reflexivity|].
    destruct (String.eqb_spec (u_id u) user_id); [contradiction | exact IH]. }
  rewrite (find_app_none _ _ _ Huser). simpl. rewrite String.eqb_refl.
  unfold token_response. simpl. rewrite Hparse.
  do 2 eexists. split; [reflexivity|]. simpl. split; [reflexivity|].
  unfold insert_one. rewrite !length_app. simpl.
  apply find_some in Hfind as [Hin Hp].
  pose proof (delete_one_length (fun rt => (rt_token rt =? tok)%string)
                (refresh_tokens db ++ [new]) stored Hin) as Hlen.
  unfold token_of_user in Hp. apply andb_prop in Hp as [Hp _].
  specialize (Hlen Hp). rewrite length_app in Hlen. simpl in Hlen. lia.
Qed.

End RegisterFacts.

Section LoginMoreFacts.

Variable jwt_encode : Payload -> string.
Variable verify : string -> string -> bool.
Variable lower : string -> string.
Variable fromisoformat : string -> option DT.datetime.

Local Abbreviation signin := (login jwt_encode verify lower fromisoformat).

(** X9: the reach of one login call. It changes the failure entry of
    its own (lower-cased) email only; a call answered 401 or
    429 leaves the database as it is; no call changes users, categories
    or transactions, and a successful one appends exactly the record of
    the refresh token it returns. *)
Theorem login_touches_own_entry_only (la : attempts_map) (db : DB)
    (now later : Z) (jti id email password : string) :
  let out := signin la db now later jti id email password in
  let la' := snd (fst out) in
  let db' := snd out in
  (forall k, k <> lower email -> la' !! k = la !! k)
  /\ (fst (fst out) = Err 401 \/ fst (fst out) = Err 429 -> db' = db)
  /\ (users db', categories db', transactions db')
     = (users db, categories db, transactions db)
  /\ (forall resp, fst (fst out) = Ok resp ->
        refresh_tokens db'
        = refresh_tokens db
          ++ [new_refresh_record id (ur_id (user_of resp))
                (refresh_token_of resp) later]).
Proof.
  unfold login.
  assert (Hfail : forall k, k <> lower email ->
            record_login_attempt la (lower email) false later !! k = la !! k).
  { intros k Hk. unfold record_login_attempt.
    destruct (la !! lower email) as [[n t]|]; simpl;
      by rewrite lookup_insert_ne. }
  destruct (check_rate_limit la (lower email) now); simpl.
  2: { repeat split; auto; discriminate. }
  destruct (List.find _ (users db)) as [u|]; simpl.
  2: { repeat split; auto; discriminate. }
  destruct (verify password (u_password u)); simpl.
  2: { repeat split; auto; discriminate. }
  unfold token_response.
  destruct (fromisoformat _) as [created|]; simpl.
  - repeat split.
    + intros k Hk. unfold record_login_attempt. simpl.
      by rewrite lookup_delete_ne.
    + intros [H|H]; discriminate.
    + intros resp [= <-]. reflexivity.
  - repeat split.
    + intros k Hk. unfold record_login_attempt. simpl.
      by rewrite lookup_delete_ne.
    + intros [H|H]; discriminate.
    + discriminate.
Qed.

(** X10: a failed login does not tell whether the address is
    registered. For an unknown address and for a known one with a wrong
    password the handler gives the same answer and leaves the same
    failure entries, and in both cases the database it ran against is
    unchanged. *)
Theorem login_hides_account_existence (la : attempts_map) (db1 db2 : DB)
    (now later : Z) (jti id email password : string) (user : User) :
  List.find (fun u => (u_email u =? lower email)%string) (users db1) = None ->
  List.find (fun u => (u_email u =? lower email)%string) (users db2) = Some user ->
  verify password (u_password user) = false ->
  fst (signin la db1 now later jti id email password)
  = fst (signin la db2 now later jti id email password)
  /\ snd (signin la db1 now later jti id email password) = db1
  /\ snd (signin la db2 now later jti id email password) = db2
  /\ (fst (fst (signin la db1 now later jti id email password)) = Err 401
      \/ fst (fst (signin la db1 now later jti id email password)) = Err 429).
Proof.
  intros H1 H2 Hv. unfold login. rewrite H1, H2, Hv.
  destruct (check_rate_limit la (lower email) now); simpl; auto.
Qed.

End LoginMoreFacts.

(* ================================================================== *)
(** * Facts: transactions *)
(* ================================================================== *)

Lemma in_firstn {A} (n : nat) (l : list A) (x : A) :
  In x (firstn n l) -> In x l.
Proof.
  revert l. induction n as [|n IH]; intros [|y r]; simpl; try tauto.
  intros [->|H]; auto.
Qed.

Lemma map_fixed {A} (g : A -> A) (l : list A) :
  (forall x, In x l -> g x = x) -> map g l = l.
Proof.
  induction l as [|x r IH]; simpl; intros H; [reflexivity|].
  rewrite H by auto. f_equal. apply IH. auto.
Qed.

Lemma update_one_unique_id (tid : string) (f : Transaction -> Transaction)
    (l : list Transaction) :
  List.NoDup (map tx_id l) ->
  update_one (fun t => (tx_id t =? tid)%string) f l
  = map (fun t => if (tx_id t =? tid)%string then f t else t) l.
Proof.
  induction l as [|t r IH]; simpl; intros Hnd; [reflexivity|].
  inversion Hnd as [|? ? Hnotin Hr]; subst.
  destruct (String.eqb_spec (tx_id t) tid) as [E|NE].
  - f_equal. symmetry. apply map_fixed.
    intros t' Hin. destruct (String.eqb_spec (tx_id t') tid) as [E'|]; [|reflexivity].
    exfalso. apply Hnotin. rewrite E, <- E'. by apply in_map.
  - f_equal. by apply IH.
Qed.

Lemma find_live_with_id (id uid : string) (l : list Transaction) (t : Transaction) :
  List.find (live_with_id id uid) l = Some t ->
  In t l /\ tx_id t = id /\ tx_user_id t = uid /\ tx_deleted_at t = None.
Proof.
  intros H. apply find_some in H as [Hin Hp]. split; [exact Hin|].
  unfold live_with_id, live in Hp.
  apply andb_prop in Hp as [Hid Hl]. apply andb_prop in Hl as [Hu Hd].
  apply String.eqb_eq in Hid, Hu. destruct (tx_deleted_at t); [discriminate|].
  auto.
Qed.

Section TransactionFacts.

Variable fromisoformat : string -> option DT.datetime.

Local Abbreviation fetch := (get_transaction fromisoformat).

(** X11: creation checks the category. A transaction is stored only
    under a category of the same user whose type is [BOTH] or the
    transaction's own type; the stored document is appended, is not
    deleted and carries the amount rounded to 2 decimals; nothing else
    changes, so a ledger whose transactions all fit their categories
    still does afterwards. A rejected creation (400) changes nothing. *)
Theorem create_transaction_fits_category (db db' : DB) (uid : string) (now : Z)
    (id : string) (transaction : TransactionCreate)
    (r : result TransactionResponse) :
  create_transaction db uid now id transaction = (r, db') ->
  (forall status, r = Err status -> status = 400 /\ db' = db)
  /\ (forall resp, r = Ok resp ->
        exists doc,
          transactions db' = transactions db ++ [doc]
          /\ (users db', categories db', refresh_tokens db')
             = (users db, categories db, refresh_tokens db)
          /\ compatible (categories db') doc
          /\ tx_id doc = id /\ tx_user_id doc = uid
          /\ tx_deleted_at doc = None
          /\ tx_amount doc = Py.round2 (tc_amount transaction)
          /\ tr_amount resp = tx_amount doc
          /\ (Forall (compatible (categories db)) (transactions db) ->
              Forall (compatible (categories db')) (transactions db'))).
Proof.
  unfold create_transaction.
  destruct (List.find _ (categories db)) as [c|] eqn:Hc.
  2: { intros [= <- <-]. split; [intros s [= <-]; auto | discriminate]. }
  apply find_some in Hc as [Hin Hown]. unfold owned_category in Hown.
  apply andb_prop in Hown as [Hid Hu]. apply String.eqb_eq in Hid, Hu.
  destruct (String.eqb_spec (cat_type c) "BOTH") as [Hb|Hb]; simpl.
  - intros [= <- <-]. split; [discriminate|]. intros resp [= <-].
    eexists. split; [reflexivity|]. simpl. repeat split.
    + exists c. simpl. auto.
    + intros Hall. apply Forall_app. split; [exact Hall|].
      constructor; [|constructor]. exists c. simpl. auto.
  - destruct (String.eqb_spec (cat_type c) (type_name (tc_type transaction)))
      as [Ht|Ht]; simpl.
    + intros [= <- <-]. split; [discriminate|]. intros resp [= <-].
      eexists. split; [reflexivity|]. simpl. repeat split.
      * exists c. simpl. auto.
      * intros Hall. apply Forall_app. split; [exact Hall|].
        constructor; [|constructor]. exists c. simpl. auto.
    + intros [= <- <-]. split; [intros s [= <-]; auto | discriminate].
Qed.

(** X12: a created transaction can be read back. If the id drawn is not
    in use and the stored date strings parse, [get_transaction] with
    that id answers with the document just created: same type,
    description, category and optional fields, the amount rounded to 2
    decimals, and the dates as parsed. *)
Theorem create_then_get_transaction (db db' : DB) (uid : string) (now : Z)
    (id : string) (transaction : TransactionCreate) (resp : TransactionResponse)
    (date_val stamp : DT.datetime) :
  create_transaction db uid now id transaction = (Ok resp, db') ->
  Forall (fun t => tx_id t <> id) (transactions db) ->
  fromisoformat (Str.replace_Z (DT.isoformat (tc_date transaction))) = Some date_val ->
  fromisoformat (Str.replace_Z (utc_isoformat now)) = Some stamp ->
  exists got,
    fetch db' uid id = Ok got
    /\ (tr_id got, tr_user_id got, tr_type got, tr_description got)
       = (id, uid, tc_type transaction, tc_description transaction)
    /\ tr_amount got = Py.round2 (tc_amount transaction)
    /\ (tr_category_id got, tr_payment_method got, tr_notes got)
       = (tc_category_id transaction, tc_payment_method transaction,
          tc_notes transaction)
    /\ (tr_date got, tr_created_at got, tr_updated_at got)
       = (date_val, stamp, stamp).
Proof.
  intros Hc Hfresh Hd Hs. unfold create_transaction in Hc.
  destruct (List.find _ (categories db)) as [c|]; [|discriminate].
  destruct (_ && _); [discriminate|]. injection Hc as <- <-.
  unfold get_transaction. simpl transactions.
  assert (Hnone : List.find (live_with_id id uid) (transactions db) = None).
  { clear -Hfresh. induction Hfresh as [|t r Ht _ IH]; simpl; [reflexivity|].
    unfold live_with_id at 1.
    destruct (String.eqb_spec (tx_id t) id); [contradiction | exact IH]. }
  unfold insert_one. rewrite (find_app_none _ _ _ Hnone). simpl.
  unfold live_with_id, live. simpl. rewrite !String.eqb_refl. simpl.
  unfold transaction_response. simpl. rewrite Hd, Hs.
  eexists. split; [reflexivity|]. simpl. repeat split.
Qed.

(** X13: a soft delete. With document ids stored at most once, a
    successful [delete_transaction] keeps every document in place and
    changes only the deleted one, by giving it a deletion time; from
    then on no query with the filter [deleted_at: None] returns it (for
    any user, so no report counts it), reading it is answered 404 and
    deleting it again is answered 404 without effect. *)
Theorem delete_transaction_hides_it (db db' : DB) (uid tid : string) (now : Z) :
  List.NoDup (map tx_id (transactions db)) ->
  delete_transaction db uid tid now = (Ok tt, db') ->
  (exists t,
      In t (transactions db) /\ tx_id t = tid /\ tx_user_id t = uid
      /\ transactions db'
         = map (fun t' => if (tx_id t' =? tid)%string
                          then set_deleted_at (utc_isoformat now) t' else t')
             (transactions db)
      /\ In (set_deleted_at (utc_isoformat now) t) (transactions db'))
  /\ (users db', categories db', refresh_tokens db')
     = (users db, categories db, refresh_tokens db)
  /\ length (transactions db') = length (transactions db)
  /\ (forall t', tx_id t' <> tid ->
        (In t' (transactions db') <-> In t' (transactions db)))
  /\ (forall uid' lo hi limit,
        Forall (fun t' => tx_id t' <> tid)
          (List.filter (live uid') (transactions db'))
        /\ Forall (fun t' => tx_id t' <> tid)
             (find_in_range (transactions db') uid' lo hi limit))
  /\ fetch db' uid tid = Err 404
  /\ (forall now2, delete_transaction db' uid tid now2 = (Err 404, db')).
Proof.
  intros Hnd Hdel. unfold delete_transaction in Hdel.
  destruct (List.find _ (transactions db)) as [t|] eqn:Hfind; [|discriminate].
  injection Hdel as <-. rewrite (update_one_unique_id _ _ _ Hnd).
  destruct (find_live_with_id _ _ _ _ Hfind) as (Hin & Hid & Hu & Hlive).
  set (mark := fun t' => if (tx_id t' =? tid)%string
                         then set_deleted_at (utc_isoformat now) t' else t').
  assert (Hnolive : forall uid',
             Forall (fun t' => tx_id t' <> tid)
               (List.filter (live uid') (map mark (transactions db)))).
  { intros uid'. apply Forall_forall. intros t' Ht'.
    apply list_elem_of_In, filter_In in Ht' as [Hm Hl].
    apply in_map_iff in Hm as (t0 & <- & _). unfold mark in *.
    destruct (String.eqb_spec (tx_id t0) tid) as [E|NE]; [|exact NE].
    unfold live in Hl. simpl in Hl. by rewrite andb_false_r in Hl. }
  assert (Hgone : List.find (live_with_id tid uid) (map mark (transactions db)) = None).
  { destruct (List.find _ (map mark _)) as [x|] eqn:E; [|reflexivity].
    destruct (find_live_with_id _ _ _ _ E) as (Hx & Hxid & Hxu & Hxd).
    pose proof (Hnolive uid) as Hf. rewrite Forall_forall in Hf.
    exfalso. apply (Hf x); [|exact Hxid].
    apply list_elem_of_In, filter_In. split; [exact Hx|].
    unfold live. by rewrite Hxu, Hxd, String.eqb_refl. }
  simpl. split; [|split; [reflexivity|split; [|split; [|split; [|split]]]]].
  - exists t. split; [exact Hin|]. split; [exact Hid|]. split; [exact Hu|].
    split; [reflexivity|]. apply in_map_iff. exists t. split; [|exact Hin].
    unfold mark. by rewrite Hid, String.eqb_refl.
  - apply length_map.
  - intros t' Hne. rewrite in_map_iff. split.
    + intros (t0 & <- & Hin0). unfold mark in *.
      destruct (String.eqb_spec (tx_id t0) tid); [|exact Hin0].
      simpl in Hne. contradiction.
    + intros Hin'. exists t'. split; [|exact Hin']. unfold mark.
      by destruct (String.eqb_spec (tx_id t') tid).
  - intros uid' lo hi limit. split; [apply Hnolive|].
    apply Forall_forall. intros t' Ht'. unfold find_in_range in Ht'.
    apply list_elem_of_In in Ht'. apply in_firstn in Ht'.
    apply filter_In in Ht' as [Hm Hp].
    pose proof (Hnolive uid') as Hf. rewrite Forall_forall in Hf.
    apply Hf. apply list_elem_of_In, filter_In. split; [exact Hm|].
    apply andb_prop in Hp as [Hp _]. by apply andb_prop in Hp as [Hp _].
  - unfold get_transaction. simpl. fold mark. by rewrite Hgone.
  - intros now2. unfold delete_transaction. simpl. fold mark. by rewrite Hgone.
Qed.

End TransactionFacts.

(* ================================================================== *)
(** * Facts: paging *)
(* ================================================================== *)

Lemma firstn_then_next {A} (a b : nat) (l : list A) :
  firstn a l ++ firstn b (skipn a l) = firstn (a + b) l.
Proof.
  revert l. induction a as [|a IH]; intros l; simpl; [reflexivity|].
  destruct l as [|x r]; simpl.
  - by rewrite firstn_nil.
  - f_equal. apply IH.
Qed.

Lemma pages_up_to {A} (k : nat) (l : list A) (m : nat) :
  concat (map (fun p => firstn k (skipn ((p - 1) * k) l)) (seq 1 m))
  = firstn (m * k) l.
Proof.
  induction m as [|m IH]; [reflexivity|].
  rewrite seq_S, map_app, concat_app, IH. simpl.
  replace (m - 0)%nat with m by lia.
  rewrite app_nil_r, firstn_then_next. f_equal. lia.
Qed.

(** X14: the pages of a listing. For a page size of at least 1, the
    pages 1 to [total_pages] of a sorted result, put one after the other,
    are exactly that result; no page holds more than [page_size]
    documents, every page up to [total_pages] holds at least one, every
    later page is empty, and [total_pages] is 0 only for an empty
    result. *)
Theorem pages_partition_the_listing {A} (sorted : list A) (page_size : Z) :
  1 <= page_size ->
  let pages := total_pages (Z.of_nat (length sorted)) page_size in
  concat (map (fun p => page_items sorted (Z.of_nat p) page_size)
            (seq 1 (Z.to_nat pages)))
  = sorted
  /\ (forall page,
        Z.of_nat (length (page_items sorted page page_size)) <= page_size)
  /\ (forall page, 1 <= page <= pages -> page_items sorted page page_size <> [])
  /\ (forall page, pages < page -> page_items sorted page page_size = [])
  /\ (pages = 0 <-> sorted = []).
Proof.
  intros Hps pages.
  set (k := Z.to_nat page_size). set (n := length sorted).
  assert (Hk : (1 <= k)%nat) by (unfold k; lia).
  assert (Hpages : (pages - 1) * page_size < Z.of_nat n <= pages * page_size
                   \/ (Z.of_nat n = 0 /\ pages = 0)).
  { unfold pages, total_pages. fold n.
    pose proof (Z.div_mod (Z.of_nat n + page_size - 1) page_size ltac:(lia)).
    pose proof (Z.mod_pos_bound (Z.of_nat n + page_size - 1) page_size ltac:(lia)).
    destruct (Z.eq_dec (Z.of_nat n) 0) as [E|NE].
    - right. split; [exact E|]. rewrite E. apply Z.div_small. lia.
    - left. nia. }
  assert (Hitems : forall page,
             page_items sorted page page_size
             = firstn k (skipn (Z.to_nat ((page - 1) * page_size)) sorted))
    by reflexivity.
  split; [|split; [|split; [|split]]].
  - assert (Hmap : map (fun p => page_items sorted (Z.of_nat p) page_size)
                     (seq 1 (Z.to_nat pages))
                   = map (fun p => firstn k (skipn ((p - 1) * k) sorted))
                       (seq 1 (Z.to_nat pages))).
    { apply map_ext_in. intros p Hp. apply in_seq in Hp. rewrite Hitems.
      do 2 f_equal. unfold k. nia. }
    rewrite Hmap, pages_up_to. apply firstn_all2.
    fold n. unfold k. destruct Hpages as [H|[H1 H2]]; nia.
  - intros page. rewrite Hitems. rewrite length_firstn. unfold k. lia.
  - intros page Hpage. rewrite Hitems.
    destruct Hpages as [H|[H1 H2]]; [|lia].
    assert (Hlt : (Z.to_nat ((page - 1) * page_size) < n)%nat) by nia.
    intros Hnil. apply (f_equal (@length A)) in Hnil.
    rewrite length_firstn, length_skipn in Hnil. fold n in Hnil. simpl in Hnil. lia.
  - intros page Hpage. rewrite Hitems.
    rewrite skipn_all2; [by rewrite firstn_nil|].
    fold n. destruct Hpages as [H|[H1 H2]]; nia.
  - split.
    + intros H0. assert (Hn : Z.of_nat n = 0) by (destruct Hpages as [H|[H1 _]]; nia).
      unfold n in Hn. destruct sorted; [reflexivity | simpl in Hn; lia].
    + intros ->. unfold pages, total_pages. simpl. apply Z.div_small. lia.
Qed.

(* ================================================================== *)
(** * Facts: goals *)
(* ================================================================== *)

Section GoalFacts.

Variable fromisoformat : string -> option DT.datetime.

Local Abbreviation fetch_goal := (get_goal fromisoformat).

(** X15: the progress of a goal is capped, and a goal is only shown to
    its owner. A goal response always describes a stored goal with the
    requested id that belongs to the caller; its progress is 0 when the
    target is not positive, exactly 100 when current / target * 100
    exceeds 100, and otherwise that percentage rounded to 2 decimals. *)
Theorem goal_progress_is_capped (goals : list Goal) (uid goal_id : string)
    (resp : GoalResponse) :
  fetch_goal goals uid goal_id = Ok resp ->
  exists goal,
    In goal goals /\ g_id goal = goal_id /\ g_user_id goal = uid
    /\ (gr_id resp, gr_user_id resp, gr_name resp)
       = (goal_id, uid, g_name goal)
    /\ (gr_target_amount resp, gr_current_amount resp)
       = (g_target_amount goal, g_current_amount goal)
    /\ let percent :=
         (g_current_amount goal / g_target_amount goal * 100)%float in
       ((0 <? g_target_amount goal)%float = false -> gr_progress resp = 0%float)
       /\ ((0 <? g_target_amount goal)%float = true ->
           (100 <? percent)%float = true -> gr_progress resp = 100%float)
       /\ ((0 <? g_target_amount goal)%float = true ->
           (100 <? percent)%float = false ->
           gr_progress resp = Py.round2 percent).
Proof.
  unfold get_goal.
  destruct (List.find _ goals) as [g|] eqn:Hg; [|discriminate].
  apply find_some in Hg as [Hin Hown]. unfold owned_goal in Hown.
  apply andb_prop in Hown as [Hid Hu]. apply String.eqb_eq in Hid, Hu.
  destruct (fromisoformat _) as [created|]; [|discriminate].
  assert (Hprog :
    let percent := (g_current_amount g / g_target_amount g * 100)%float in
    let p := response_progress (g_current_amount g) (g_target_amount g) in
    ((0 <? g_target_amount g)%float = false -> p = 0%float)
    /\ ((0 <? g_target_amount g)%float = true ->
        (100 <? percent)%float = true -> p = 100%float)
    /\ ((0 <? g_target_amount g)%float = true ->
        (100 <? percent)%float = false -> p = Py.round2 percent)).
  { unfold response_progress, progress_of, py_min. repeat split.
    - intros ->. reflexivity.
    - intros -> ->. reflexivity.
    - intros -> ->. reflexivity. }
  destruct (g_deadline g) as [d|].
  - destruct (fromisoformat _) as [deadline|]; [|discriminate].
    intros [= <-]. exists g. split; [exact Hin|]. split; [exact Hid|].
    split; [exact Hu|]. simpl. rewrite Hid, Hu. split; [reflexivity|].
    split; [reflexivity|]. exact Hprog.
  - intros [= <-]. exists g. split; [exact Hin|]. split; [exact Hid|].
    split; [exact Hu|]. simpl. rewrite Hid, Hu. split; [reflexivity|].
    split; [reflexivity|]. exact Hprog.
Qed.

(** X16: a goal's life. Creating a goal appends one document with the
    two amounts rounded to 2 decimals; if the id drawn is not in use and
    the stored dates parse, reading it back gives the same name,
    amounts and progress as the creation response; when the owner then
    deletes it the collection is as it was before, and reading the goal
    is answered 404. *)
Theorem goal_create_get_delete (goals : list Goal) (uid : string) (now : Z)
    (id : string) (goal : GoalCreate) (stamp : DT.datetime) :
  Forall (fun g => g_id g <> id) goals ->
  fromisoformat (Str.replace_Z (utc_isoformat now)) = Some stamp ->
  (forall d, gc_deadline goal = Some d ->
             fromisoformat (Str.replace_Z (DT.isoformat d)) = Some d) ->
  exists created doc,
    create_goal goals uid now id goal = (Ok created, goals ++ [doc])
    /\ (g_target_amount doc, g_current_amount doc)
       = (Py.round2 (gc_target_amount goal), Py.round2 (gc_current_amount goal))
    /\ (exists got,
          fetch_goal (goals ++ [doc]) uid id = Ok got
          /\ (gr_name got, gr_target_amount got, gr_current_amount got,
              gr_progress got, gr_deadline got)
             = (gr_name created, gr_target_amount created,
                gr_current_amount created, gr_progress created,
                gr_deadline created))
    /\ delete_goal (goals ++ [doc]) uid id = (Ok tt, goals)
    /\ fetch_goal goals uid id = Err 404.
Proof.
  intros Hfresh Hstamp Hdead. unfold create_goal.
  do 2 eexists. split; [reflexivity|]. split; [reflexivity|].
  assert (Hnone : List.find (owned_goal id uid) goals = None).
  { clear -Hfresh. induction Hfresh as [|g r Hg _ IH]; simpl; [reflexivity|].
    unfold owned_goal at 1.
    destruct (String.eqb_spec (g_id g) id); [contradiction | exact IH]. }
  split; [|split].
  - unfold get_goal. rewrite (find_app_none _ _ _ Hnone). simpl.
    unfold owned_goal. simpl. rewrite !String.eqb_refl. simpl.
    rewrite Hstamp. destruct (gc_deadline goal) as [d|] eqn:Hd; simpl.
    + rewrite (Hdead d eq_refl). eexists. split; reflexivity.
    + eexists. split; reflexivity.
  - unfold delete_goal. rewrite (find_app_none _ _ _ Hnone). simpl.
    unfold owned_goal. simpl. rewrite !String.eqb_refl. simpl. f_equal.
    clear -Hfresh. induction Hfresh as [|g r Hg _ IH]; simpl.
    + by rewrite String.eqb_refl.
    + destruct (String.eqb_spec (g_id g) id); [contradiction|]. by f_equal.
  - unfold get_goal. by rewrite Hnone.
Qed.

End GoalFacts.

(* ================================================================== *)
(** * Facts: what the reports depend on *)
(* ================================================================== *)

Lemma find_in_range_of_live (txs : list Transaction) (uid lo hi : string)
    (limit : nat) :
  find_in_range txs uid lo hi limit
  = firstn limit
      (List.filter (fun t => Str.le lo (tx_date t) && Str.le (tx_date t) hi)
         (List.filter (live uid) txs)).
Proof.
  unfold find_in_range. f_equal. rewrite <- filter_filter_and.
  apply filter_ext. intros t. by rewrite andb_assoc.
Qed.

Lemma days_before_next_year (y : Z) :
  DT.days_before_year (y + 1)
  = DT.days_before_year y + 365 + (if DT.is_leap y then 1 else 0).
Proof.
  unfold DT.days_before_year, DT.is_leap.
  replace (y + 1 - 1) with y by lia.
  destruct (Z.eqb_spec (y mod 4) 0), (Z.eqb_spec (y mod 100) 0),
    (Z.eqb_spec (y mod 400) 0); simpl;
    Z.div_mod_to_equations; lia.
Qed.

Section ReportFacts.

Variable bahia_utcoffset : Z -> Z.
Variable fromisoformat : string -> option DT.datetime.

Local Abbreviation report := (get_monthly_report bahia_utcoffset).
Local Abbreviation dashboard := (get_dashboard bahia_utcoffset fromisoformat).
Local Abbreviation first_of := (month_first bahia_utcoffset).
Local Abbreviation last_of := (month_last bahia_utcoffset).

(** X17: a report reads the caller's live transactions only. Two
    databases with the same categories in which the user has the same
    non-deleted transactions, in the same order, give that user the
    same monthly report and the same dashboard, whatever other users'
    and soft-deleted documents they hold. *)
Theorem reports_read_own_live_transactions (db1 db2 : DB) (uid : string) :
  List.filter (live uid) (transactions db1)
  = List.filter (live uid) (transactions db2) ->
  categories db1 = categories db2 ->
  (forall month year, report db1 uid month year = report db2 uid month year)
  /\ (forall now_year now_month start_date end_date,
        dashboard db1 uid now_year now_month start_date end_date
        = dashboard db2 uid now_year now_month start_date end_date).
Proof.
  intros Hlive Hcats.
  assert (Hfind : forall lo hi limit,
             find_in_range (transactions db1) uid lo hi limit
             = find_in_range (transactions db2) uid lo hi limit).
  { intros. by rewrite !find_in_range_of_live, Hlive. }
  split.
  - intros month year. unfold get_monthly_report, month_transactions,
      top_categories.
    destruct (negb _); [reflexivity|].
    destruct (prev_month_of month year) as [pm py].
    rewrite !Hfind, ?Hcats. reflexivity.
  - intros ny nm sd ed. unfold get_dashboard, balance_between, all_transactions.
    rewrite !Hfind, ?Hlive, ?Hcats.
    destruct (fromisoformat _) as [s|]; [|reflexivity].
    destruct (fromisoformat _) as [e|]; [|reflexivity].
    destruct (previous_period s e) as [[ps pe]|]; [|reflexivity].
    rewrite !Hfind. reflexivity.
Qed.

(** X18: the two months of the monthly report are adjacent. For a month
    in 1..12 the month compared against is the calendar month just
    before it (December of the previous year for January), and its range
    ends exactly one second before the range of the reported month
    starts. *)
Theorem previous_month_ends_before_month (month year : Z) :
  1 <= month <= 12 ->
  let prev_month := fst (prev_month_of month year) in
  let prev_year := snd (prev_month_of month year) in
  1 <= prev_month <= 12
  /\ 12 * prev_year + prev_month = 12 * year + month - 1
  /\ DT.wall (last_of prev_year prev_month)
     = DT.wall (first_of year month) - DT.seconds 1.
Proof.
  intros Hm. unfold prev_month_of, month_last.
  destruct (Z.eqb_spec month 1) as [->|Hne]; simpl.
  - repeat split; try lia. replace (year - 1 + 1) with year by lia. reflexivity.
  - destruct (Z.eqb_spec (month - 1) 12); [lia|].
    repeat split; try lia. replace (month - 1 + 1) with month by lia. reflexivity.
Qed.

(** X19: a month's range covers the month. For a month in 1..12 the
    range runs from midnight of the 1st to 23:59:59 of the last day: its
    two ends are the number of days of that month apart (29 for the
    February of a leap year), less one second. *)
Theorem month_range_spans_the_month (year month : Z) :
  1 <= month <= 12 ->
  DT.wall (last_of year month) - DT.wall (first_of year month)
  = DT.days (DT.days_in_month year month) - DT.seconds 1.
Proof.
  intros Hm. unfold month_last, month_first, in_brazil, DT.at_, DT.ymd2ord,
    DT.days, DT.seconds.
  assert (Hcases : month = 1 \/ month = 2 \/ month = 3 \/ month = 4 \/ month = 5
                   \/ month = 6 \/ month = 7 \/ month = 8 \/ month = 9
                   \/ month = 10 \/ month = 11 \/ month = 12) by lia.
  destruct Hcases as [->|[->|[->|[->|[->|[->|[->|[->|[->|[->|[->| ->]]]]]]]]]]];
    simpl DT.wall; cbn [Z.eqb Pos.eqb];
    unfold DT.days_before_month, DT.days_in_month; simpl;
    repeat match goal with
           | |- context [DT.days_before_month_common ?m] =>
               let v := eval vm_compute in (DT.days_before_month_common m) in
               change (DT.days_before_month_common m) with v
           end;
    try rewrite days_before_next_year;
    destruct (DT.is_leap year); unfold DT.US_PER_DAY, DT.US_PER_SECOND; lia.
Qed.

(** X20: without parameters the dashboard looks at the current month.
    For a current month in 1..12 of a year in 2000..2100, the period
    totals of a dashboard requested without [start_date] and [end_date]
    are the totals of the monthly report of that month, and its daily
    series has the dates of the report's daily balance. *)
Theorem default_dashboard_matches_monthly_report (db : DB) (uid : string)
    (now_year now_month : Z) (d : DashboardResponse) :
  1 <= now_month <= 12 -> 2000 <= now_year <= 2100 ->
  dashboard db uid now_year now_month None None = Ok d ->
  exists r,
    report db uid now_month now_year = Ok r
    /\ dr_total_income d = mr_total_income r
    /\ dr_total_expense d = mr_total_expense r
    /\ map die_date (dr_income_vs_expense_daily d)
       = map dbal_date (mr_daily_balance r)
    /\ map ca_amount (dr_expenses_by_category d)
       = map snd (expense_by_category
                    (month_transactions bahia_utcoffset db uid now_month now_year)).
Proof.
  intros Hm Hy Hd. unfold get_monthly_report.
  replace (negb _) with false
    by (symmetry; apply negb_false_iff; repeat (apply andb_true_intro; split); lia).
  destruct (prev_month_of now_month now_year) as [pm py].
  eexists. split; [reflexivity|]. simpl.
  unfold get_dashboard in Hd. simpl in Hd.
  destruct (fromisoformat _) as [s|]; [|discriminate].
  destruct (fromisoformat _) as [e|]; [|discriminate].
  destruct (previous_period s e) as [[ps pe]|]; [|discriminate].
  destruct (monthly_comparison _ _ _ _); [|discriminate].
  injection Hd as <-. simpl. unfold month_transactions.
  repeat split.
  - unfold income_vs_expense_daily, daily_balance. rewrite !map_map.
    apply map_ext. by intros [k [inc exp]].
  - unfold category_rows. rewrite map_map. reflexivity.
Qed.

End ReportFacts.

(* ================================================================== *)
(** * Facts: the daily series and the top categories *)
(* ================================================================== *)

Lemma ltb_asym (a b : string) : String.ltb a b = true -> String.ltb b a = false.
Proof.
  unfold String.ltb. rewrite (String.compare_antisym a b).
  by destruct (String.compare b a).
Qed.

Lemma ltb_of_not_above (a b : string) :
  String.ltb b a = false -> a <> b -> String.ltb a b = true.
Proof.
  unfold String.ltb. rewrite (String.compare_antisym b a).
  destruct (String.compare a b) eqn:E; simpl; try done.
  intros _ Hne. by apply String.compare_eq_iff in E.
Qed.

Lemma insert_day_perm (x : string * (float * float))
    (l : list (string * (float * float))) :
  Permutation (x :: l) (insert_day x l).
Proof.
  induction l as [|y r IH]; simpl; [reflexivity|].
  destruct (String.ltb (fst y) (fst x)); [|reflexivity].
  rewrite perm_swap. by constructor.
Qed.

Lemma sorted_days_perm (d : list (string * (float * float))) :
  Permutation d (sorted_days d).
Proof.
  induction d as [|x r IH]; simpl; [reflexivity|].
  rewrite <- insert_day_perm. by constructor.
Qed.

Lemma insert_day_weakly_ascending (x : string * (float * float))
    (l : list (string * (float * float))) :
  weakly_ascending (map fst l) -> weakly_ascending (map fst (insert_day x l)).
Proof.
  induction l as [|y r IH]; simpl; [auto|].
  intros Hs. destruct (String.ltb (fst y) (fst x)) eqn:Hyx; simpl.
  - assert (Hr : weakly_ascending (map fst r)) by (destruct r; simpl in *; tauto).
    specialize (IH Hr). destruct r as [|z r']; simpl in *.
    + split; [by apply ltb_asym | exact I].
    + destruct (String.ltb (fst z) (fst x)); simpl in *.
      * split; [tauto | exact IH].
      * split; [by apply ltb_asym | exact IH].
  - split; [exact Hyx | exact Hs].
Qed.

Lemma sorted_days_weakly_ascending (d : list (string * (float * float))) :
  weakly_ascending (map fst (sorted_days d)).
Proof.
  induction d as [|x r IH]; simpl; [exact I|].
  by apply insert_day_weakly_ascending.
Qed.

Lemma ascending_of_distinct (l : list string) :
  weakly_ascending l -> List.NoDup l -> ascending l.
Proof.
  induction l as [|a r IH]; simpl; [auto|].
  intros Hw Hnd. inversion Hnd as [|? ? Hnotin Hr]; subst.
  destruct r as [|b r']; [exact I|]. destruct Hw as [Hab Hw].
  split; [|by apply IH].
  apply ltb_of_not_above; [exact Hab|]. intros ->. apply Hnotin. by left.
Qed.

Lemma daily_add_keys (k : string) (ty : TxType) (v : float)
    (d : list (string * (float * float))) :
  (In k (map fst d) -> map fst (daily_add k ty v d) = map fst d)
  /\ (~ In k (map fst d) -> map fst (daily_add k ty v d) = map fst d ++ [k]).
Proof.
  induction d as [|[k' ie] r [IH1 IH2]]; simpl.
  - split; [tauto | reflexivity].
  - destruct (String.eqb_spec k' k) as [->|Hne]; simpl.
    + split; [reflexivity | tauto].
    + split; intros H; f_equal; [apply IH1 | apply IH2]; tauto.
Qed.

Lemma daily_data_keys (txs : list Transaction) :
  forall d,
    List.NoDup (map fst d) ->
    let d' :=
      fold_left
        (fun d t => daily_add (Str.prefix 10 (tx_date t)) (tx_type t) (tx_amount t) d)
        txs d in
    List.NoDup (map fst d')
    /\ (forall k, In k (map fst d')
                  <-> In k (map fst d)
                      \/ exists t, In t txs /\ Str.prefix 10 (tx_date t) = k).
Proof.
  induction txs as [|t r IH]; intros d Hnd; simpl.
  - split; [exact Hnd|]. intros k. split; [auto|]. intros [H|(t & [] & _)]. exact H.
  - set (key := Str.prefix 10 (tx_date t)).
    destruct (daily_add_keys key (tx_type t) (tx_amount t) d) as [Hin Hout].
    destruct (in_dec string_dec key (map fst d)) as [Hk|Hk].
    + specialize (Hin Hk).
      destruct (IH (daily_add key (tx_type t) (tx_amount t) d)) as [H1 H2].
      { by rewrite Hin. }
      split; [exact H1|]. intros k. rewrite H2, Hin. split.
      * intros [H|(t' & Ht' & <-)]; [by left|]. right. exists t'. auto.
      * intros [H|(t' & [<-|Ht'] & <-)]; [by left | by left |].
        right. exists t'. auto.
    + specialize (Hout Hk).
      destruct (IH (daily_add key (tx_type t) (tx_amount t) d)) as [H1 H2].
      { rewrite Hout. by apply snoc_nodup. }
      split; [exact H1|]. intros k. rewrite H2, Hout, in_app_iff. simpl. split.
      * intros [[H|[<-|[]]]|(t' & Ht' & <-)]; [by left | |].
        -- right. exists t. auto.
        -- right. exists t'. auto.
      * intros [H|(t' & [<-|Ht'] & <-)]; [by left; left | left; right; by left |].
        right. exists t'. auto.
Qed.

Section SeriesFacts.

Variable bahia_utcoffset : Z -> Z.

Local Abbreviation report := (get_monthly_report bahia_utcoffset).

(** X21: the daily balance is a calendar. In a monthly report the
    entries of [daily_balance] are in strictly ascending date order with
    one entry per date, the dates are exactly the first ten characters
    of the dates of the month's transactions, and every entry's balance
    is its income minus its expense. *)
Theorem daily_balance_is_by_date (db : DB) (uid : string) (month year : Z)
    (r : MonthlyReportResponse) :
  report db uid month year = Ok r ->
  let txs := month_transactions bahia_utcoffset db uid month year in
  let dates := map dbal_date (mr_daily_balance r) in
  ascending dates
  /\ List.NoDup dates
  /\ (forall d, In d dates
                <-> exists t, In t txs /\ Str.prefix 10 (tx_date t) = d)
  /\ Forall (fun e => dbal_balance e = (dbal_income e - dbal_expense e)%float)
       (mr_daily_balance r).
Proof.
  intros Hr txs dates. unfold get_monthly_report in Hr.
  destruct (negb _); [discriminate|].
  destruct (prev_month_of month year) as [pm py]. injection Hr as <-.
  subst dates. simpl. fold txs.
  assert (Hdates : map dbal_date (daily_balance txs)
                   = map fst (sorted_days (daily_data txs))).
  { unfold daily_balance. rewrite map_map. apply map_ext.
    by intros [k [inc exp]]. }
  rewrite Hdates.
  destruct (daily_data_keys txs [] ltac:(constructor)) as [Hnd Hkeys].
  fold (daily_data txs) in Hnd, Hkeys.
  pose proof (Permutation_map fst (sorted_days_perm (daily_data txs))) as Hperm.
  assert (Hnd' : List.NoDup (map fst (sorted_days (daily_data txs))))
    by (eapply Permutation_NoDup; eassumption).
  split; [|split; [exact Hnd'|split]].
  - apply ascending_of_distinct; [apply sorted_days_weakly_ascending | exact Hnd'].
  - intros d. split.
    + intros H. apply (Permutation_in _ (Permutation_sym Hperm)) in H.
      apply Hkeys in H as [[]|H]. exact H.
    + intros H. apply (Permutation_in _ Hperm). apply Hkeys. by right.
  - unfold daily_balance. apply Forall_forall. intros e He.
    apply list_elem_of_In, in_map_iff in He as ([k [inc exp]] & <- & _).
    reflexivity.
Qed.

End SeriesFacts.

(* ================================================================== *)
(** * Facts: the order of floats *)
(* ================================================================== *)

Ltac sf_order :=
  repeat match goal with
         | s : bool |- _ => destruct s
         end;
  simpl; try congruence;
  repeat match goal with
         | |- context [(?a ?= ?b)%Z] => destruct (Z.compare_spec a b)
         | H : context [(?a ?= ?b)%Z] |- _ => destruct (Z.compare_spec a b)
         | |- context [Pos.compare_cont Eq ?a ?b] =>
             change (Pos.compare_cont Eq a b) with (Pos.compare a b);
             destruct (Pos.compare_spec a b)
         | H : context [Pos.compare_cont Eq ?a ?b] |- _ =>
             change (Pos.compare_cont Eq a b) with (Pos.compare a b) in H;
             destruct (Pos.compare_spec a b)
         end;
  simpl in *; try congruence; try lia.

(** [<] on floats is asymmetric. *)
Lemma float_ltb_asym (a b : float) :
  (a <? b)%float = true -> (b <? a)%float = false.
Proof.
  rewrite !FloatAxioms.ltb_spec. unfold SpecFloat.SFltb, SpecFloat.SFcompare.
  destruct (Prim2SF a), (Prim2SF b); sf_order.
Qed.

(** "Not below" is transitive through a float that is not NaN. *)
Lemma float_not_below_trans (a b c : float) :
  (b =? b)%float = true ->
  (a <? b)%float = false -> (b <? c)%float = false -> (a <? c)%float = false.
Proof.
  rewrite FloatAxioms.eqb_spec, !FloatAxioms.ltb_spec.
  unfold SpecFloat.SFeqb, SpecFloat.SFltb, SpecFloat.SFcompare.
  destruct (Prim2SF a), (Prim2SF b), (Prim2SF c); try congruence; sf_order.
Qed.

(* ================================================================== *)
(** * Facts: the top expense categories *)
(* ================================================================== *)

Lemma insert_desc_perm (x : CategoryAmount) (l : list CategoryAmount) :
  Permutation (x :: l) (insert_desc x l).
Proof.
  induction l as [|y r IH]; simpl; [reflexivity|].
  destruct (ca_amount x <? ca_amount y)%float; [|reflexivity].
  rewrite perm_swap. by constructor.
Qed.

Lemma sorted_by_amount_desc_perm (l : list CategoryAmount) :
  Permutation l (sorted_by_amount_desc l).
Proof.
  induction l as [|x r IH]; simpl; [reflexivity|].
  rewrite <- insert_desc_perm. by constructor.
Qed.

Lemma nodup_firstn {A} (n : nat) (l : list A) :
  List.NoDup l -> List.NoDup (firstn n l).
Proof.
  revert l. induction n as [|n IH]; intros [|x r] Hnd; simpl; try constructor.
  - inversion Hnd; subst. intros Hin. by apply in_firstn in Hin.
  - inversion Hnd; subst. by apply IH.
Qed.

Lemma dict_add_keys (k : string) (v : float) (d : list (string * float)) :
  (In k (map fst d) -> map fst (dict_add k v d) = map fst d)
  /\ (~ In k (map fst d) -> map fst (dict_add k v d) = map fst d ++ [k]).
Proof.
  induction d as [|[k' v'] r [IH1 IH2]]; simpl.
  - split; [tauto | reflexivity].
  - destruct (String.eqb_spec k' k) as [->|Hne]; simpl.
    + split; [reflexivity | tauto].
    + split; intros H; f_equal; [apply IH1 | apply IH2]; tauto.
Qed.

Lemma expense_by_category_keys (txs : list Transaction) :
  forall d,
    List.NoDup (map fst d) ->
    let d' :=
      fold_left
        (fun d t =>
           match tx_type t with
           | EXPENSE => dict_add (tx_category_id t) (tx_amount t) d
           | INCOME => d
           end)
        txs d in
    List.NoDup (map fst d')
    /\ (forall k, In k (map fst d')
                  <-> In k (map fst d)
                      \/ exists t, In t txs /\ tx_type t = EXPENSE
                                   /\ tx_category_id t = k).
Proof.
  induction txs as [|t r IH]; intros d Hnd; simpl.
  - split; [exact Hnd|]. intros k. split; [auto|].
    intros [H|(t & [] & _)]. exact H.
  - destruct (tx_type t) eqn:Hty.
    + destruct (IH d Hnd) as [H1 H2]. split; [exact H1|].
      intros k. rewrite H2. split.
      * intros [H|(t' & Ht' & He & <-)]; [by left|]. right. exists t'. auto.
      * intros [H|(t' & [<-|Ht'] & He & <-)]; [by left | congruence |].
        right. exists t'. auto.
    + set (key := tx_category_id t).
      destruct (dict_add_keys key (tx_amount t) d) as [Hin Hout].
      destruct (in_dec string_dec key (map fst d)) as [Hk|Hk].
      * specialize (Hin Hk).
        destruct (IH (dict_add key (tx_amount t) d)) as [H1 H2].
        { by rewrite Hin. }
        split; [exact H1|]. intros k. rewrite H2, Hin. split.
        -- intros [H|(t' & Ht' & He & <-)]; [by left|]. right. exists t'. auto.
        -- intros [H|(t' & [<-|Ht'] & He & <-)]; [by left | by left |].
           right. exists t'. auto.
      * specialize (Hout Hk).
        destruct (IH (dict_add key (tx_amount t) d)) as [H1 H2].
        { rewrite Hout. by apply snoc_nodup. }
        split; [exact H1|]. intros k. rewrite H2, Hout, in_app_iff. simpl. split.
        -- intros [[H|[<-|[]]]|(t' & Ht' & He & <-)]; [by left | |].
           ++ right. exists t. auto.
           ++ right. exists t'. auto.
        -- intros [H|(t' & [<-|Ht'] & He & <-)];
             [by left; left | left; right; by left |].
           right. exists t'. auto.
Qed.

Lemma categories_get_missing (cats fetched : list Category) (k : string) :
  (forall c, In c fetched -> In c cats) ->
  (forall c, In c cats -> cat_id c <> k) ->
  categories_get fetched k = None.
Proof.
  intros Hsub Hno. unfold categories_get.
  destruct (List.find _ (rev fetched)) as [c|] eqn:E; [|reflexivity].
  apply find_some in E as [Hin Hc]. apply String.eqb_eq in Hc.
  exfalso. apply (Hno c); [|exact Hc]. apply Hsub. rewrite in_rev. exact Hin.
Qed.

Local Abbreviation not_below :=
  (fun a b : CategoryAmount => (ca_amount a <? ca_amount b)%float = false).
Local Abbreviation ordered :=
  (fun a : CategoryAmount => (ca_amount a =? ca_amount a)%float = true).

Lemma insert_desc_sorted (x : CategoryAmount) (l : list CategoryAmount) :
  Forall ordered l ->
  StronglySorted not_below l -> StronglySorted not_below (insert_desc x l).
Proof.
  intros Hord Hs. induction Hs as [|y r Hr IH Hy]; simpl.
  - repeat constructor.
  - inversion Hord as [|? ? Hoy Hor]; subst.
    destruct (ca_amount x <? ca_amount y)%float eqn:E.
    + constructor; [by apply IH|].
      apply List.Forall_forall. intros z Hz.
      apply (Permutation_in _ (Permutation_sym (insert_desc_perm x r))) in Hz.
      destruct Hz as [<-|Hz].
      * by apply float_ltb_asym.
      * by apply (proj1 (List.Forall_forall _ _) Hy).
    + constructor; [by constructor|]. constructor; [exact E|].
      apply List.Forall_forall. intros z Hz.
      apply (float_not_below_trans _ (ca_amount y)); [exact Hoy | exact E |].
      by apply (proj1 (List.Forall_forall _ _) Hy).
Qed.

Lemma sorted_by_amount_desc_sorted (l : list CategoryAmount) :
  Forall ordered l -> StronglySorted not_below (sorted_by_amount_desc l).
Proof.
  induction l as [|x r IH]; intros Hord; simpl; [constructor|].
  inversion Hord; subst. apply insert_desc_sorted; [|by apply IH].
  apply List.Forall_forall. intros z Hz.
  apply (Permutation_in _ (Permutation_sym (sorted_by_amount_desc_perm r))) in Hz.
  by apply (proj1 (List.Forall_forall _ _) H2).
Qed.

Lemma sorted_front_not_below {A} (R : A -> A -> Prop) (l1 l2 : list A) :
  StronglySorted R (l1 ++ l2) ->
  StronglySorted R l1 /\ forall a b, In a l1 -> In b l2 -> R a b.
Proof.
  induction l1 as [|x r IH]; simpl; intros Hs.
  - split; [constructor|]. intros a b [].
  - inversion Hs as [|? ? Hr Hx]; subst. destruct (IH Hr) as [Hs1 Hcross].
    rewrite List.Forall_app in Hx. destruct Hx as [Hx1 Hx2].
    split; [by constructor|].
    intros a b [<-|Ha] Hb.
    + by apply (proj1 (List.Forall_forall _ _) Hx2).
    + by apply Hcross.
Qed.

Lemma dict_add_in (c : string) (a : float) (d : list (string * float))
    (k : string) (v : float) :
  List.NoDup (map fst d) ->
  In (k, v) (dict_add c a d) ->
  (k <> c /\ In (k, v) d)
  \/ (k = c /\ exists v0, In (c, v0) d /\ v = (v0 + a)%float)
  \/ (k = c /\ ~ In c (map fst d) /\ v = (0 + a)%float).
Proof.
  induction d as [|[k' v'] r IH]; simpl; intros Hnd Hin.
  - destruct Hin as [[= <- <-]|[]]. right. right. tauto.
  - inversion Hnd as [|? ? Hk' Hr]; subst.
    destruct (String.eqb_spec k' c) as [->|Hne].
    + destruct Hin as [[= <- <-]|Hin].
      * right. left. split; [reflexivity|]. exists v'. auto.
      * left. split; [|by right]. intros ->. apply Hk'.
        apply in_map_iff. by exists (c, v).
    + destruct Hin as [[= <- <-]|Hin]; [left; split; [exact Hne | by left]|].
      destruct (IH Hr Hin) as [[H1 H2]|[(-> & v0 & H1 & H2)|(-> & H1 & H2)]].
      * left. split; [exact H1 | by right].
      * right. left. split; [reflexivity|]. exists v0. split; [by right | exact H2].
      * right. right. split; [reflexivity|]. split; [|exact H2].
        intros [H|H]; [by apply Hne | by apply H1].
Qed.

(** Every value of [expense_by_category] is the [sum] of the expenses of
    its category, in the order of the list. *)
Lemma expense_by_category_values (txs : list Transaction) :
  forall k v,
    In (k, v) (expense_by_category txs) ->
    v = Py.sum (map tx_amount
                  (List.filter (fun t => TxType_eqb (tx_type t) EXPENSE
                                         && (tx_category_id t =? k)%string) txs)).
Proof.
  induction txs as [|t l IH] using rev_ind; intros k v; [intros []|].
  unfold expense_by_category. rewrite fold_left_app. simpl.
  fold (expense_by_category l). rewrite List.filter_app. simpl.
  destruct (tx_type t) eqn:Hty; simpl.
  - rewrite app_nil_r. apply IH.
  - destruct (expense_by_category_keys l [] ltac:(constructor)) as [Hnd Hkeys].
    fold (expense_by_category l) in Hnd, Hkeys.
    intros Hin. apply dict_add_in in Hin; [|exact Hnd].
    destruct Hin as [[Hne Hin]|[(-> & v0 & Hin & ->)|(-> & Hno & ->)]].
    + destruct (String.eqb_spec (tx_category_id t) k) as [E|_]; [by symmetry in E|].
      rewrite app_nil_r. by apply IH.
    + rewrite String.eqb_refl, map_app. unfold Py.sum. rewrite fold_left_app. simpl.
      f_equal. by apply IH.
    + rewrite String.eqb_refl.
      destruct (List.filter _ l) as [|x r] eqn:E; [reflexivity|].
      exfalso. apply Hno, Hkeys. right.
      assert (Hx : In x (List.filter
                          (fun t0 => TxType_eqb (tx_type t0) EXPENSE
                                     && (tx_category_id t0 =? tx_category_id t)%string) l))
        by (rewrite E; by left).
      apply filter_In in Hx as [Hx Hp]. apply andb_prop in Hp as [Hp1 Hp2].
      exists x. split; [exact Hx|]. apply String.eqb_eq in Hp2.
      split; [|exact Hp2]. by destruct (tx_type x).
Qed.

Section TopCategoryFacts.

Variable bahia_utcoffset : Z -> Z.

Local Abbreviation report := (get_monthly_report bahia_utcoffset).

(** X22: the top expense categories. A monthly report lists the
    categories under which the user has an expense in the month, never
    the same one twice and at most five of them (all of them when the
    month has at most five), each with the [sum] of the month's expenses
    under it; a listed category that is not stored any more appears
    under the placeholder name and color instead of failing the report.
    When no such sum is NaN, the rows are in descending order of amount
    and they are the largest: a category that is left out leaves five
    rows listed, none of which has a smaller amount than it. *)
Theorem top_expense_categories_are_distinct (db : DB) (uid : string)
    (month year : Z) (r : MonthlyReportResponse) :
  report db uid month year = Ok r ->
  let txs := month_transactions bahia_utcoffset db uid month year in
  let top := mr_top_expense_categories r in
  let spent k :=
    exists t, In t txs /\ tx_type t = EXPENSE /\ tx_category_id t = k in
  let total k :=
    Py.sum (map tx_amount
              (List.filter (fun t => TxType_eqb (tx_type t) EXPENSE
                                     && (tx_category_id t =? k)%string) txs)) in
  length top = Nat.min 5 (length (expense_by_category txs))
  /\ List.NoDup (map ca_category_id top)
  /\ (forall row, In row top ->
        spent (ca_category_id row)
        /\ ca_amount row = total (ca_category_id row)
        /\ ((forall c, In c (categories db) -> cat_id c <> ca_category_id row) ->
            ca_name row = "Desconhecida"%string
            /\ ca_color row = "#71717a"%string))
  /\ ((forall k, spent k -> (total k =? total k)%float = true) ->
      StronglySorted
        (fun a b => (ca_amount a <? ca_amount b)%float = false) top
      /\ (forall k, spent k -> ~ In k (map ca_category_id top) ->
            length top = 5%nat
            /\ forall row, In row top ->
                 (ca_amount row <? total k)%float = false)).
Proof.
  intros Hr txs top spent total. unfold get_monthly_report in Hr.
  destruct (negb _); [discriminate|].
  destruct (prev_month_of month year) as [pm py]. injection Hr as <-.
  subst top. simpl. fold txs. unfold top_categories.
  set (by_cat := expense_by_category txs).
  set (rows := category_rows "Desconhecida" (categories db) by_cat).
  destruct (expense_by_category_keys txs [] ltac:(constructor)) as [Hnd Hkeys].
  fold (expense_by_category txs) in Hnd, Hkeys. fold by_cat in Hnd, Hkeys.
  assert (Hspent : forall k, In k (map fst by_cat) <-> spent k).
  { intros k. rewrite Hkeys. split; [|by right]. by intros [[]|H]. }
  assert (Hids : map ca_category_id rows = map fst by_cat).
  { unfold rows, category_rows. rewrite map_map. reflexivity. }
  assert (Hrow : forall row, In row rows ->
             In (ca_category_id row, ca_amount row) by_cat
             /\ ca_amount row = total (ca_category_id row)).
  { intros row Hin. unfold rows, category_rows in Hin.
    apply in_map_iff in Hin as ([k v] & <- & Hkv). simpl.
    split; [exact Hkv|]. by apply expense_by_category_values. }
  pose proof (sorted_by_amount_desc_perm rows) as Hperm.
  split; [|split; [|split]].
  - rewrite length_firstn, <- (Permutation_length Hperm).
    unfold rows, category_rows. by rewrite length_map.
  - rewrite <- firstn_map. apply nodup_firstn.
    eapply Permutation_NoDup; [apply Permutation_map, Hperm|].
    by rewrite Hids.
  - intros row Hin. apply in_firstn in Hin.
    apply (Permutation_in _ (Permutation_sym Hperm)) in Hin.
    destruct (Hrow row Hin) as [Hkv Hamount].
    split; [|split; [exact Hamount|]].
    + apply (proj1 (Hspent (ca_category_id row))). apply in_map_iff.
      exists (ca_category_id row, ca_amount row). split; [reflexivity | exact Hkv].
    + unfold rows, category_rows in Hin.
      apply in_map_iff in Hin as ([k v] & <- & _). simpl. intros Hmissing.
      rewrite (categories_get_missing (categories db) _ k); [by split| |exact Hmissing].
      intros c Hc. unfold fetch_categories in Hc. apply in_firstn in Hc.
      by apply filter_In in Hc as [Hc _].
  - intros Hord.
    assert (Hrows : Forall (fun a => (ca_amount a =? ca_amount a)%float = true) rows).
    { apply List.Forall_forall. intros row Hin.
      destruct (Hrow row Hin) as [Hkv ->]. apply Hord.
      apply (proj1 (Hspent (ca_category_id row))). apply in_map_iff.
      exists (ca_category_id row, ca_amount row). split; [reflexivity | exact Hkv]. }
    pose proof (sorted_by_amount_desc_sorted rows Hrows) as Hsorted.
    rewrite <- (firstn_skipn 5 (sorted_by_amount_desc rows)) in Hsorted.
    apply sorted_front_not_below in Hsorted as [Hfront Hcross].
    split; [exact Hfront|]. intros k Hk Hout.
    apply (proj2 (Hspent k)) in Hk. rewrite <- Hids in Hk.
    apply in_map_iff in Hk as (rk & Hid & Hin).
    destruct (Hrow rk Hin) as [_ Htotal]. rewrite Hid in Htotal.
    apply (Permutation_in _ Hperm) in Hin.
    rewrite <- (firstn_skipn 5 (sorted_by_amount_desc rows)) in Hin.
    apply in_app_or in Hin as [Hin|Hin].
    { exfalso. apply Hout, in_map_iff. by exists rk. }
    split.
    + rewrite length_firstn. apply Nat.min_l.
      destruct (Nat.le_gt_cases 5 (length (sorted_by_amount_desc rows)))
        as [H|H]; [exact H|].
      rewrite skipn_all2 in Hin by lia. destruct Hin.
    + intros row Hrow'. rewrite <- Htotal. by apply Hcross.
Qed.

End TopCategoryFacts.

Lemma unique_by_key {A B} (f : A -> B) (l : list A) (a b : A) :
  List.NoDup (map f l) -> In a l -> In b l -> f a = f b -> a = b.
Proof.
  induction l as [|x r IH]; simpl; [tauto|].
  intros Hnd Ha Hb Hf. inversion Hnd as [|? ? Hnotin Hr]; subst.
  destruct Ha as [->|Ha], Hb as [->|Hb]; auto.
  - exfalso. apply Hnotin. rewrite Hf. by apply in_map.
  - exfalso. apply Hnotin. rewrite <- Hf. by apply in_map.
Qed.

Section TransactionUpdateFacts.

Variable fromisoformat : string -> option DT.datetime.

Local Abbreviation patch := (update_transaction fromisoformat).

(** X23: an update does not re-check the category's type. With
    document and category ids stored at most once, an update that moves
    a live transaction of the caller to any category of the caller is
    carried out (never answered 400 or 404) whatever the type of that
    category: when the type is neither [BOTH] nor the transaction's
    type, the stored transaction ends up under a category that does not
    admit it. *)
Theorem update_transaction_skips_type_check (db : DB) (uid tid : string)
    (now : Z) (update : TransactionUpdate) (t : Transaction)
    (cid : string) (c : Category) :
  List.NoDup (map tx_id (transactions db)) ->
  List.NoDup (map cat_id (categories db)) ->
  List.find (live_with_id tid uid) (transactions db) = Some t ->
  List.find (owned_category cid uid) (categories db) = Some c ->
  tu_category_id update = Some (Some cid) ->
  tu_amount update <> Some None ->
  cat_type c <> "BOTH"%string ->
  cat_type c <> type_name (default (tx_type t) (tu_type update)) ->
  let out := patch db uid tid now update in
  (forall status, fst out = Err status -> status = 500)
  /\ categories (snd out) = categories db
  /\ exists t',
       In t' (transactions (snd out))
       /\ (tx_id t', tx_user_id t', tx_deleted_at t') = (tid, uid, None)
       /\ tx_category_id t' = cid
       /\ tx_type t' = default (tx_type t) (tu_type update)
       /\ ~ compatible (categories (snd out)) t'.
Proof.
  intros Hnd Hcnd Hfind Hcat Hcid Hamount Hboth Htype.
  destruct (find_live_with_id _ _ _ _ Hfind) as (Hin & Hid & Hu & Hdel).
  unfold update_transaction. rewrite Hfind, Hcid, Hcat. cbn [is_None negb].
  assert (Hempty : update_is_empty update = false).
  { unfold update_is_empty. rewrite Hcid. simpl. by rewrite !andb_false_r. }
  assert (Hbad : forall t',
             tx_category_id t' = cid ->
             tx_type t' = default (tx_type t) (tu_type update) ->
             ~ compatible (categories db) t').
  { intros t' Hfc Hft (c' & Hc' & Hcid' & _ & Hty).
    rewrite Hfc in Hcid'. rewrite Hft in Hty.
    apply find_some in Hcat as [Hc Hown]. unfold owned_category in Hown.
    apply andb_prop in Hown as [Hown _]. apply String.eqb_eq in Hown.
    assert (c' = c) as -> by (apply (unique_by_key cat_id (categories db)); congruence).
    tauto. }
  assert (Hgoal : forall (f : Transaction -> Transaction)
                    (out : result TransactionResponse * DB),
             (tx_id (f t), tx_user_id (f t), tx_deleted_at (f t)) = (tid, uid, None) ->
             tx_category_id (f t) = cid ->
             tx_type (f t) = default (tx_type t) (tu_type update) ->
             snd out
             = set_transactions db
                 (map (fun t0 => if (tx_id t0 =? tid)%string then f t0 else t0)
                    (transactions db)) ->
             (forall status, fst out = Err status -> status = 500) ->
             (forall status, fst out = Err status -> status = 500)
             /\ categories (snd out) = categories db
             /\ exists t',
                  In t' (transactions (snd out))
                  /\ (tx_id t', tx_user_id t', tx_deleted_at t') = (tid, uid, None)
                  /\ tx_category_id t' = cid
                  /\ tx_type t' = default (tx_type t) (tu_type update)
                  /\ ~ compatible (categories (snd out)) t').
  { intros f out H1 H2 H3 -> Hst. split; [exact Hst|]. split; [reflexivity|].
    exists (f t). simpl. split; [|split; [exact H1|split; [exact H2|split; [exact H3|]]]].
    - apply in_map_iff. exists t. split; [|exact Hin].
      by rewrite Hid, String.eqb_refl.
    - apply Hbad; auto. }
  destruct (tu_amount update) as [[a|]|]; [|congruence|]; cbn zeta;
    rewrite Hempty, (update_one_unique_id _ _ _ Hnd);
    (match goal with
     | |- context [List.find ?p (transactions (set_transactions ?d ?l))] =>
         destruct (List.find p (transactions (set_transactions d l))) as [upd|]
     end;
     [match goal with
      | |- context [transaction_response ?g ?d ?u] =>
          destruct (transaction_response g d u)
      end|]);
    (eapply Hgoal; cycle 3;
     [ reflexivity
     | simpl; first [discriminate | intros s [= <-]; reflexivity]
     | simpl; by rewrite Hid, Hu, Hdel
     | reflexivity
     | reflexivity ]).
Qed.

End TransactionUpdateFacts.

(* ================================================================== *)
(** * Concrete runs of the facts above *)
(* ================================================================== *)

Lemma logout_then_refresh_fails_witness :
  refresh_token demo_encode_jti demo_decode DT.fromisoformat_basic
    (snd (logout demo_auth_db "u1.j1")) (DT.minutes 1) "j2" "r2" "u1.j1"
  = (Err 401, snd (logout demo_auth_db "u1.j1")).
Proof.
  apply (logout_then_refresh_fails demo_encode_jti demo_decode
           DT.fromisoformat_basic demo_auth_db "u1.j1").
  exact demo_tokens_nodup.
Defined.

Lemma token_types_are_separate_witness :
  get_current_user demo_decode demo_auth_db (DT.minutes 1)
    (Some "Bearer u1.j1"%string) = Err 401.
Proof.
  refine (proj1 (token_types_are_separate demo_encode_jti demo_decode
                   DT.fromisoformat_basic demo_auth_db (DT.minutes 1) "u1.j1"
                   (mk_payload (Some "u1") (DT.days 7) (Some "refresh") (Some "j1"))%string
                   _ _) _).
  - reflexivity.
  - simpl. intuition discriminate.
  - discriminate.
Defined.

Lemma current_user_is_token_subject_witness :
  exists auth_header token payload user,
    Some "Bearer u1.access"%string = Some auth_header
    /\ String.prefix "Bearer " auth_header = true
    /\ nth_error (split_space auth_header) 1 = Some token
    /\ demo_decode_more token (DT.minutes 1) = Claims payload
    /\ p_type payload = Some "access"%string
    /\ List.find (user_has_id (p_sub payload)) (users demo_auth_db) = Some user
    /\ p_sub payload = Some (u_id user)
    /\ mk_current_user "u1" "ana@example.com" "Ana" "dark" "2024-01-01T00:00:00+00:00"
       = without_password user.
Proof.
  apply (current_user_is_token_subject demo_decode_more demo_auth_db (DT.minutes 1)).
  vm_compute. reflexivity.
Defined.

Lemma register_creates_account_witness :
  users (snd demo_registered)
  = users demo_auth_db
    ++ [mk_user "u2" "bia@example.com" "Bia" "salt$Senha123" "dark"
          "2024-03-01T12:00:00+00:00"].
Proof.
  refine (proj1 (register_creates_account demo_encode_jti demo_lower demo_hash
                   demo_auth_db (snd demo_registered) demo_now demo_now "u2" "r5" "j5" "salt"
                   demo_uuid "bia@example.com" "Bia" "Senha123"
                   demo_registered_response _)).
  vm_compute. reflexivity.
Defined.

Lemma register_rejects_taken_email_witness :
  register demo_encode_jti demo_lower demo_hash (snd demo_registered)
    (demo_now + DT.minutes 1) (demo_now + DT.minutes 1) "u3" "r6" "j6" "salt" demo_uuid
    "bia@example.com" "Outra Bia" "Outra123"
  = (Err 400, snd demo_registered).
Proof.
  refine (register_rejects_taken_email demo_encode_jti demo_lower demo_hash
            demo_auth_db (snd demo_registered) demo_now demo_now "u2" "r5" "j5" "salt"
            demo_uuid "bia@example.com" "Bia" "Senha123" demo_registered_response
            _ _ _ _ _ _ _ _ _ _ _ _).
  - vm_compute. reflexivity.
  - reflexivity.
Defined.

Lemma register_then_login_witness :
  exists resp2 la2 db2,
    login demo_encode_jti demo_check demo_lower DT.fromisoformat_basic
      ∅ (snd demo_registered) (demo_now + DT.minutes 1) (demo_now + DT.minutes 1)
      "j7" "r7" "bia@example.com" "Senha123"
    = (Ok resp2, la2, db2)
    /\ ur_id (user_of resp2) = "u2"%string
    /\ ur_email (user_of resp2) = demo_lower "bia@example.com"
    /\ la2 !! demo_lower "bia@example.com" = None.
Proof.
  refine (register_then_login demo_encode_jti demo_check demo_lower
            DT.fromisoformat_basic demo_hash demo_auth_db (snd demo_registered)
            demo_now demo_now "u2" "r5" "j5" "salt" demo_uuid "bia@example.com" "Bia"
            "Senha123" demo_registered_response ∅ _ _ "j7" "r7" "bia@example.com"
            (utc demo_now) _ _ _ _ _).
  - vm_compute. reflexivity.
  - reflexivity.
  - vm_compute. reflexivity.
  - reflexivity.
  - reflexivity.
Defined.

Lemma register_then_refresh_witness :
  exists resp2 db2,
    refresh_token demo_encode_jti demo_decode_more DT.fromisoformat_basic
      (snd demo_registered) (demo_now + DT.minutes 20) "j8" "r8"
      (refresh_token_of demo_registered_response)
    = (Ok resp2, db2)
    /\ ur_id (user_of resp2) = "u2"%string
    /\ length (refresh_tokens db2) = length (refresh_tokens (snd demo_registered)).
Proof.
  refine (register_then_refresh demo_encode_jti demo_decode_more
            demo_lower DT.fromisoformat_basic demo_hash demo_auth_db
            (snd demo_registered) demo_now demo_now "u2" "r5" "j5" "salt" demo_uuid
            "bia@example.com" "Bia" "Senha123" demo_registered_response
            _ "j8" "r8"
            (mk_payload (Some "u2") (DT.days 7) (Some "refresh") (Some "j5"))%string
            (utc demo_now) _ _ _ _ _ _).
  - vm_compute. reflexivity.
  - repeat constructor. discriminate.
  - reflexivity.
  - reflexivity.
  - reflexivity.
  - vm_compute. reflexivity.
Defined.

Lemma login_hides_account_existence_witness :
  fst (login demo_encode_jti demo_check demo_lower DT.fromisoformat_basic
         ∅ (mk_db [] [] [] []) demo_now demo_now "j" "r" "ana@example.com" "Errada123")
  = fst (login demo_encode_jti demo_check demo_lower DT.fromisoformat_basic
           ∅ demo_auth_db demo_now demo_now "j" "r" "ana@example.com" "Errada123").
Proof.
  refine (proj1 (login_hides_account_existence demo_encode_jti demo_check demo_lower
                   DT.fromisoformat_basic ∅ (mk_db [] [] [] []) demo_auth_db
                   demo_now demo_now "j" "r" "ana@example.com" "Errada123"
                   (mk_user "u1" "ana@example.com" "Ana" "hash" "dark"
                      "2024-01-01T00:00:00+00:00") _ _ _)).
  - reflexivity.
  - reflexivity.
  - reflexivity.
Defined.

Lemma create_transaction_fits_category_witness :
  exists doc,
    transactions (snd demo_created) = transactions demo_cat_db ++ [doc]
    /\ compatible (categories (snd demo_created)) doc
    /\ tx_amount doc = Py.round2 42.5.
Proof.
  destruct (create_transaction_fits_category demo_cat_db (snd demo_created) "u1"
              demo_now "t9" demo_new_transaction (fst demo_created)
              (surjective_pairing demo_created)) as [_ Hok].
  destruct (Hok demo_created_response ltac:(vm_compute; reflexivity))
    as (doc & Htx & _ & Hfit & _ & _ & _ & Hamount & _).
  exists doc. split; [exact Htx|]. split; [exact Hfit | exact Hamount].
Defined.

Lemma create_then_get_transaction_witness :
  exists got,
    get_transaction DT.fromisoformat_basic (snd demo_created) "u1" "t9" = Ok got
    /\ tr_amount got = Py.round2 42.5
    /\ tr_created_at got = utc demo_now.
Proof.
  destruct (create_then_get_transaction DT.fromisoformat_basic demo_cat_db
              (snd demo_created) "u1" demo_now "t9" demo_new_transaction
              demo_created_response (DT.at_ 2024 3 1 10 0 0 (Some (-180)))
              (utc demo_now))
    as (got & Hget & _ & Hamount & _ & Hdates).
  - vm_compute. reflexivity.
  - repeat constructor; discriminate.
  - vm_compute. reflexivity.
  - vm_compute. reflexivity.
  - exists got. split; [exact Hget|]. split; [exact Hamount|].
    by injection Hdates as _ -> _.
Defined.

Lemma delete_transaction_hides_it_witness :
  get_transaction DT.fromisoformat_basic
    (snd (delete_transaction demo_cat_db "u1" "t1" demo_now)) "u1" "t1"
  = Err 404.
Proof.
  refine (proj1 (proj2 (proj2 (proj2 (proj2 (proj2
            (delete_transaction_hides_it DT.fromisoformat_basic demo_cat_db
               (snd (delete_transaction demo_cat_db "u1" "t1" demo_now))
               "u1" "t1" demo_now _ _))))))).
  - simpl. repeat constructor; simpl; intuition discriminate.
  - reflexivity.
Defined.

Lemma pages_partition_the_listing_witness :
  concat (map (fun p => page_items ["a"; "b"; "c"; "d"; "e"; "f"; "g"]%string
                          (Z.of_nat p) 3)
            (seq 1 (Z.to_nat (total_pages 7 3))))
  = ["a"; "b"; "c"; "d"; "e"; "f"; "g"]%string.
Proof.
  refine (proj1 (pages_partition_the_listing
                   ["a"; "b"; "c"; "d"; "e"; "f"; "g"]%string 3 _)).
  lia.
Defined.

Lemma goal_progress_is_capped_witness :
  exists goal,
    In goal demo_goals
    /\ (100 <? g_current_amount goal / g_target_amount goal * 100)%float = true
    /\ option_map gr_progress
         (match get_goal DT.fromisoformat_basic demo_goals "u1" "g1" with
          | Ok resp => Some resp
          | Err _ => None
          end) = Some 100%float.
Proof.
  destruct (get_goal DT.fromisoformat_basic demo_goals "u1" "g1") as [resp|status]
    eqn:Hget; [|vm_compute in Hget; discriminate].
  destruct (goal_progress_is_capped DT.fromisoformat_basic demo_goals "u1" "g1"
              resp Hget) as (goal & Hin & _ & _ & _ & _ & _ & Hcap & _).
  exists goal.
  assert (Hgoal : goal = mk_goal "g1" "u1" "Viagem" 100 150 None None "#6366f1"
                            "2024-01-01T00:00:00+00:00").
  { destruct Hin as [<-|[]]. reflexivity. }
  split; [exact Hin|]. subst goal. split; [reflexivity|].
  simpl. f_equal. apply Hcap; reflexivity.
Defined.

Lemma goal_create_get_delete_witness :
  exists created doc,
    create_goal demo_goals "u1" demo_now "g2" demo_new_goal
    = (Ok created, demo_goals ++ [doc])
    /\ delete_goal (demo_goals ++ [doc]) "u1" "g2" = (Ok tt, demo_goals)
    /\ get_goal DT.fromisoformat_basic demo_goals "u1" "g2" = Err 404.
Proof.
  destruct (goal_create_get_delete DT.fromisoformat_basic demo_goals "u1"
              demo_now "g2" demo_new_goal (utc demo_now))
    as (created & doc & Hcreate & _ & _ & Hdelete & Hgone).
  - repeat constructor; discriminate.
  - vm_compute. reflexivity.
  - intros d [= <-]. vm_compute. reflexivity.
  - exists created, doc. split; [exact Hcreate|]. split; [exact Hdelete | exact Hgone].
Defined.

Lemma reports_read_own_live_transactions_witness :
  get_monthly_report demo_bahia demo_ledger_shared "u1" 1 2024
  = get_monthly_report demo_bahia demo_ledger "u1" 1 2024
  /\ get_dashboard demo_bahia DT.fromisoformat_basic demo_ledger_shared "u1"
       2024 1 None None
     = get_dashboard demo_bahia DT.fromisoformat_basic demo_ledger "u1"
         2024 1 None None.
Proof.
  destruct (reports_read_own_live_transactions demo_bahia DT.fromisoformat_basic
              demo_ledger_shared demo_ledger "u1") as [Hreport Hdash].
  - reflexivity.
  - reflexivity.
  - split; [apply Hreport | apply Hdash].
Defined.

Lemma previous_month_ends_before_month_witness :
  prev_month_of 1 2024 = (12, 2023)
  /\ DT.wall (month_last demo_bahia 2023 12)
     = DT.wall (month_first demo_bahia 2024 1) - DT.seconds 1.
Proof.
  split; [reflexivity|].
  refine (proj2 (proj2 (previous_month_ends_before_month demo_bahia 1 2024 _))).
  lia.
Defined.

Lemma month_range_spans_the_month_witness :
  DT.wall (month_last demo_bahia 2024 2) - DT.wall (month_first demo_bahia 2024 2)
  = DT.days 29 - DT.seconds 1.
Proof.
  refine (month_range_spans_the_month demo_bahia 2024 2 _). lia.
Defined.

Lemma default_dashboard_matches_monthly_report_witness :
  exists r,
    get_monthly_report demo_bahia demo_deficit "u1" 1 2024 = Ok r
    /\ dr_total_expense demo_dashboard = mr_total_expense r.
Proof.
  destruct (default_dashboard_matches_monthly_report demo_bahia
              DT.fromisoformat_basic demo_deficit "u1" 2024 1 demo_dashboard)
    as (r & Hr & _ & Hexp & _).
  - lia.
  - lia.
  - vm_compute. reflexivity.
  - exists r. split; [exact Hr | exact Hexp].
Defined.

Lemma daily_balance_is_by_date_witness :
  ascending (map dbal_date (mr_daily_balance demo_report))
  /\ List.NoDup (map dbal_date (mr_daily_balance demo_report)).
Proof.
  destruct (daily_balance_is_by_date demo_bahia demo_ledger "u1" 1 2024 demo_report)
    as (Hasc & Hnodup & _).
  - vm_compute. reflexivity.
  - split; [exact Hasc | exact Hnodup].
Defined.

Lemma top_expense_categories_are_distinct_witness :
  map (fun row => (ca_category_id row, ca_name row, ca_amount row))
    (mr_top_expense_categories demo_top_report)
  = [("c5", "Desconhecida", 50%float); ("c2", "Transporte", 40%float);
     ("c3", "Moradia", 30%float); ("c4", "Lazer", 20%float);
     ("c1", "Mercado", 15%float)]%string
  /\ StronglySorted (fun a b => (ca_amount a <? ca_amount b)%float = false)
       (mr_top_expense_categories demo_top_report)
  /\ forall row, In row (mr_top_expense_categories demo_top_report) ->
                 (ca_amount row <? 1)%float = false.
Proof.
  destruct (top_expense_categories_are_distinct demo_bahia demo_top_ledger "u1"
              1 2024 demo_top_report ltac:(vm_compute; reflexivity))
    as (_ & _ & _ & Htop).
  split; [vm_compute; reflexivity|].
  destruct Htop as [Hsorted Hlargest].
  { intros k (t & Hin & _ & <-). vm_compute in Hin.
    repeat destruct Hin as [<-|Hin]; try (vm_compute; reflexivity). destruct Hin. }
  split; [exact Hsorted|].
  destruct (Hlargest "c6"%string) as [_ Hrows].
  - exists (demo_entry "t2" EXPENSE 1 "2024-01-04T09:00:00-03:00" "c6").
    split; [vm_compute; tauto|]. split; reflexivity.
  - vm_compute. intuition discriminate.
  - intros row Hrow. specialize (Hrows row Hrow).
    replace 1%float with
      (Py.sum (map tx_amount
                 (List.filter (fun t => TxType_eqb (tx_type t) EXPENSE
                                        && (tx_category_id t =? "c6")%string)
                    (month_transactions demo_bahia demo_top_ledger "u1" 1 2024))))
      by (vm_compute; reflexivity).
    exact Hrows.
Defined.

Lemma update_transaction_skips_type_check_witness :
  exists t',
    In t' (transactions
             (snd (update_transaction DT.fromisoformat_basic demo_cat_db_income
                     "u1" "t1" demo_now demo_move_to_income)))
    /\ (tx_id t', tx_type t', tx_category_id t') = ("t1", EXPENSE, "c3")%string
    /\ ~ compatible (categories demo_cat_db_income) t'.
Proof.
  destruct (update_transaction_skips_type_check DT.fromisoformat_basic
              demo_cat_db_income "u1" "t1" demo_now demo_move_to_income
              (demo_tx "t1" "c1" None) "c3"
              (mk_cat "c3" "u1" "Freelance" "INCOME" "#06b6d4" None
                 "2024-01-01T00:00:00+00:00"))
    as (_ & Hcats & t' & Hin & Hids & Hcat & Hty & Hbad).
  - simpl. repeat constructor; simpl; intuition discriminate.
  - simpl. repeat constructor; simpl; intuition discriminate.
  - reflexivity.
  - reflexivity.
  - reflexivity.
  - discriminate.
  - discriminate.
  - discriminate.
  - exists t'. split; [exact Hin|]. split.
    + injection Hids as -> _ _. by rewrite Hty, Hcat.
    + by rewrite <- Hcats.
Defined.
